(** * Performance assessment polar chart: scoring record engine and sync policy

    A shallow embedding of the client application ([script.js]), the
    assessment model ([models/Assessment]), the request validation
    ([middleware/validation.js]) and the assessment controller
    ([controllers/assessmentController]), with the properties of the
    specification stated over them.

    Conventions of the embedding.
    - A JavaScript string is a [string] of 8-bit code units (the Latin-1
      range of UTF-16); whitespace is what [String.prototype.trim] strips
      in that range.
    - A JavaScript number is [jsnum]: NaN, the two infinities, or a finite
      value kept as an exact rational.  Rounding to binary64 is not
      modelled; it is monotone and fixes 0 and 5, so every comparison the
      code makes against the rating bounds is the one made here.  Negative
      zero is identified with zero: no function below can tell them apart.
    - An [async] function that no caller awaits is given in two parts,
      the function up to its [await] and from its [await] on, and as a
      whole for a request that settles before anything else runs; a
      rejected promise is a raised exception. *)

From Stdlib Require Import ZArith QArith Qreduction String Ascii List Bool Lia.
From Stdlib Require Import DecimalString Permutation Lqa.
Import ListNotations.

Open Scope string_scope.
Open Scope Z_scope.

(* ================================================================== *)
(** * ECMAScript primitives used by the code *)
(* ================================================================== *)

Module JS.

(** ** Characters *)

Definition code (c : ascii) : N := N_of_ascii c.

Definition between (lo hi : N) (c : ascii) : bool :=
  (N.leb lo (code c) && N.leb (code c) hi)%bool.

(** WhiteSpace and LineTerminator code points below 256. *)
Definition isWhiteSpace (c : ascii) : bool :=
  (between 9 13 c || N.eqb (code c) 32 || N.eqb (code c) 160)%bool.

Definition isDigit (c : ascii) : bool := between 48 57 c.
Definition isLower (c : ascii) : bool := between 97 122 c.
Definition isUpper (c : ascii) : bool := between 65 90 c.

Definition digitVal (c : ascii) : Z := Z.of_N (code c) - 48.

(** Value of a hexadecimal digit, if it is one. *)
Definition hexVal (c : ascii) : option Z :=
  if isDigit c then Some (digitVal c)
  else if between 97 102 c then Some (Z.of_N (code c) - 87)
  else if between 65 70 c then Some (Z.of_N (code c) - 55)
  else None.

(** [String.prototype.toLowerCase] on one Latin-1 code unit. *)
Definition toLowerChar (c : ascii) : ascii :=
  if (isUpper c
      || (between 192 222 c && negb (N.eqb (code c) 215)))%bool
  then ascii_of_N (code c + 32) else c.

(** ** Strings *)

Fixpoint smap (f : ascii -> ascii) (s : string) : string :=
  match s with
  | EmptyString => EmptyString
  | String c r => String (f c) (smap f r)
  end.

Definition toLowerCase (s : string) : string := smap toLowerChar s.

Fixpoint trimStart (s : string) : string :=
  match s with
  | EmptyString => EmptyString
  | String c r => if isWhiteSpace c then trimStart r else s
  end.

Fixpoint trimEnd (s : string) : string :=
  match s with
  | EmptyString => EmptyString
  | String c r =>
      match trimEnd r with
      | EmptyString => if isWhiteSpace c then EmptyString else String c EmptyString
      | r' => String c r'
      end
  end.

Definition trim (s : string) : string := trimEnd (trimStart s).

(** [s.split(sep)] for a one-character separator: never empty. *)
Fixpoint split (sep : ascii) (s : string) : list string :=
  match s with
  | EmptyString => [EmptyString]
  | String c r =>
      if Ascii.eqb c sep then EmptyString :: split sep r
      else match split sep r with
           | h :: t => String c h :: t
           | [] => [String c EmptyString]
           end
  end.

Fixpoint startsWith (p s : string) : bool :=
  match p, s with
  | EmptyString, _ => true
  | String a p', String b s' => (Ascii.eqb a b && startsWith p' s')%bool
  | String _ _, EmptyString => false
  end.

(** [s.includes(p)]. *)
Fixpoint includes (p s : string) : bool :=
  (startsWith p s ||
   match s with
   | EmptyString => false
   | String _ r => includes p r
   end)%bool.

Fixpoint take (n : nat) (s : string) : string :=
  match n, s with
  | O, _ => EmptyString
  | S _, EmptyString => EmptyString
  | S k, String c r => String c (take k r)
  end.

Fixpoint drop (n : nat) (s : string) : string :=
  match n, s with
  | O, _ => s
  | S _, EmptyString => EmptyString
  | S k, String _ r => drop k r
  end.

(** [s.substring(0, n)]. *)
Definition substring0 (n : nat) (s : string) : string := take n s.

(** Longest prefix of characters satisfying [p], and the rest. *)
Fixpoint span (p : ascii -> bool) (s : string) : string * string :=
  match s with
  | EmptyString => (EmptyString, EmptyString)
  | String c r =>
      if p c then let (a, b) := span p r in (String c a, b)
      else (EmptyString, s)
  end.

(** The double quote character, as a string. *)
Definition dquote : string := String (ascii_of_nat 34) EmptyString.

Fixpoint repeatChar (c : ascii) (n : nat) : string :=
  match n with
  | O => EmptyString
  | S k => String c (repeatChar c k)
  end.

(** ** Numbers *)

Inductive jsnum : Type :=
| NaN
| Inf (negative : bool)
| Fin (q : Q).

Definition isNaN (n : jsnum) : bool :=
  match n with NaN => true | _ => false end.

Definition Qltb (x y : Q) : bool := negb (Qle_bool y x).

(** [x < y] on numbers; false when either is NaN. *)
Definition ltb (x y : jsnum) : bool :=
  match x, y with
  | NaN, _ | _, NaN => false
  | Inf true, Inf true => false
  | Inf true, _ => true
  | _, Inf true => false
  | Inf false, _ => false
  | _, Inf false => true
  | Fin a, Fin b => Qltb a b
  end.

(** [Math.min(a, b)] and [Math.max(a, b)]. *)
Definition Math_min (a b : jsnum) : jsnum :=
  match a, b with
  | NaN, _ | _, NaN => NaN
  | _, _ => if ltb b a then b else a
  end.

Definition Math_max (a b : jsnum) : jsnum :=
  match a, b with
  | NaN, _ | _, NaN => NaN
  | _, _ => if ltb a b then b else a
  end.

Definition ofZ (z : Z) : jsnum := Fin (inject_Z z).

(** [a + b] on numbers. *)
Definition add (a b : jsnum) : jsnum :=
  match a, b with
  | NaN, _ | _, NaN => NaN
  | Inf s, Inf t => if Bool.eqb s t then Inf s else NaN
  | Inf s, Fin _ | Fin _, Inf s => Inf s
  | Fin x, Fin y => Fin (x + y)
  end.

(** [a / b] on numbers. *)
Definition div (a b : jsnum) : jsnum :=
  match a, b with
  | NaN, _ | _, NaN => NaN
  | Inf _, Inf _ => NaN
  | Inf s, Fin y => Inf (xorb s (Qltb y 0))
  | Fin _, Inf _ => Fin 0
  | Fin x, Fin y =>
      if Qeq_bool y 0
      then (if Qeq_bool x 0 then NaN else Inf (Qltb x 0))
      else Fin (x / y)
  end.

(** Value of a string of decimal digits, most significant first. *)
Fixpoint digitsAcc (acc : Z) (s : string) : Z :=
  match s with
  | EmptyString => acc
  | String c r => digitsAcc (10 * acc + digitVal c) r
  end.

Definition digitsToZ (s : string) : Z := digitsAcc 0 s.

Definition strlen (s : string) : Z := Z.of_nat (String.length s).

(** Sign prefix of a numeric literal: the sign and what follows it. *)
Definition readSign (s : string) : bool * string :=
  match s with
  | String "-" r => (true, r)
  | String "+" r => (false, r)
  | _ => (false, s)
  end.

(** ExponentPart of a StrDecimalLiteral: [e] or [E], an optional sign and
    at least one digit; 0 when the text does not continue that way. *)
Definition readExponent (s : string) : Z :=
  match s with
  | String c r =>
      if (Ascii.eqb c "e" || Ascii.eqb c "E")%bool then
        let (neg, r1) := readSign r in
        let (es, _) := span isDigit r1 in
        match es with
        | EmptyString => 0
        | _ => if neg then - digitsToZ es else digitsToZ es
        end
      else 0
  | EmptyString => 0
  end.

(** The number denoted by the longest prefix of [s] that is a
    StrUnsignedDecimalLiteral other than [Infinity]. *)
Definition readDecimal (s : string) : option Q :=
  let (ip, r1) := span isDigit s in
  let (fp, r2) :=
    match r1 with
    | String "." r => span isDigit r
    | _ => (EmptyString, r1)
    end in
  match ip, fp with
  | EmptyString, EmptyString => None
  | _, _ =>
      let m := digitsToZ (ip ++ fp) in
      let e := readExponent r2 - strlen fp in
      Some (Qred (inject_Z m * Qpower (10 # 1) e))
  end.

(** [parseFloat] on a string. *)
Definition parseFloatStr (s : string) : jsnum :=
  let (neg, r) := readSign (trimStart s) in
  if startsWith "Infinity" r then Inf neg
  else match readDecimal r with
       | None => NaN
       | Some q => Fin (if neg then Qred (- q) else q)
       end.

(** Digits of [s] in the given radix, as long as they last. *)
Fixpoint radixAcc (radix : Z) (acc : option Z) (s : string) : option Z :=
  match s with
  | EmptyString => acc
  | String c r =>
      match hexVal c with
      | Some d =>
          if d <? radix
          then radixAcc radix
                 (Some (radix * match acc with Some a => a | None => 0 end + d)) r
          else acc
      | None => acc
      end
  end.

(** [parseInt] on a string, radix argument absent. *)
Definition parseIntStr (s : string) : jsnum :=
  let (neg, r) := readSign (trimStart s) in
  let (radix, body) :=
    match r with
    | String "0" (String x r') =>
        if (Ascii.eqb x "x" || Ascii.eqb x "X")%bool then (16, r') else (10, r)
    | _ => (10, r)
    end in
  match radixAcc radix None body with
  | None => NaN
  | Some z => ofZ (if neg then - z else z)
  end.

(** ** Number to string *)

Definition natStr (n : Z) : string :=
  NilZero.string_of_uint (N.to_uint (Z.to_N n)).

(** Least [j <= fuel] with [den] dividing [10^j], else [fuel]. *)
Fixpoint decimalPlaces (fuel : nat) (den pow : Z) (j : Z) : Z :=
  match fuel with
  | O => j
  | S k => if pow mod den =? 0 then j
           else decimalPlaces k den (10 * pow) (j + 1)
  end.

(** Remove trailing zeros of a positive integer, counting them. *)
Fixpoint stripZeros (fuel : nat) (n t : Z) : Z * Z :=
  match fuel with
  | O => (n, t)
  | S k => if (n mod 10 =? 0) && negb (n =? 0)
           then stripZeros k (n / 10) (t + 1) else (n, t)
  end.

(** Number::toString of a positive finite value: with digits [s], their
    count [k] and the decimal exponent [n] such that the value is
    [0.s * 10^n].  Values whose expansion does not end within 400 places
    are cut there; the code under study never prints such a value. *)
Definition posToString (q : Q) : string :=
  let a := Qnum q in
  let b := Zpos (Qden q) in
  let j := decimalPlaces 400 b 1 0 in
  let whole := a * 10 ^ j / b in
  let (s, t) := stripZeros 800 whole 0 in
  let ds := natStr s in
  let k := strlen ds in
  let n := k + t - j in
  if (k <=? n) && (n <=? 21) then ds ++ repeatChar "0" (Z.to_nat (n - k))
  else if (0 <? n) && (n <=? 21) then
    take (Z.to_nat n) ds ++ "." ++ drop (Z.to_nat n) ds
  else if (-6 <? n) && (n <=? 0) then
    "0." ++ repeatChar "0" (Z.to_nat (- n)) ++ ds
  else
    let e := n - 1 in
    let es := (if e <? 0 then "-" else "+") ++ natStr (Z.abs e) in
    if k =? 1 then ds ++ "e" ++ es
    else take 1 ds ++ "." ++ drop 1 ds ++ "e" ++ es.

Definition numberToString (n : jsnum) : string :=
  match n with
  | NaN => "NaN"
  | Inf false => "Infinity"
  | Inf true => "-Infinity"
  | Fin q =>
      let r := Qred q in
      if Qeq_bool r 0 then "0"
      else if Qltb r 0 then "-" ++ posToString (Qred (- r))
      else posToString r
  end.

(** ** Values *)

(** The values that reach the functions below: [undefined], a string or a
    number. *)
Inductive jsval : Type :=
| Undefined
| Str (s : string)
| Num (n : jsnum).

(** ToString. *)
Definition toString (v : jsval) : string :=
  match v with
  | Undefined => "undefined"
  | Str s => s
  | Num n => numberToString n
  end.

Definition parseFloat (v : jsval) : jsnum := parseFloatStr (toString v).
Definition parseInt (v : jsval) : jsnum := parseIntStr (toString v).

(** ToBoolean of a number and the idiom [n || d]. *)
Definition truthyNum (n : jsnum) : bool :=
  match n with
  | NaN => false
  | Inf _ => true
  | Fin q => negb (Qeq_bool q 0)
  end.

Definition orElse (n d : jsnum) : jsnum := if truthyNum n then n else d.

End JS.


(* ================================================================== *)
(** * Schema registry: [config.js] *)
(* ================================================================== *)

Module Config.

Record metric := { id : string; label : string }.
Record theme := { color : string; metrics : list metric }.

Definition ratingScale_min : Z := 0.
Definition ratingScale_max : Z := 5.

(** [ASSESSMENT_CONFIG.themes], in the order of the object literal. *)
Definition themes : list (string * theme) :=
  [ ("Strategic Vision",
     {| color := "rgba(255, 99, 132, %a)";
        metrics :=
          [ {| id := "sharedVision"; label := "Shared Vision" |};
            {| id := "strategy"; label := "Strategy" |};
            {| id := "businessAlignment"; label := "Business Alignment" |};
            {| id := "customerFocus"; label := "Customer Focus" |} ] |});
    ("Focus and Engagement",
     {| color := "rgba(54, 162, 235, %a)";
        metrics :=
          [ {| id := "crossFunctionalTeams"; label := "Cross-Functional Teams" |};
            {| id := "clarityInPriorities"; label := "Clarity in Priorities" |};
            {| id := "acceptanceCriteria"; label := "Acceptance Criteria" |};
            {| id := "enablingFocus"; label := "Enabling Focus" |};
            {| id := "engagement"; label := "Engagement" |} ] |});
    ("Autonomy and Change",
     {| color := "rgba(255, 206, 86, %a)";
        metrics :=
          [ {| id := "feedback"; label := "Feedback" |};
            {| id := "enablingAutonomy"; label := "Enabling Autonomy" |};
            {| id := "changeAndAmbiguity"; label := "Change and Ambiguity" |};
            {| id := "desiredCulture"; label := "Desired Culture" |};
            {| id := "workAutonomously"; label := "Works Autonomously" |} ] |});
    ("Stakeholders and Team",
     {| color := "rgba(75, 192, 192, %a)";
        metrics :=
          [ {| id := "stakeholders"; label := "Stakeholders" |};
            {| id := "teamAttrition"; label := "Team Attrition" |};
            {| id := "teams"; label := "Teams" |};
            {| id := "developingPeople"; label := "Developing People" |};
            {| id := "subordinatesForSuccess"; label := "Subordinates for Success" |} ] |}) ].

(** The metric identifiers, theme by theme: the order in which
    [Object.values(themes).forEach(t => t.metrics.forEach(...))] visits them. *)
Definition metricIds : list string :=
  flat_map (fun t => map id (metrics (snd t))) themes.

End Config.

(** Assignment and lookup in a JavaScript object used as a map: keys in
    insertion order, assignment to an existing key in place. *)
Module Obj.
Section Obj.
Context {V : Type}.

Fixpoint get (k : string) (o : list (string * V)) : option V :=
  match o with
  | [] => None
  | (k', v) :: r => if String.eqb k k' then Some v else get k r
  end.

Fixpoint set (k : string) (v : V) (o : list (string * V)) : list (string * V) :=
  match o with
  | [] => [(k, v)]
  | (k', v') :: r =>
      if String.eqb k k' then (k', v) :: r else (k', v') :: set k v r
  end.

Definition keys (o : list (string * V)) : list string := map fst o.
Definition values (o : list (string * V)) : list V := map snd o.
End Obj.
End Obj.

(* ================================================================== *)
(** * The client application: [script.js], class PerformanceAssessment *)
(* ================================================================== *)

Module Client.
Import JS.

(** ** The page and the application object *)

(** Modelled from the spec: the page markup is not part of the sources.
    The form [#inputForm] holds the rating fields, [input type="number"],
    each submitted under a name equal to its [id]; [numberInputs] lists
    them in document order with their current [value].  [nameInput] is
    the value of the field [#employeeName] when the page has one. *)
Record Dom := {
  numberInputs : list (string * string);
  nameInput : option string
}.

Record Chart := { title : string; data : list jsnum }.

(** The item stored under the key [performanceAssessment]. *)
Record Saved := {
  saved_employeeName : string;
  saved_date : string;
  saved_formData : list (string * string)
}.

(** Body of a create or update request. *)
Record Payload := {
  p_employeeName : string;
  p_assessmentDate : string;
  p_metrics : list (string * jsnum)
}.

Inductive apiCall : Type :=
| CreateAssessment (data : Payload)
| UpdateAssessment (id : string) (data : Payload)
| GetAssessment (id : string)
| Logout.

(** What [api.request] does with a call: the parsed response, of which the
    code reads [assessment._id], or a thrown [Error] with its message. *)
Inductive reply : Type :=
| Ok (assessmentId : string)
| Rejected (message : string).

Inductive notice : Type :=
| ErrorMessage (text : string)
| SuccessMessage (text : string).

Inductive logEntry : Type :=
| Log (text : string)
| Warn (text : string)
| Error (text : string).

Inductive exn : Type :=
| CsvEmptyOrInvalid      (* 'CSV file is empty or invalid' *)
| CsvInvalidHeader       (* 'Invalid CSV format. Expected ... header' *)
| CsvNoValidData         (* 'No valid data found in CSV file' *)
| RequestFailed (message : string).

Definition exnMessage (e : exn) : string :=
  match e with
  | CsvEmptyOrInvalid => "CSV file is empty or invalid"
  | CsvInvalidHeader =>
      "Invalid CSV format. Expected " ++ dquote ++ "Categories,Ratings" ++ dquote
        ++ " header"
  | CsvNoValidData => "No valid data found in CSV file"
  | RequestFailed m => m
  end.

(** The application object together with what it acts on: the page, the
    local storage item, the messages shown, the console, the requests
    sent and the files offered for download. *)
Record App := {
  dom : Dom;
  chart : option Chart;
  employeeName : string;
  currentAssessmentId : option string;
  localStorage : option Saved;
  notices : list notice;
  console : list logEntry;
  requests : list apiCall;
  downloads : list (string * string)
}.

(** What [decodeToken(token)] does: it returns the payload, of which
    [exp] is read (absent, or a number of seconds as a token has it), or
    it logs and throws. *)
Inductive decoding : Type :=
| Decoded (exp : option jsnum)
| DecodeFails.

(** What a call reads from outside the application: [window.authManager],
    if there is one, with its [token] ([None] for [null]); what decoding a
    token gives; the clock, in seconds ([Math.floor(Date.now() / 1000)])
    and as text ([new Date().toISOString()]); and the remote store. *)
Record Env := {
  authManager : option (option string);
  decodeToken : string -> decoding;
  seconds : jsnum;
  now : string;
  remote : apiCall -> reply
}.

(** The application as constructed, on a given page, before [init]. *)
Definition initial (d : Dom) : App :=
  {| dom := d; chart := None; employeeName := ""; currentAssessmentId := None;
     localStorage := None; notices := []; console := []; requests := [];
     downloads := [] |}.

Definition set_dom (d : Dom) (a : App) : App :=
  {| dom := d; chart := chart a; employeeName := employeeName a;
     currentAssessmentId := currentAssessmentId a; localStorage := localStorage a;
     notices := notices a; console := console a; requests := requests a;
     downloads := downloads a |}.

Definition set_chart (c : option Chart) (a : App) : App :=
  {| dom := dom a; chart := c; employeeName := employeeName a;
     currentAssessmentId := currentAssessmentId a; localStorage := localStorage a;
     notices := notices a; console := console a; requests := requests a;
     downloads := downloads a |}.

Definition set_employeeName (n : string) (a : App) : App :=
  {| dom := dom a; chart := chart a; employeeName := n;
     currentAssessmentId := currentAssessmentId a; localStorage := localStorage a;
     notices := notices a; console := console a; requests := requests a;
     downloads := downloads a |}.

Definition set_currentAssessmentId (i : option string) (a : App) : App :=
  {| dom := dom a; chart := chart a; employeeName := employeeName a;
     currentAssessmentId := i; localStorage := localStorage a;
     notices := notices a; console := console a; requests := requests a;
     downloads := downloads a |}.

Definition set_localStorage (s : option Saved) (a : App) : App :=
  {| dom := dom a; chart := chart a; employeeName := employeeName a;
     currentAssessmentId := currentAssessmentId a; localStorage := s;
     notices := notices a; console := console a; requests := requests a;
     downloads := downloads a |}.

Definition add_notice (n : notice) (a : App) : App :=
  {| dom := dom a; chart := chart a; employeeName := employeeName a;
     currentAssessmentId := currentAssessmentId a; localStorage := localStorage a;
     notices := notices a ++ [n]; console := console a; requests := requests a;
     downloads := downloads a |}.

Definition add_log (l : logEntry) (a : App) : App :=
  {| dom := dom a; chart := chart a; employeeName := employeeName a;
     currentAssessmentId := currentAssessmentId a; localStorage := localStorage a;
     notices := notices a; console := console a ++ [l]; requests := requests a;
     downloads := downloads a |}.

Definition add_request (c : apiCall) (a : App) : App :=
  {| dom := dom a; chart := chart a; employeeName := employeeName a;
     currentAssessmentId := currentAssessmentId a; localStorage := localStorage a;
     notices := notices a; console := console a; requests := requests a ++ [c];
     downloads := downloads a |}.

Definition add_download (f : string * string) (a : App) : App :=
  {| dom := dom a; chart := chart a; employeeName := employeeName a;
     currentAssessmentId := currentAssessmentId a; localStorage := localStorage a;
     notices := notices a; console := console a; requests := requests a;
     downloads := downloads a ++ [f] |}.

(** ** Statements: state and exceptions *)

Inductive outcome (A : Type) : Type :=
| Returns (a : A) (s : App)
| Throws (e : exn) (s : App).
Arguments Returns {A} a s.
Arguments Throws {A} e s.

Definition M (A : Type) : Type := App -> outcome A.

Definition ret {A} (a : A) : M A := fun s => Returns a s.
Definition throw {A} (e : exn) : M A := fun s => Throws e s.

Definition bind {A B} (m : M A) (k : A -> M B) : M B :=
  fun s => match m s with
           | Returns a s' => k a s'
           | Throws e s' => Throws e s'
           end.

(** [try { m } catch (e) { h e }]. *)
Definition tryCatch {A} (m : M A) (h : exn -> M A) : M A :=
  fun s => match m s with
           | Returns a s' => Returns a s'
           | Throws e s' => h e s'
           end.

Definition gets {A} (f : App -> A) : M A := fun s => Returns (f s) s.
Definition modify (f : App -> App) : M unit := fun s => Returns tt (f s).

Notation "x <- m ;; k" := (bind m (fun x => k))
  (at level 61, m at next level, right associativity).
Notation "m ;;; k" := (bind m (fun _ => k))
  (at level 61, right associativity).

Fixpoint forEach {A} (l : list A) (body : A -> M unit) : M unit :=
  match l with
  | [] => ret tt
  | x :: r => body x ;;; forEach r body
  end.

Definition stateOf {A} (o : outcome A) : App :=
  match o with Returns _ s => s | Throws _ s => s end.

(** ** The page *)

(** [document.getElementById(id)], as far as the code uses it: the current
    value of the field found, if there is one. *)
Definition getElementById (i : string) (d : Dom) : option string :=
  match Obj.get i (numberInputs d) with
  | Some v => Some v
  | None => if String.eqb i "employeeName" then nameInput d else None
  end.

Fixpoint setInput (i v : string) (l : list (string * string)) : list (string * string) :=
  match l with
  | [] => []
  | (k, w) :: r => if String.eqb i k then (k, v) :: r else (k, w) :: setInput i v r
  end.

(** [document.getElementById(id).value = v], on a field that exists. *)
Definition setValue (i v : string) (d : Dom) : Dom :=
  match Obj.get i (numberInputs d) with
  | Some _ => {| numberInputs := setInput i v (numberInputs d); nameInput := nameInput d |}
  | None =>
      if String.eqb i "employeeName"
      then {| numberInputs := numberInputs d;
              nameInput := match nameInput d with Some _ => Some v | None => None end |}
      else d
  end.

(** ** Methods *)

Definition showErrorMessage (message : string) : M unit :=
  modify (add_notice (ErrorMessage message)).

Definition showSuccessMessage (message : string) : M unit :=
  modify (add_notice (SuccessMessage message)).

Definition console_log (t : string) : M unit := modify (add_log (Log t)).
Definition console_warn (t : string) : M unit := modify (add_log (Warn t)).
Definition console_error (t : string) : M unit := modify (add_log (Error t)).

(** [validateInput(value)]. *)
Definition validateInput (value : jsval) : jsnum :=
  let num := parseFloat value in
  if isNaN num then ofZ 0
  else Math_max (ofZ Config.ratingScale_min)
                (Math_min (ofZ Config.ratingScale_max) num).

(** A run of [_] at the head of [s]: its length. *)
Fixpoint underscores (s : string) : nat :=
  match s with
  | String c r => if Ascii.eqb c "_" then S (underscores r) else O
  | EmptyString => O
  end.

(** [s.replace(/_{2,}/g, '_')]: at each position the longest run of two or
    more underscores is replaced and the scan resumes after it; any other
    character is copied.  [fuel] bounds the positions visited. *)
Fixpoint replaceRuns (fuel : nat) (s : string) : string :=
  match fuel with
  | O => s
  | S k =>
      match s with
      | EmptyString => EmptyString
      | String c r =>
          if (2 <=? underscores s)%nat
          then String "_" (replaceRuns k (drop (underscores s) s))
          else String c (replaceRuns k r)
      end
  end.

(** The class [[^a-z0-9_-]] under the flags [gi]. *)
Definition outsideFilenameClass (c : ascii) : bool :=
  negb (isLower c || isUpper c || isDigit c || Ascii.eqb c "_" || Ascii.eqb c "-").

(** [sanitizeFilename(name)]. *)
Definition sanitizeFilename (name : string) : string :=
  let s1 := trim name in
  let s2 := smap (fun c => if outsideFilenameClass c then "_"%char else c) s1 in
  let s3 := replaceRuns (String.length s2) s2 in
  substring0 50 s3.

(** [updateChart()]. *)
Definition updateChart : M unit :=
  c <- gets chart ;;
  match c with
  | None => ret tt
  | Some ch =>
      d <- gets dom ;;
      forEach Config.metricIds (fun i =>
        match getElementById i d with
        | None => console_warn ("Missing input field: " ++ i)
        | Some _ => ret tt
        end) ;;;
      let values := map (fun i =>
        match getElementById i d with
        | None => ofZ 0
        | Some v => validateInput (Str v)
        end) Config.metricIds in
      modify (set_chart (Some {| title := title ch; data := values |}))
  end.

(** [saveToLocalStorage()]. *)
Definition saveToLocalStorage (env : Env) : M unit :=
  tryCatch
    (d <- gets dom ;;
     n <- gets employeeName ;;
     modify (set_localStorage
       (Some {| saved_employeeName := n; saved_date := now env;
                saved_formData := numberInputs d |})))
    (fun _ => console_error "Failed to save to localStorage:").

(** [loadFromLocalStorage()]. *)
Definition loadFromLocalStorage : M unit :=
  tryCatch
    (saved <- gets localStorage ;;
     match saved with
     | None => ret tt
     | Some data =>
         d <- gets dom ;;
         match nameInput d, saved_employeeName data with
         | Some _, String _ _ =>
             modify (set_dom {| numberInputs := numberInputs d;
                                nameInput := Some (saved_employeeName data) |}) ;;;
             modify (set_employeeName (saved_employeeName data))
         | _, _ => ret tt
         end ;;;
         forEach (saved_formData data) (fun kv =>
           d' <- gets dom ;;
           match getElementById (fst kv) d' with
           | Some _ => modify (set_dom (setValue (fst kv) (snd kv) d'))
           | None => ret tt
           end) ;;;
         updateChart
     end)
    (fun _ => console_error "Failed to load saved data:").

(** [collectFormData()]. *)
Definition collectFormData (d : Dom) : list (string * jsnum) :=
  fold_left (fun metrics i =>
    match getElementById i d with
    | Some v => Obj.set i (orElse (parseInt (Str v)) (ofZ 0)) metrics
    | None => metrics
    end) Config.metricIds [].

(** A call to the remote store through [api]: the request goes out, and
    the call returns the identity in the response or throws. *)
Definition callApi (env : Env) (c : apiCall) : M string :=
  modify (add_request c) ;;;
  match remote env c with
  | Ok i => ret i
  | Rejected m => throw (RequestFailed m)
  end.

(** Truthiness of [this.currentAssessmentId]. *)
Definition boundId (i : option string) : option string :=
  match i with
  | Some (String c r) => Some (String c r)
  | _ => None
  end.

(** The object [data] that [saveToMongoDB()] builds from the page. *)
Definition payloadOf (env : Env) (d : Dom) : Payload :=
  let employeeName :=
    match nameInput d with Some v => trim v | None => "" end in
  {| p_employeeName :=
       match employeeName with EmptyString => "Unknown" | _ => employeeName end;
     p_assessmentDate := now env;
     p_metrics := collectFormData d |}.

(** ** The authentication manager, as the application calls it *)

(** [AuthManager.logout()] up to its [await]: the request of
    [api.logout()] goes out. *)
Definition authManager_logout : M unit := modify (add_request Logout).

(** [AuthManager.logout()] from its [await] on, when the request has
    settled with [r]: a failure is logged by [request] and by [logout],
    and in either case the stored items are removed, the saved assessment
    among them.  The page is then replaced by the login page. *)
Definition authManager_logout_resumed (r : reply) : M unit :=
  match r with
  | Ok _ => ret tt
  | Rejected _ =>
      console_error "API request failed:" ;;;
      console_error "Logout API call failed:"
  end ;;;
  modify (set_localStorage None).

(** [payload.exp && payload.exp < now]. *)
Definition expired (env : Env) (exp : option jsnum) : bool :=
  match exp with
  | Some n => (truthyNum n && ltb n (seconds env))%bool
  | None => false
  end.

(** [AuthManager.isAuthenticated()] for a manager whose token is
    [token]. *)
Definition isAuthenticated (env : Env) (token : option string) : M bool :=
  match token with
  | None | Some EmptyString => ret false
  | Some token =>
      match decodeToken env token with
      | Decoded exp =>
          if expired env exp then
            console_log "Token expired" ;;;
            authManager_logout ;;;
            ret false
          else ret true
      | DecodeFails =>
          console_error "Token decode error:" ;;;
          console_error "Token validation error:" ;;;
          authManager_logout ;;;
          ret false
      end
  end.

(** [window.authManager && window.authManager.isAuthenticated()]. *)
Definition signedIn (env : Env) : M bool :=
  match authManager env with
  | None => ret false
  | Some token => isAuthenticated env token
  end.

(** The answer of that test, without what the test does. *)
Definition authenticated (env : Env) : bool :=
  match authManager env with
  | Some (Some (String c r)) =>
      match decodeToken env (String c r) with
      | Decoded exp => negb (expired env exp)
      | DecodeFails => false
      end
  | _ => false
  end.

(** ** Saving to the remote store *)

(** The [catch] of [saveToMongoDB()]. *)
Definition saveFailed (env : Env) (error : exn) : M unit :=
  console_error "MongoDB save error:" ;;;
  showErrorMessage ("Could not save to database: " ++ exnMessage error) ;;;
  saveToLocalStorage env ;;;
  showSuccessMessage "Saved locally (offline mode)".

(** [saveToMongoDB()], when the request it sends settles before anything
    else runs. *)
Definition saveToMongoDB (env : Env) : M unit :=
  tryCatch
    (ok <- signedIn env ;;
     if negb ok then
       console_log "Not authenticated, saving to localStorage only" ;;;
       saveToLocalStorage env
     else
       d <- gets dom ;;
       let data := payloadOf env d in
       cur <- gets currentAssessmentId ;;
       match boundId cur with
       | Some i =>
           callApi env (UpdateAssessment i data) ;;;
           showSuccessMessage "Assessment updated successfully"
       | None =>
           i <- callApi env (CreateAssessment data) ;;
           modify (set_currentAssessmentId (Some i)) ;;;
           showSuccessMessage "Assessment saved to database"
       end ;;;
       saveToLocalStorage env)
    (saveFailed env).

(** [saveToMongoDB()] is asynchronous and no caller awaits it.  This is
    the function up to its [await], which is what runs when it is called:
    it ends with the request sent, or has returned without one. *)
Definition saveToMongoDB_called (env : Env) : M unit :=
  tryCatch
    (ok <- signedIn env ;;
     if negb ok then
       console_log "Not authenticated, saving to localStorage only" ;;;
       saveToLocalStorage env
     else
       d <- gets dom ;;
       let data := payloadOf env d in
       cur <- gets currentAssessmentId ;;
       match boundId cur with
       | Some i => modify (add_request (UpdateAssessment i data))
       | None => modify (add_request (CreateAssessment data))
       end)
    (saveFailed env).

(** And this is the function from its [await] on, which runs when the
    request [c] settles with [r]; [env] is what is read from outside
    then. *)
Definition saveToMongoDB_resumed (env : Env) (c : apiCall) (r : reply) : M unit :=
  tryCatch
    (i <- match r with
          | Ok i => ret i
          | Rejected m => throw (RequestFailed m)
          end ;;
     match c with
     | CreateAssessment _ =>
         modify (set_currentAssessmentId (Some i)) ;;;
         showSuccessMessage "Assessment saved to database"
     | _ => showSuccessMessage "Assessment updated successfully"
     end ;;;
     saveToLocalStorage env)
    (saveFailed env).

(** [clearAll()]. *)
Definition clearAll : M unit :=
  d <- gets dom ;;
  let zero := toString (Num (ofZ 0)) in
  let d1 := {| numberInputs := map (fun kv => (fst kv, zero)) (numberInputs d);
               nameInput := nameInput d |} in
  modify (set_dom d1) ;;;
  match nameInput d1 with
  | Some _ =>
      modify (set_dom {| numberInputs := numberInputs d1; nameInput := Some "" |}) ;;;
      modify (set_employeeName "")
  | None => ret tt
  end ;;;
  c <- gets chart ;;
  match c with
  | Some ch => modify (set_chart (Some {| title := "Results"; data := data ch |}))
  | None => ret tt
  end ;;;
  updateChart ;;;
  modify (set_localStorage None) ;;;
  showSuccessMessage "All values have been cleared".

(** [newAssessment()]. *)
Definition newAssessment : M unit :=
  modify (set_currentAssessmentId None) ;;;
  clearAll ;;;
  showSuccessMessage "Ready for new assessment".

(** The text built by [saveToCSV()]. *)
Definition csvOf (entries : list (string * string)) : string :=
  fold_left (fun csvContent kv =>
               csvContent ++ fst kv ++ "," ++ snd kv ++ String (ascii_of_nat 10) "")
            entries
            ("Categories,Ratings" ++ String (ascii_of_nat 10) "").

(** The download name built by [saveToCSV()]. *)
Definition csvFilename (env : Env) (employeeName : string) : string :=
  let sanitizedName :=
    match employeeName with
    | EmptyString => "user"
    | _ => sanitizeFilename employeeName
    end in
  let dateStr := hd "" (split "T" (now env)) in
  sanitizedName ++ "_assessment_" ++ dateStr ++ ".csv".

(** [saveToCSV()]. *)
Definition saveToCSV (env : Env) : M unit :=
  tryCatch
    (d <- gets dom ;;
     let csvContent := csvOf (numberInputs d) in
     n <- gets employeeName ;;
     modify (add_download (csvFilename env n, csvContent)))
    (fun _ =>
       console_error "Failed to save CSV:" ;;;
       showErrorMessage "Failed to save CSV file. Please try again.").

(** One data row of [parseAndLoadCSV]: the loop body, returning whether
    the row was loaded. *)
Definition loadRow (rawLine : string) : M bool :=
  let line := trim rawLine in
  match line with
  | EmptyString => ret false
  | _ =>
      let cells := map trim (split "," line) in
      let category := nth 0 cells "" in
      let rating := match nth_error cells 1 with Some r => Str r | None => Undefined end in
      if negb (existsb (String.eqb category) Config.metricIds) then
        console_warn ("Unknown category in CSV: " ++ category) ;;;
        ret false
      else
        let value := validateInput rating in
        d <- gets dom ;;
        match getElementById category d with
        | Some _ =>
            modify (set_dom (setValue category (toString (Num value)) d)) ;;;
            ret true
        | None => ret false
        end
  end.

Fixpoint loadRows (rows : list string) (loadedCount : nat) : M nat :=
  match rows with
  | [] => ret loadedCount
  | r :: rest =>
      loaded <- loadRow r ;;
      loadRows rest (if loaded then S loadedCount else loadedCount)
  end.

(** [parseAndLoadCSV(csvContent)]. *)
Definition parseAndLoadCSV (env : Env) (csvContent : string) : M unit :=
  let lines := split (ascii_of_nat 10) (trim csvContent) in
  if (List.length lines <? 2)%nat then throw CsvEmptyOrInvalid
  else
    let header := toLowerCase (hd "" lines) in
    if (negb (includes "categories" header) || negb (includes "ratings" header))%bool
    then throw CsvInvalidHeader
    else
      loadedCount <- loadRows (tl lines) 0 ;;
      if (loadedCount =? 0)%nat then throw CsvNoValidData
      else
        updateChart ;;;
        saveToLocalStorage env ;;;
        showSuccessMessage
          ("Successfully loaded " ++ natStr (Z.of_nat loadedCount) ++ " ratings from CSV").

(** ** The session: what the listeners of [attachEventListeners] do *)

(** [div.textContent = name; div.innerHTML]: the markup characters and the
    no-break space become entities. *)
Fixpoint escapeHtml (s : string) : string :=
  match s with
  | EmptyString => EmptyString
  | String c r =>
      (if Ascii.eqb c "&" then "&amp;"
       else if Ascii.eqb c "<" then "&lt;"
       else if Ascii.eqb c ">" then "&gt;"
       else if N.eqb (code c) 160 then "&nbsp;"
       else String c EmptyString) ++ escapeHtml r
  end.

(** [sanitizeEmployeeName(name)]. *)
Definition sanitizeEmployeeName (name : string) : string :=
  trim (escapeHtml name).

(** ** The listeners of [attachEventListeners] *)

(** The user has typed [v] into the rating field [i]: the field shows
    it.  The listener itself only calls the debounced update. *)
Definition ratingInput (i v : string) : M unit :=
  d <- gets dom ;;
  modify (set_dom {| numberInputs := setInput i v (numberInputs d);
                     nameInput := nameInput d |}).

(** The user has typed [v] into the name field, and the listener of the
    field has run. *)
Definition nameInputListener (v : string) : M unit :=
  d <- gets dom ;;
  match nameInput d with
  | Some _ =>
      modify (set_dom {| numberInputs := numberInputs d; nameInput := Some v |}) ;;;
      modify (set_employeeName (sanitizeEmployeeName v)) ;;;
      c <- gets chart ;;
      match c with
      | Some ch =>
          n <- gets employeeName ;;
          modify (set_chart (Some
            {| title := match n with
                        | EmptyString => "Results"
                        | _ => n ++ " - Results"
                        end;
               data := data ch |}))
      | None => ret tt
      end
  | None => ret tt
  end.

(** The debounced update of the rating fields, when its timer runs. *)
Definition debouncedUpdate (env : Env) : M unit :=
  updateChart ;;; saveToMongoDB_called env.

(** The debounced save of the name field, when its timer runs, and the
    save shortcut. *)
Definition debouncedSave (env : Env) : M unit := saveToMongoDB_called env.

End Client.

(* ================================================================== *)
(** * The server: model, validation middleware and controller *)
(* ================================================================== *)

Module Server.
Import JS.

(** ** [models/Assessment] *)

(** The nineteen paths of [metrics] in [assessmentSchema]; the same list
    is [requiredMetrics] in [importFromCSV]. *)
Definition requiredMetrics : list string :=
  [ "sharedVision"; "strategy"; "businessAlignment"; "customerFocus";
    "crossFunctionalTeams"; "clarityInPriorities"; "acceptanceCriteria";
    "enablingFocus"; "engagement";
    "feedback"; "enablingAutonomy"; "changeAndAmbiguity"; "desiredCulture";
    "workAutonomously";
    "stakeholders"; "teamAttrition"; "teams"; "developingPeople";
    "subordinatesForSuccess" ].

(** A stored document.  Dates are ISO timestamps kept as text; identities
    are the text of an ObjectId. *)
Record Assessment := {
  _id : string;
  userId : string;
  employeeName : string;
  assessmentDate : string;
  metrics : list (string * jsnum);
  createdAt : string;
  updatedAt : string;
  version : Z
}.

(** [metrics.name] in an arithmetic expression: [undefined] adds as NaN. *)
Definition field (name : string) (metrics : list (string * jsnum)) : jsnum :=
  match Obj.get name metrics with
  | Some v => v
  | None => NaN
  end.

(** [calculateThemeAverages()]. *)
Definition calculateThemeAverages (metrics : list (string * jsnum))
  : list (string * jsnum) :=
  let f n := field n metrics in
  [ ("Strategic Vision",
     div (add (add (add (f "sharedVision") (f "strategy")) (f "businessAlignment"))
              (f "customerFocus"))
         (ofZ 4));
    ("Focus and Engagement",
     div (add (add (add (add (f "crossFunctionalTeams") (f "clarityInPriorities"))
                        (f "acceptanceCriteria"))
                   (f "enablingFocus"))
              (f "engagement"))
         (ofZ 5));
    ("Autonomy and Change",
     div (add (add (add (add (f "feedback") (f "enablingAutonomy"))
                        (f "changeAndAmbiguity"))
                   (f "desiredCulture"))
              (f "workAutonomously"))
         (ofZ 5));
    ("Stakeholders and Team",
     div (add (add (add (add (f "stakeholders") (f "teamAttrition")) (f "teams"))
                   (f "developingPeople"))
              (f "subordinatesForSuccess"))
         (ofZ 5)) ].

(** [calculateOverallAverage()]. *)
Definition calculateOverallAverage (metrics : list (string * jsnum)) : jsnum :=
  let values := Obj.values metrics in
  let sum := fold_left (fun acc val => add acc val) values (ofZ 0) in
  div sum (ofZ (Z.of_nat (List.length values))).

(** Setting [metrics] on a document keeps the paths of the schema, in
    schema order, and drops any other key (strict mode). *)
Definition castMetrics (m : list (string * jsnum)) : list (string * jsnum) :=
  flat_map (fun k => match Obj.get k m with
                     | Some v => [(k, v)]
                     | None => []
                     end) requiredMetrics.

(** One metric path against [required: true, min: 0, max: 5]. *)
Definition metricValid (m : list (string * jsnum)) (k : string) : bool :=
  match Obj.get k m with
  | Some (Fin q) => (Qle_bool 0 q && Qle_bool q 5)%bool
  | _ => false
  end.

(** The validators that [save()] runs: [employeeName] is required and
    every metric path is required and within its bounds. *)
Definition schemaValid (a : Assessment) : bool :=
  (negb (String.eqb (employeeName a) "")
   && forallb (metricValid (metrics a)) requiredMetrics)%bool.

(** ** [middleware/validation.js] *)

(** The body of a create or update request, after JSON parsing, as far as
    it is modelled: each of the fields is absent, which reads
    [Undefined], or a string or a number, which is what the client sends.
    A body in which one of them is [null], a boolean, an array or an
    object is no [Body]: what the validator library does with those (it
    tests an array element by element, so that an empty array passes
    every rule) is not in the sources, and nothing below speaks of such
    a body. *)
Record Body := {
  b_employeeName : jsval;
  b_assessmentDate : jsval;
  b_metrics : list (string * jsval)
}.

Record ValidationError := { err_field : string; err_message : string }.

Definition bodyMetric (k : string) (b : Body) : jsval :=
  match Obj.get k (b_metrics b) with
  | Some v => v
  | None => Undefined
  end.

(** The text a validator sees: the empty string for an absent field. *)
Definition validatorText (v : jsval) : string :=
  match v with
  | Undefined => ""
  | _ => toString v
  end.

Fixpoint allDigits (s : string) : bool :=
  match s with
  | EmptyString => true
  | String c r => (isDigit c && allDigits r)%bool
  end.

(** [isInt({ min: 0, max: 5 })]: an optional sign and one or more digits,
    whose value lies within the bounds.  A number is tested through its
    text, which is such a digit string exactly when the number is an
    integer (below 1e21). *)
Definition isInt_0_5 (v : jsval) : bool :=
  match v with
  | Undefined => false
  | Num NaN | Num (Inf _) => false
  | Num (Fin q) =>
      (Z.eqb (Zpos (Qden (Qred q))) 1 && Qle_bool 0 q && Qle_bool q 5)%bool
  | Str s =>
      let (neg, ds) := readSign s in
      match ds with
      | EmptyString => false
      | _ =>
          (allDigits ds &&
           let z := if neg then - digitsToZ ds else digitsToZ ds in
           (0 <=? z) && (z <=? 5))%bool
      end
  end.

(** The nineteen metric rules of [validateAssessment] with their messages. *)
Definition metricRules : list (string * string) :=
  [ ("sharedVision", "Shared Vision must be between 0 and 5");
    ("strategy", "Strategy must be between 0 and 5");
    ("businessAlignment", "Business Alignment must be between 0 and 5");
    ("customerFocus", "Customer Focus must be between 0 and 5");
    ("crossFunctionalTeams", "Cross-Functional Teams must be between 0 and 5");
    ("clarityInPriorities", "Clarity in Priorities must be between 0 and 5");
    ("acceptanceCriteria", "Acceptance Criteria must be between 0 and 5");
    ("enablingFocus", "Enabling Focus must be between 0 and 5");
    ("engagement", "Engagement must be between 0 and 5");
    ("feedback", "Feedback must be between 0 and 5");
    ("enablingAutonomy", "Enabling Autonomy must be between 0 and 5");
    ("changeAndAmbiguity", "Change and Ambiguity must be between 0 and 5");
    ("desiredCulture", "Desired Culture must be between 0 and 5");
    ("workAutonomously", "Works Autonomously must be between 0 and 5");
    ("stakeholders", "Stakeholders must be between 0 and 5");
    ("teamAttrition", "Team Attrition must be between 0 and 5");
    ("teams", "Teams must be between 0 and 5");
    ("developingPeople", "Developing People must be between 0 and 5");
    ("subordinatesForSuccess", "Subordinates for Success must be between 0 and 5") ].

Section Validation.
(** [isISO8601()] of the validator library, which the sources use but do
    not define. *)
Variable isISO8601 : string -> bool.

(** The errors the chains of [validateAssessment] collect, in order. *)
Definition validateAssessment (b : Body) : list ValidationError :=
  let name := trim (validatorText (b_employeeName b)) in
  (if String.eqb name ""
   then [ {| err_field := "employeeName"; err_message := "Employee name is required" |} ]
   else [])
  ++ (if ((1 <=? String.length name) && (String.length name <=? 100))%nat
      then []
      else [ {| err_field := "employeeName";
                err_message := "Employee name must be between 1 and 100 characters" |} ])
  ++ (match b_assessmentDate b with
      | Undefined => []
      | d => if isISO8601 (toString d) then []
             else [ {| err_field := "assessmentDate";
                       err_message := "Assessment date must be a valid date" |} ]
      end)
  ++ flat_map (fun rule =>
       if isInt_0_5 (bodyMetric (fst rule) b) then []
       else [ {| err_field := "metrics." ++ fst rule; err_message := snd rule |} ])
     metricRules.

(** [handleValidationErrors]: the errors of a 400 response, or [None]
    when the request goes on to the controller. *)
Definition handleValidationErrors (b : Body) : option (list ValidationError) :=
  match validateAssessment b with
  | [] => None
  | errors => Some errors
  end.
End Validation.

(** ** [controllers/assessmentController] *)

Inductive response : Type :=
| Status200 (assessment : Assessment)
| Status201 (assessment : Assessment) (errors : list string)
| Status400 (message : string)
| Status400Missing (missing : list string)
| Status404
| Status500.

Definition eqId (a b : string) : bool := String.eqb a b.

(** [Assessment.findOne({ _id, userId })]. *)
Definition findOne (db : list Assessment) (id uid : string) : option Assessment :=
  find (fun a => (eqId (_id a) id && eqId (userId a) uid)%bool) db.

(** Writing a document back under its identity. *)
Definition store (a : Assessment) (db : list Assessment) : list Assessment :=
  map (fun x => if eqId (_id x) (_id a) then a else x) db.

(** The supplied part of an update: an absent field is [None]. *)
Record Update := {
  u_employeeName : option string;
  u_assessmentDate : option string;
  u_metrics : option (list (string * jsnum))
}.

Section Casts.
(** What the driver does with the values it is given, which the sources
    use but do not define: whether a text is cast to an ObjectId (a query
    with one that is not rejects), and the timestamp of the Date that a
    supplied date is cast to, [None] where it cannot be cast (the save
    then rejects). *)
Variable isObjectId : string -> bool.
Variable castDate : string -> option string.

(** [assessment.assessmentDate] after the assignments: the supplied value
    as the schema casts it, or the date the document had. *)
Definition assignedDate (u : Update) (a : Assessment) : option string :=
  match u_assessmentDate u with
  | Some d => castDate d
  | None => Some (assessmentDate a)
  end.

(** The assignments of [updateAssessment] and the [pre('save')] hook;
    [None] where the date supplied cannot be cast. *)
Definition applyUpdate (now : string) (u : Update) (a : Assessment)
  : option Assessment :=
  match assignedDate u a with
  | None => None
  | Some date =>
      Some {| _id := _id a;
              userId := userId a;
              employeeName := match u_employeeName u with
                              | Some n => trim n
                              | None => employeeName a
                              end;
              assessmentDate := date;
              metrics := match u_metrics u with
                         | Some m => castMetrics m
                         | None => metrics a
                         end;
              createdAt := createdAt a;
              updatedAt := now;
              version := version a |}
  end.

(** [updateAssessment(req, res)] for [req.params.id = id],
    [req.userId = uid] and [req.body = u], the body as the controller
    finds it: on the route that is after [validateAssessment], whose
    sanitizers have trimmed and escaped the name.  A query or a save that
    rejects ends in the [catch], which answers 500. *)
Definition updateAssessment (now : string) (db : list Assessment)
    (id uid : string) (u : Update) : list Assessment * response :=
  if (isObjectId id && isObjectId uid)%bool then
    match findOne db id uid with
    | None => (db, Status404)
    | Some assessment =>
        match applyUpdate now u assessment with
        | None => (db, Status500)
        | Some assessment' =>
            if schemaValid assessment'
            then (store assessment' db, Status200 assessment')
            else (db, Status500)
        end
    end
  else (db, Status500).

End Casts.

(** The rows of an imported file, after the header: the metrics kept and
    the error lines. *)
Fixpoint parseRows (lines : list string)
    (metrics : list (string * jsnum)) (errors : list string)
  : list (string * jsnum) * list string :=
  match lines with
  | [] => (metrics, errors)
  | raw :: rest =>
      let line := trim raw in
      match line with
      | EmptyString => parseRows rest metrics errors
      | _ =>
          let cells := map trim (split "," line) in
          let category := nth 0 cells "" in
          let rating := match nth_error cells 1 with
                        | Some r => Str r
                        | None => Undefined
                        end in
          let value := parseInt rating in
          if (isNaN value || ltb value (ofZ 0) || ltb (ofZ 5) value)%bool
          then parseRows rest metrics
                 (errors ++ ["Invalid rating for " ++ category ++ ": " ++ toString rating])
          else parseRows rest (Obj.set category value metrics) errors
      end
  end.

(** What a request to [importFromCSV] carries and what the server adds:
    the uploaded text if any, [req.body.employeeName], [req.userId], the
    identity given to the new document and the clock. *)
Record ImportRequest := {
  file : option string;
  body_employeeName : string;
  req_userId : string;
  newId : string;
  today : string
}.

(** [importFromCSV(req, res)]. *)
Definition importFromCSV (db : list Assessment) (req : ImportRequest)
  : list Assessment * response :=
  match file req with
  | None => (db, Status400 "CSV file is required")
  | Some csvData =>
      let employeeName :=
        match body_employeeName req with
        | EmptyString => "Unknown"
        | n => n
        end in
      let lines := split (ascii_of_nat 10) (trim csvData) in
      if (List.length lines <? 2)%nat
      then (db, Status400 "CSV file is empty or invalid")
      else
        let header := toLowerCase (hd "" lines) in
        if (negb (includes "categories" header) || negb (includes "ratings" header))%bool
        then (db, Status400 ("Invalid CSV format. Expected " ++ dquote
                             ++ "Categories,Ratings" ++ dquote ++ " header"))
        else
          let (metrics, errors) := parseRows (tl lines) [] [] in
          let missingMetrics :=
            filter (fun metric => match Obj.get metric metrics with
                                  | None => true
                                  | Some _ => false
                                  end) requiredMetrics in
          match missingMetrics with
          | _ :: _ => (db, Status400Missing missingMetrics)
          | [] =>
              let assessment :=
                {| _id := newId req;
                   userId := req_userId req;
                   employeeName := trim employeeName;
                   assessmentDate := today req;
                   metrics := castMetrics metrics;
                   createdAt := today req;
                   updatedAt := today req;
                   version := 1 |} in
              if schemaValid assessment
              then ((db ++ [assessment])%list, Status201 assessment errors)
              else (db, Status500)
          end
  end.

End Server.

(* ================================================================== *)
(** * JSON values, as the client and the server exchange them *)
(* ================================================================== *)

Module Json.
Import JS.

#[warnings="-register-all"]
Inductive json : Type :=
| JNull
| JBool (b : bool)
| JNum (n : jsnum)
| JStr (s : string)
| JArr (items : list json)
| JObj (members : list (string * json)).

(** A value read with [o.k]: [None] is [undefined]. *)
Definition value : Type := option json.

(** ToBoolean. *)
Definition truthy (v : value) : bool :=
  match v with
  | None | Some JNull => false
  | Some (JBool b) => b
  | Some (JNum n) => truthyNum n
  | Some (JStr s) => negb (String.eqb s "")
  | Some (JArr _) | Some (JObj _) => true
  end.

Fixpoint joinComma (l : list string) : string :=
  match l with
  | [] => ""
  | [x] => x
  | x :: r => x ++ "," ++ joinComma r
  end.

(** ToString of a value that is not [undefined]. *)
Fixpoint text (j : json) : string :=
  match j with
  | JNull => "null"
  | JBool true => "true"
  | JBool false => "false"
  | JNum n => numberToString n
  | JStr s => s
  | JArr items =>
      joinComma (map (fun x => match x with JNull => "" | _ => text x end) items)
  | JObj _ => "[object Object]"
  end.

(** The text a form field takes when [field.value = v] is executed:
    [null] gives the empty text. *)
Definition fieldText (v : value) : string :=
  match v with
  | None => "undefined"
  | Some JNull => ""
  | Some j => text j
  end.

(** [String(v)], as in a template literal or a storage item. *)
Definition toText (v : value) : string :=
  match v with
  | None => "undefined"
  | Some j => text j
  end.

Fixpoint indexed {A} (i : nat) (l : list A) : list (string * A) :=
  match l with
  | [] => []
  | x :: r => (natStr (Z.of_nat i), x) :: indexed (S i) r
  end.

Fixpoint chars (s : string) : list json :=
  match s with
  | EmptyString => []
  | String c r => JStr (String c EmptyString) :: chars r
  end.

(** [Object.entries(v)], or [None] where it throws a TypeError: on
    [undefined] and on [null].  The members of an object are taken in
    the order written. *)
Definition entries (v : value) : option (list (string * json)) :=
  match v with
  | None | Some JNull => None
  | Some (JObj members) => Some members
  | Some (JArr items) => Some (indexed 0 items)
  | Some (JStr s) => Some (indexed 0 (chars s))
  | Some (JBool _) | Some (JNum _) => Some []
  end.

(** [v.k] for a key that no array, string, number or boolean has: [None]
    where the access throws a TypeError, on [undefined] and on [null]. *)
Definition prop (k : string) (v : value) : option value :=
  match v with
  | None | Some JNull => None
  | Some (JObj members) => Some (Obj.get k members)
  | Some _ => Some None
  end.

End Json.

(* ================================================================== *)
(** * The client application: the remaining methods of [script.js] *)
(* ================================================================== *)

Module ClientRest.
Import JS Client Json.

(** ** [debounce(func, wait)] *)

Section Debounce.
Context {A : Type}.
Variable wait : Z.

(** The runtime: whether the timer due at [due] has run its callback by
    the time [t].  The runtime guarantees only that a timer does not run
    before it is due; when it runs after that, and whether before or
    after a call of the same instant, is the runtime's choice. *)
Variable ran : Z -> Z -> bool.

(** The closure [debounce] returns: the pending timer, with the time it
    is due and the arguments its callback holds, and the calls of [func]
    made so far, each with the time its timer was due and its
    arguments. *)
Record Debounced := {
  timeout : option (Z * A);
  executed : list (Z * A)
}.

Definition idle : Debounced := {| timeout := None; executed := [] |}.

(** The closure as found at time [t]: a timer that has run by then has
    run [later]. *)
Definition elapse (t : Z) (d : Debounced) : Debounced :=
  match timeout d with
  | Some (due, args) =>
      if ran due t
      then {| timeout := None; executed := (executed d ++ [(due, args)])%list |}
      else d
  | None => d
  end.

(** [executedFunction(...args)], called at time [t]: the pending timer
    is cleared and a new one set. *)
Definition executedFunction (t : Z) (args : A) (d : Debounced) : Debounced :=
  let d' := elapse t d in
  {| timeout := Some (t + wait, args); executed := executed d' |}.

(** A sequence of calls, each at its time. *)
Definition callAll (calls : list (Z * A)) (d : Debounced) : Debounced :=
  fold_left (fun d c => executedFunction (fst c) (snd c) d) calls d.

End Debounce.

(** ** [loadFromCSV()] *)

(** The callback [reader.onload] that [loadFromCSV()] installs, run with
    the text of the chosen file. *)
Definition loadFromCSV_onload (env : Env) (result : string) : M unit :=
  tryCatch
    (parseAndLoadCSV env result)
    (fun _ =>
       console_error "Failed to load CSV:" ;;;
       showErrorMessage "Failed to load CSV file. Please check the file format.").

(** ** [loadAssessment(assessmentId)] *)

(** What [api.getAssessment] resolves to or rejects with. *)
Inductive fetchResult : Type :=
| Fetched (data : json)
| FetchFailed (message : string).

(** The TypeError raised on reading [k] of [undefined] or [null]: an
    error object like any other, with the message the engine gives it
    (here V8's). *)
Definition typeError (k : string) (v : value) : exn :=
  RequestFailed ("Cannot read properties of "
                 ++ match v with Some _ => "null" | None => "undefined" end
                 ++ " (reading '" ++ k ++ "')").

(** The TypeError of [Object.entries] on [undefined] or [null]. *)
Definition entriesError : exn :=
  RequestFailed "Cannot convert undefined or null to object".

Definition propM (k : string) (v : value) : M value :=
  match prop k v with
  | Some x => ret x
  | None => throw (typeError k v)
  end.

(** The identity kept from [assessment._id]: what is falsy reads as no
    identity, anything else by its text. *)
Definition idOf (v : value) : option string :=
  match v with
  | Some j => if truthy v then Some (text j) else None
  | None => None
  end.

(** The [catch] of [loadAssessment]. *)
Definition loadFailed (error : exn) : M unit :=
  console_error "Load assessment error:" ;;;
  showErrorMessage ("Failed to load assessment: " ++ exnMessage error).

(** What [loadAssessment] does with what its request comes back with,
    from [response.assessment] to the success message. *)
Definition restoreAssessment (response : fetchResult) : M unit :=
  data <- match response with
          | Fetched d => ret d
          | FetchFailed m => throw (RequestFailed m)
          end ;;
  assessment <- propM "assessment" (Some data) ;;
  i <- propM "_id" assessment ;;
  modify (set_currentAssessmentId (idOf i)) ;;;
  name <- propM "employeeName" assessment ;;
  d <- gets dom ;;
  match nameInput d, name with
  | Some _, Some n =>
      if truthy name then
        modify (set_dom {| numberInputs := numberInputs d;
                           nameInput := Some (fieldText name) |}) ;;;
        modify (set_employeeName (text n))
      else ret tt
  | _, _ => ret tt
  end ;;;
  metrics <- propM "metrics" assessment ;;
  match entries metrics with
  | None => throw entriesError
  | Some members =>
      forEach members (fun kv =>
        d' <- gets dom ;;
        match getElementById (fst kv) d' with
        | Some _ =>
            modify (set_dom (setValue (fst kv) (fieldText (Some (snd kv))) d'))
        | None => ret tt
        end)
  end ;;;
  updateChart ;;;
  showSuccessMessage "Assessment loaded successfully".

(** [loadAssessment(assessmentId)], given what the request for the record
    comes back with, when that request settles before anything else
    runs. *)
Definition loadAssessment (env : Env) (response : fetchResult) (assessmentId : string)
  : M unit :=
  tryCatch
    (ok <- signedIn env ;;
     if negb ok then
       showErrorMessage "Please log in to load assessments"
     else
       modify (add_request (GetAssessment assessmentId)) ;;;
       restoreAssessment response)
    loadFailed.

(** [loadAssessment] is asynchronous as well: the function up to its
    [await], and from its [await] on. *)
Definition loadAssessment_called (env : Env) (assessmentId : string) : M unit :=
  tryCatch
    (ok <- signedIn env ;;
     if negb ok then
       showErrorMessage "Please log in to load assessments"
     else
       modify (add_request (GetAssessment assessmentId)))
    loadFailed.

Definition loadAssessment_resumed (response : fetchResult) : M unit :=
  tryCatch (restoreAssessment response) loadFailed.

End ClientRest.

(* ================================================================== *)
(** * The session: the page from [init] until it is left *)
(* ================================================================== *)

Module Session.
Import JS Client Json ClientRest.

(** The page with what is under way: the application, the requests that
    have been sent and have not settled yet, oldest first, and whether
    the page has been left for the login page. *)
Record Running := {
  app : App;
  inFlight : list apiCall;
  left : bool
}.

(** What a request settles with: the reply to a write or to the logout,
    or what the request for a record comes back with. *)
Inductive answer : Type :=
| Replied (r : reply)
| Delivered (response : fetchResult).

(** What happens on the page.  The user types into a field (the listener
    of the field has run); a debounce timer runs its callback; the user
    presses the save shortcut or one of the buttons; the file chosen for
    import has been read; a request in flight settles.  Each carries what
    the code then reads from outside.  Nothing relates the timers to the
    typing here: a timer may run at any time. *)
Inductive event : Type :=
| InputRating (id value : string)
| InputName (value : string)
| RatingsTimer (env : Env)
| NameTimer (env : Env)
| SaveShortcut (env : Env)
| SaveOnly (env : Env)
| FileLoaded (env : Env) (result : string)
| ClearAll
| NewAssessment
| LoadAssessment (env : Env) (assessmentId : string)
| Settles (env : Env) (n : nat) (a : answer).

(** The code that an event other than [Settles] runs. *)
Definition handler (e : event) : M unit :=
  match e with
  | InputRating i v => ratingInput i v
  | InputName v => nameInputListener v
  | RatingsTimer env => debouncedUpdate env
  | NameTimer env => debouncedSave env
  | SaveShortcut env => saveToMongoDB_called env
  | SaveOnly env => saveToCSV env
  | FileLoaded env result => loadFromCSV_onload env result
  | ClearAll => clearAll
  | NewAssessment => newAssessment
  | LoadAssessment env assessmentId => loadAssessment_called env assessmentId
  | Settles _ _ _ => ret tt
  end.

(** The code that resumes when the request [c] settles with [a]: [None]
    for an answer that is not one to [c]. *)
Definition resumed (env : Env) (c : apiCall) (a : answer) : option (M unit) :=
  match c, a with
  | CreateAssessment _, Replied r => Some (saveToMongoDB_resumed env c r)
  | UpdateAssessment _ _, Replied r => Some (saveToMongoDB_resumed env c r)
  | GetAssessment _, Delivered response => Some (loadAssessment_resumed response)
  | Logout, Replied r => Some (authManager_logout_resumed r)
  | _, _ => None
  end.

Fixpoint removeNth {A} (n : nat) (l : list A) : list A :=
  match l, n with
  | [], _ => []
  | _ :: r, O => r
  | x :: r, S k => x :: removeNth k r
  end.

(** One event.  A handler runs to its end, and the requests it has sent
    are in flight from then on; a request that settles is no longer in
    flight, and the logout that settles leaves the page. *)
Definition step (e : event) (x : Running) : Running :=
  match e with
  | Settles env n a =>
      match nth_error (inFlight x) n with
      | None => x
      | Some c =>
          match resumed env c a with
          | None => x
          | Some code =>
              let s' := stateOf (code (app x)) in
              {| app := s';
                 inFlight := (removeNth n (inFlight x)
                              ++ skipn (List.length (requests (app x))) (requests s'))%list;
                 left := match c with Logout => true | _ => left x end |}
          end
      end
  | _ =>
      let s' := stateOf (handler e (app x)) in
      {| app := s';
         inFlight := (inFlight x
                      ++ skipn (List.length (requests (app x))) (requests s'))%list;
         left := left x |}
  end.

(** The page after a sequence of events: once the page is left, nothing
    more happens on it. *)
Fixpoint run (events : list event) (x : Running) : Running :=
  match events with
  | [] => x
  | e :: rest => if left x then x else run rest (step e x)
  end.

(** A page with nothing under way: as [init] leaves it when the address
    names no record to load. *)
Definition started (s : App) : Running :=
  {| app := s; inFlight := []; left := false |}.

End Session.

(* ================================================================== *)
(** * The server: the remaining middleware and controllers *)
(* ================================================================== *)

Module ServerRest.
Import JS Server Json.

(** ** [middleware/authMiddleware.js] *)

(** The payload of a verified token.  A role that is absent reads as no
    role. *)
Record TokenPayload := {
  tp_userId : string;
  tp_email : string;
  tp_role : option string
}.

(** What [verifyToken(token)] does: it returns the payload, or throws an
    error whose [name] the middleware inspects. *)
Inductive verification : Type :=
| Verified (payload : TokenPayload)
| JsonWebTokenError
| TokenExpiredError
| OtherError.

(** What [User.findById(id).select('-password')] does. *)
Inductive lookup : Type :=
| UserFound
| UserMissing
| LookupFailed.

(** Where a middleware leaves the request: it calls [next()], with what
    it has attached to the request, or it answers. *)
Inductive passage (A : Type) : Type :=
| Next (attached : A)
| Answered (status : Z) (message : string).
Arguments Next {A} attached.
Arguments Answered {A} status message.

Section Authentication.
(** [verifyToken] of [config/jwt] and the user collection, which the
    sources use but do not define. *)
Variable verifyToken : string -> verification.
Variable findById : string -> lookup.

(** [authHeader && authHeader.split(' ')[1]], where it is truthy. *)
Definition tokenOf (authorization : option string) : option string :=
  match authorization with
  | None | Some EmptyString => None
  | Some authHeader =>
      match nth_error (split " " authHeader) 1 with
      | Some (String c r) => Some (String c r)
      | _ => None
      end
  end.

(** [authenticateToken(req, res, next)] for
    [req.headers['authorization'] = authorization]. *)
Definition authenticateToken (authorization : option string) : passage TokenPayload :=
  match tokenOf authorization with
  | None => Answered 401 "Access token required"
  | Some token =>
      match verifyToken token with
      | Verified payload =>
          match findById (tp_userId payload) with
          | UserFound => Next payload
          | UserMissing => Answered 401 "User not found"
          | LookupFailed => Answered 500 "Authentication error"
          end
      | JsonWebTokenError => Answered 403 "Invalid token"
      | TokenExpiredError => Answered 403 "Token expired"
      | OtherError => Answered 500 "Authentication error"
      end
  end.

End Authentication.

(** ** [controllers/assessmentController] *)

(** What a controller sends. *)
Inductive reply : Type :=
| Document (assessment : Assessment)         (* res.json(assessment) *)
| Created (assessment : Assessment)          (* 201, { message, assessment } *)
| Deleted                                    (* { message } *)
| NotFound (message : string)                (* 404, { message } *)
| Failed (message : string)                  (* 500, { message } *)
| Csv (filename : string) (csv : string).    (* text/csv, as an attachment *)

Section Controllers.
(** What the driver casts to an ObjectId and to a Date, as for
    [updateAssessment]; a value that cannot be cast makes the query or the
    save reject. *)
Variable isObjectId : string -> bool.
Variable castDate : string -> option string.

(** [getAssessment(req, res)] for [req.params.id = id] and
    [req.userId = uid]. *)
Definition getAssessment (db : list Assessment) (id uid : string) : reply :=
  if (isObjectId id && isObjectId uid)%bool then
    match findOne db id uid with
    | None => NotFound "Assessment not found"
    | Some assessment => Document assessment
    end
  else Failed "Failed to retrieve assessment".

(** [createAssessment(req, res)] for [req.userId = uid] and
    [req.body = u]; [newId] is the identity the new document is given
    and [now] the clock.  The date is the supplied one as the schema
    casts it, or the clock's when none is supplied. *)
Definition createAssessment (now newId : string) (db : list Assessment)
    (uid : string) (u : Update) : list Assessment * reply :=
  match (match u_assessmentDate u with
         | Some (String c r) => castDate (String c r)
         | _ => Some now
         end) with
  | None => (db, Failed "Failed to create assessment")
  | Some date =>
      let assessment :=
        {| _id := newId;
           userId := uid;
           employeeName := match u_employeeName u with
                           | Some n => trim n
                           | None => ""
                           end;
           assessmentDate := date;
           metrics := match u_metrics u with
                      | Some m => castMetrics m
                      | None => []
                      end;
           createdAt := now;
           updatedAt := now;
           version := 1 |} in
      if (isObjectId uid && schemaValid assessment)%bool
      then ((db ++ [assessment])%list, Created assessment)
      else (db, Failed "Failed to create assessment")
  end.

(** [Assessment.findOneAndDelete({ _id, userId })]: the first document
    that matches is removed. *)
Fixpoint removeOne (id uid : string) (db : list Assessment) : list Assessment :=
  match db with
  | [] => []
  | a :: rest =>
      if (eqId (_id a) id && eqId (userId a) uid)%bool
      then rest
      else a :: removeOne id uid rest
  end.

(** [deleteAssessment(req, res)]. *)
Definition deleteAssessment (db : list Assessment) (id uid : string)
  : list Assessment * reply :=
  if (isObjectId id && isObjectId uid)%bool then
    match findOne db id uid with
    | None => (db, NotFound "Assessment not found")
    | Some _ => (removeOne id uid db, Deleted)
    end
  else (db, Failed "Failed to delete assessment").

End Controllers.

(** [date.toISOString().split('T')[0]]. *)
Definition isoDay (date : string) : string := hd "" (split "T" date).

(** An element of [values.join(',')]: [undefined] joins as nothing. *)
Definition joined (v : option jsnum) : string :=
  match v with
  | Some n => numberToString n
  | None => ""
  end.

(** What [exportToCSV(req, res)] sends for the documents its query has
    found, in the order found; [today] is the clock.  The members of
    [assessment.metrics] are the metrics as stored. *)
Definition exportOf (today : string) (assessments : list Assessment) : reply :=
  match assessments with
  | [] => NotFound "No assessments found"
  | [assessment] =>
      Csv (employeeName assessment ++ "_assessment_"
           ++ isoDay (assessmentDate assessment) ++ ".csv")
          (fold_left (fun csv kv =>
                        csv ++ fst kv ++ "," ++ numberToString (snd kv)
                            ++ String (ascii_of_nat 10) "")
                     (metrics assessment)
                     ("Categories,Ratings" ++ String (ascii_of_nat 10) ""))
  | first :: _ =>
      let metricKeys := Obj.keys (metrics first) in
      Csv ("assessments_export_" ++ isoDay today ++ ".csv")
          (fold_left (fun csv assessment =>
                        let date := isoDay (assessmentDate assessment) in
                        let values :=
                          map (fun key => joined (Obj.get key (metrics assessment)))
                              metricKeys in
                        csv ++ dquote ++ employeeName assessment ++ dquote ++ ","
                            ++ date ++ "," ++ joinComma values
                            ++ String (ascii_of_nat 10) "")
                     assessments
                     ("Employee Name,Assessment Date," ++ joinComma metricKeys
                      ++ String (ascii_of_nat 10) ""))
  end.

(** ** What goes over the wire *)



End ServerRest.

(* ================================================================== *)
(** * The API client: [frontend/api/apiClient.js] *)
(* ================================================================== *)

Module ApiClient.
Import JS Json.

(** What [fetch] resolves to, as far as [request] reads it: the status
    with its text, the content type, and the body parsed as JSON where
    it can be. *)
Record Response := {
  status : Z;
  statusText : string;
  contentType : option string;
  json : option Json.json
}.

(** [response.ok]. *)
Definition ok (r : Response) : bool := ((200 <=? status r) && (status r <=? 299))%bool.

(** How a call of [request] ends. *)
Inductive settled : Type :=
| Data (data : Json.json)          (* resolves to the parsed body *)
| Raw (response : Response)        (* resolves to the response itself *)
| Thrown (message : string).       (* rejects with an error *)

(** [request(endpoint, options)], given what [fetch] does: it rejects
    with a message, or resolves to a response. *)
Definition request (fetched : string + Response) : settled :=
  match fetched with
  | inl message => Thrown message
  | inr response =>
      if match contentType response with
         | Some (String c r) => includes "text/csv" (String c r)
         | _ => false
         end
      then Raw response
      else
        match json response with
        | None => Thrown "Unexpected token in JSON"
        | Some data =>
            if negb (ok response) then
              match prop "message" (Some data) with
              | None => Thrown "Cannot read properties of null (reading 'message')"
              | Some m =>
                  if truthy m
                  then Thrown (toText m)
                  else Thrown ("HTTP " ++ numberToString (ofZ (status response))
                               ++ ": " ++ statusText response)
              end
            else Data data
        end
  end.

(** [headers.Authorization] as [request] sets it for [this.token]:
    [None] where it sets none. *)
Definition authorization (token : value) : option string :=
  if truthy token then Some ("Bearer " ++ toText token) else None.

(** The part of the browser's storage and of the client object that the
    authentication methods touch. *)
Record Session := {
  token : value;
  storage : list (string * string)
}.

Definition removeItem (k : string) (l : list (string * string)) : list (string * string) :=
  filter (fun kv => negb (String.eqb (fst kv) k)) l.

(** [logout()]: the session after it, and the message it rejects with if
    the request failed. *)
Definition logout (fetched : string + Response) (s : Session)
  : Session * option string :=
  let cleared :=
    {| token := Some JNull;
       storage := removeItem "performanceAssessment"
                    (removeItem "user" (removeItem "authToken" (storage s))) |} in
  match request fetched with
  | Thrown m => (cleared, Some m)
  | _ => (cleared, None)
  end.

End ApiClient.

(* ================================================================== *)
(** * The specification's own wording, where it is compared with the code *)
(* ================================================================== *)

Module Stated.
Import JS.

(** "replaces every character outside [A-Za-z0-9_-] with _". *)
Definition inFilenameClass (c : ascii) : bool :=
  (isUpper c || isLower c || isDigit c || Ascii.eqb c "_" || Ascii.eqb c "-")%bool.

Definition replaceOutside (s : string) : string :=
  smap (fun c => if inFilenameClass c then c else "_"%char) s.

(** "collapses runs of two or more _ into one": an underscore followed by
    an underscore is dropped. *)
Fixpoint collapseUnderscores (s : string) : string :=
  match s with
  | EmptyString => EmptyString
  | String a t =>
      match t with
      | EmptyString => s
      | String b _ =>
          if (Ascii.eqb a "_" && Ascii.eqb b "_")%bool
          then collapseUnderscores t
          else String a (collapseUnderscores t)
      end
  end.

(** "truncates the result to 50 characters": the three steps the
    specification lists, and nothing else. *)
Definition sanitize (s : string) : string :=
  take 50 (collapseUnderscores (replaceOutside s)).

(** "{sanitizedSubjectName|user}_assessment_{YYYY-MM-DD}.csv". *)
Definition filename (subject date : string) : string :=
  (match subject with EmptyString => "user" | _ => sanitize subject end)
  ++ "_assessment_" ++ date ++ ".csv".

End Stated.

(* ================================================================== *)
(** * Vocabulary of the statements *)
(* ================================================================== *)

Section TextVocabulary.
Import JS.

(** No character of [s] is [sep]. *)
Fixpoint lacks (sep : ascii) (s : string) : bool :=
  match s with
  | EmptyString => true
  | String c r => (negb (Ascii.eqb c sep) && lacks sep r)%bool
  end.

End TextVocabulary.

Section ClientVocabulary.
Import JS Client.

(** What [saveToLocalStorage] stores. *)
Definition snapshot (env : Env) (s : App) : Saved :=
  {| saved_employeeName := employeeName s;
     saved_date := now env;
     saved_formData := numberInputs (dom s) |}.

(** The application after the test [signedIn] has run: as it was, but when
    the token has expired or cannot be decoded, where the test has logged
    and has started a logout. *)
Definition refusal (env : Env) (s : App) : App :=
  match authManager env with
  | Some (Some (String c r)) =>
      match decodeToken env (String c r) with
      | Decoded exp =>
          if expired env exp
          then add_request Logout (add_log (Log "Token expired") s)
          else s
      | DecodeFails =>
          add_request Logout
            (add_log (Error "Token validation error:")
               (add_log (Error "Token decode error:") s))
      end
  | _ => s
  end.

(** There is no manager, or it holds no token: nobody has signed in. *)
Definition signedOut (env : Env) : Prop :=
  authManager env = None \/ authManager env = Some None \/
  authManager env = Some (Some "").

(** The manager holds a token that has expired or cannot be decoded. *)
Definition tokenRefused (env : Env) : Prop :=
  exists token, authManager env = Some (Some token) /\ token <> "" /\
    match decodeToken env token with
    | Decoded exp => expired env exp = true
    | DecodeFails => True
    end.

(** The request an authenticated save sends. *)
Definition requestOf (env : Env) (s : App) : apiCall :=
  match boundId (currentAssessmentId s) with
  | Some i => UpdateAssessment i (payloadOf env (dom s))
  | None => CreateAssessment (payloadOf env (dom s))
  end.

(** Every metric of the configuration has its field on the page. *)
Definition pageComplete (d : Dom) : Prop :=
  forall i, In i Config.metricIds -> exists v, Obj.get i (numberInputs d) = Some v.

Definition isUpdateOf (i : string) (c : apiCall) : Prop :=
  exists data, c = UpdateAssessment i data.

(** What [updateChart] leaves alone: everything but the chart and the
    console. *)
Definition sameButChart (s s' : App) : Prop :=
  dom s' = dom s /\ employeeName s' = employeeName s /\
  currentAssessmentId s' = currentAssessmentId s /\
  localStorage s' = localStorage s /\ notices s' = notices s /\
  requests s' = requests s /\ downloads s' = downloads s.

(** What the payload carries for a metric: the integer read from its
    field, and 0 when that is NaN or 0 or the field is absent. *)
Definition entered (d : Dom) (i : string) : jsnum :=
  match getElementById i d with
  | Some v => orElse (parseInt (Str v)) (ofZ 0)
  | None => ofZ 0
  end.

(** A page with the nineteen rating fields, all showing [v], and a name
    field showing [name]. *)
Definition pageOf (v name : string) : Dom :=
  {| numberInputs := map (fun i => (i, v)) Config.metricIds;
     nameInput := Some name |}.

Definition zeroed (l : list (string * string)) : list (string * string) :=
  map (fun kv => (fst kv, "0")) l.

Definition newline : ascii := ascii_of_nat 10.

(** The lines of a text as [parseAndLoadCSV] sees them. *)
Definition linesOf (csvContent : string) : list string :=
  split newline (trim csvContent).

Definition headerOk (header : string) : bool :=
  (includes "categories" (toLowerCase header)
   && includes "ratings" (toLowerCase header))%bool.

Definition rowCells (raw : string) : list string :=
  map trim (split "," (trim raw)).

Definition rowCategory (raw : string) : string := nth 0 (rowCells raw) "".

Definition rowRating (raw : string) : jsval :=
  match nth_error (rowCells raw) 1 with
  | Some r => Str r
  | None => Undefined
  end.

Definition blank (raw : string) : bool := String.eqb (trim raw) "".

Definition known (raw : string) : bool :=
  existsb (String.eqb (rowCategory raw)) Config.metricIds.

(** A row that is not blank and names a metric of the configuration. *)
Definition recognized (raw : string) : bool := (negb (blank raw) && known raw)%bool.

(** A row that is not blank and names something else. *)
Definition unknown (raw : string) : bool := (negb (blank raw) && negb (known raw))%bool.

(** The field a recognized row writes and the text it writes there: the
    clamped rating. *)
Definition write (fields : list (string * string)) (raw : string)
  : list (string * string) :=
  setInput (rowCategory raw) (toString (Num (validateInput (rowRating raw)))) fields.

Definition warningOf (raw : string) : logEntry :=
  Warn ("Unknown category in CSV: " ++ rowCategory raw).

(** The state after one row. *)
Definition rowEffect (s : App) (raw : string) : App :=
  if recognized raw then
    set_dom {| numberInputs := write (numberInputs (dom s)) raw;
               nameInput := nameInput (dom s) |} s
  else if unknown raw then add_log (warningOf raw) s
  else s.

(** The text a field shows for an integer rating. *)
Definition shown (z : Z) : string := toString (Num (ofZ z)).

(** The rating fields of a page showing the record [r]. *)
Definition fieldsOf (r : string -> Z) : list (string * string) :=
  map (fun i => (i, shown (r i))) Config.metricIds.

(** The mapping of the record [r]. *)
Definition mappingOf (r : string -> Z) : list (string * jsnum) :=
  map (fun i => (i, ofZ (r i))) Config.metricIds.

(** A data line of the export, without its line end. *)
Definition rowText (kv : string * string) : string := fst kv ++ "," ++ snd kv.

Fixpoint sconcat (l : list string) : string :=
  match l with
  | [] => EmptyString
  | x :: r => x ++ sconcat r
  end.

Definition firstNonWs (s : string) : bool :=
  match s with
  | EmptyString => false
  | String c _ => negb (isWhiteSpace c)
  end.

Fixpoint lastNonWs (s : string) : bool :=
  match s with
  | EmptyString => false
  | String c EmptyString => negb (isWhiteSpace c)
  | String _ r => lastNonWs r
  end.

(** A key that survives the export and the import unchanged. *)
Definition cleanKey (s : string) : bool :=
  (firstNonWs s && lastNonWs s && lacks "," s && lacks newline s)%bool.

(** Lines joined by line ends. *)
Fixpoint join (l : string) (rest : list string) : string :=
  match rest with
  | [] => l
  | x :: rest' => l ++ String newline (join x rest')
  end.

(** The data lines of the export of [r], for the metrics [ids]. *)
Definition rowsOf (r : string -> Z) (ids : list string) : list string :=
  map rowText (map (fun i => (i, shown (r i))) ids).

End ClientVocabulary.

Section ServerVocabulary.
Import JS Server.

(** The value of a finite number; 0 for the others. *)
Definition toQ (n : jsnum) : Q :=
  match n with Fin q => q | _ => 0%Q end.

(** The rating a record holds for a metric. *)
Definition rating (m : list (string * jsnum)) (k : string) : Q :=
  toQ (Server.field k m).

Definition sumQ (l : list Q) : Q := fold_right Qplus 0%Q l.

(** A complete record: the keys are the nineteen metric identifiers, each
    once, and every rating is a number in [0,5]. *)
Definition complete (m : list (string * jsnum)) : Prop :=
  NoDup (Obj.keys m) /\
  (forall k, In k (Obj.keys m) <-> In k Server.requiredMetrics) /\
  (forall k v, In (k, v) m -> exists q, v = Fin q /\ (0 <= q)%Q /\ (q <= 5)%Q).

(** The mean of the four theme averages, which the overall average is
    not. *)
Definition meanOfThemeAverages (m : list (string * jsnum)) : jsnum :=
  let avgs := Obj.values (Server.calculateThemeAverages m) in
  div (fold_left add avgs (ofZ 0)) (ofZ (Z.of_nat (List.length avgs))).

(** All nineteen metrics rated [others], except the four of the first
    theme, rated [first]. *)
Definition recordOf (first others : Z) : list (string * jsnum) :=
  map (fun k => (k, ofZ (if existsb (String.eqb k)
                               ["sharedVision"; "strategy"; "businessAlignment";
                                "customerFocus"]
                         then first else others)))
      Server.requiredMetrics.

End ServerVocabulary.

(** ** Sample environments, pages, records and requests *)

(** The clock of the samples, 2024-03-09T10:15:00Z, in seconds. *)
Definition clock_sample : JS.jsnum := JS.ofZ 1709979300.

(** A token is decoded to a payload that expires at 2024-03-10T10:15:00Z,
    but for the token [stale], whose payload expired an hour before the
    clock, and the token [garbled], which cannot be decoded. *)
Definition decode_sample (token : string) : Client.decoding :=
  if String.eqb token "stale" then Client.Decoded (Some (JS.ofZ 1709975700))
  else if String.eqb token "garbled" then Client.DecodeFails
  else Client.Decoded (Some (JS.ofZ 1710065700)).

(** Nobody is signed in: the manager holds no token. *)
Definition env_offline : Client.Env :=
  {| Client.authManager := Some None;
     Client.decodeToken := decode_sample;
     Client.seconds := clock_sample;
     Client.now := "2024-03-09T10:15:00.000Z";
     Client.remote := fun _ => Client.Rejected "Failed to fetch" |}.

(** The user is signed in and the remote store answers every call with
    the identity [i]. *)
Definition env_online (i : string) : Client.Env :=
  {| Client.authManager := Some (Some "good");
     Client.decodeToken := decode_sample;
     Client.seconds := clock_sample;
     Client.now := "2024-03-09T10:15:00.000Z";
     Client.remote := fun _ => Client.Ok i |}.

(** The user is signed in and the remote store cannot be reached. *)
Definition env_unreachable : Client.Env :=
  {| Client.authManager := Some (Some "good");
     Client.decodeToken := decode_sample;
     Client.seconds := clock_sample;
     Client.now := "2024-03-09T10:15:00.000Z";
     Client.remote := fun _ => Client.Rejected "Failed to fetch" |}.

(** The token of the user has expired. *)
Definition env_expired : Client.Env :=
  {| Client.authManager := Some (Some "stale");
     Client.decodeToken := decode_sample;
     Client.seconds := clock_sample;
     Client.now := "2024-03-09T10:15:00.000Z";
     Client.remote := fun _ => Client.Ok "" |}.

(** A fresh application on a page with every rating at 3. *)
Definition app_fresh : Client.App := Client.initial (pageOf "3" "Jane Doe").

(** A table with a wrong header and one good row. *)
Definition csv_wrong_header : string :=
  "Foo,Bar" ++ String newline "sharedVision,3".

(** A stored record of user [u1], every metric rated 3. *)
Definition assessment_jane : Server.Assessment :=
  {| Server._id := "65f0c0ffee";
     Server.userId := "u1";
     Server.employeeName := "Jane Doe";
     Server.assessmentDate := "2024-03-09T10:15:00.000Z";
     Server.metrics := recordOf 3 3;
     Server.createdAt := "2024-03-09T10:15:00.000Z";
     Server.updatedAt := "2024-03-09T10:15:00.000Z";
     Server.version := 1 |}.

(** The identities cast in the samples: 24 hexadecimal digits. *)
Definition isHex24 (s : string) : bool :=
  ((String.length s =? 24)%nat
   && forallb (fun c => (JS.isDigit c || JS.between 97%N 102%N c
                         || JS.between 65%N 70%N c)%bool)
              (list_ascii_of_string s))%bool.

(** The dates cast in the samples: a full timestamp is its own cast, a
    day is cast to its midnight, nothing else is cast. *)
Definition castSample (d : string) : option string :=
  if (String.length d =? 24)%nat then Some d
  else if (String.length d =? 10)%nat then Some (d ++ "T00:00:00.000Z")
  else None.

(** A stored document with identities that can be cast. *)
Definition assessment_kim : Server.Assessment :=
  {| Server._id := "65f0c0ffee65f0c0ffee0001";
     Server.userId := "65f0c0ffee65f0c0ffee00a1";
     Server.employeeName := "Kim Poe";
     Server.assessmentDate := "2024-03-09T10:15:00.000Z";
     Server.metrics := recordOf 3 3;
     Server.createdAt := "2024-03-09T10:15:00.000Z";
     Server.updatedAt := "2024-03-09T10:15:00.000Z";
     Server.version := 1 |}.

(** An update that supplies the name alone. *)
Definition update_name_only : Server.Update :=
  {| Server.u_employeeName := Some "Jane Roe";
     Server.u_assessmentDate := None;
     Server.u_metrics := None |}.

(** An import file with every metric rated 3, but for [special], whose
    rating is the text [rating]; the metrics in [omitted] have no row. *)
Definition importFile (special rating : string) (omitted : list string) : string :=
  sconcat
    (("Categories,Ratings" ++ String newline "")
     :: map (fun k => k ++ "," ++ (if String.eqb k special then rating else "3")
                        ++ String newline "")
            (filter (fun k => negb (existsb (String.eqb k) omitted))
                    Server.requiredMetrics)).

Definition importRequest (csvData : string) : Server.ImportRequest :=
  {| Server.file := Some csvData;
     Server.body_employeeName := "Jane Doe";
     Server.req_userId := "u1";
     Server.newId := "65f0c0ffef";
     Server.today := "2024-03-09T10:15:00.000Z" |}.

(** A request body with every metric rated 3, but for [special]. *)
Definition bodyWith (special : string) (v : JS.jsval) : Server.Body :=
  {| Server.b_employeeName := JS.Str "Jane Doe";
     Server.b_assessmentDate := JS.Undefined;
     Server.b_metrics :=
       map (fun k => (k, if String.eqb k special then v else JS.Num (JS.ofZ 3)))
           Server.requiredMetrics |}.

(* ================================================================== *)
(** * Vocabulary of the further statements *)
(* ================================================================== *)

Section FurtherClientVocabulary.
Import JS Client.

(** A number that is a rating: finite and within the scale. *)
Definition inScale (n : jsnum) : Prop :=
  exists q, n = Fin q /\ (0 <= q)%Q /\ (q <= 5)%Q.

(** Every character of [s] satisfies [p]. *)
Fixpoint allChars (p : ascii -> bool) (s : string) : bool :=
  match s with
  | EmptyString => true
  | String c r => (p c && allChars p r)%bool
  end.

(** No underscore of [s] is followed by an underscore. *)
Fixpoint noDoubleUnderscore (s : string) : bool :=
  match s with
  | EmptyString => true
  | String a t =>
      match t with
      | EmptyString => true
      | String b _ =>
          (negb (Ascii.eqb a "_" && Ascii.eqb b "_") && noDoubleUnderscore t)%bool
      end
  end.

(** What [updateChart] leaves alone but for the console. *)
Definition sameButConsole (s s' : App) : Prop :=
  dom s' = dom s /\ chart s' = chart s /\ employeeName s' = employeeName s /\
  currentAssessmentId s' = currentAssessmentId s /\
  localStorage s' = localStorage s /\ notices s' = notices s /\
  requests s' = requests s /\ downloads s' = downloads s.

End FurtherClientVocabulary.

Section FurtherClientVocabulary2.
Import JS Client.

(** The last row of a table that is recognized and names the metric [i]. *)
Definition lastRowFor (i : string) (rows : list string) : option string :=
  find (fun raw => (recognized raw && String.eqb (rowCategory raw) i)%bool) (rev rows).

(** The text a row leaves in its field. *)
Definition clampedText (raw : string) : string :=
  toString (Num (validateInput (rowRating raw))).

End FurtherClientVocabulary2.

Section FurtherClientVocabulary3.
Import JS Client ClientRest.

(** Consecutive calls related by [R], the first of them to the time [t]. *)
Fixpoint chained {A} (R : Z -> Z -> Prop) (t : Z) (calls : list (Z * A)) : Prop :=
  match calls with
  | [] => True
  | c :: rest => R t (fst c) /\ chained R (fst c) rest
  end.

(** A runtime that runs every timer the instant it is due, before a call
    of that instant. *)
Definition prompt (due t : Z) : bool := due <=? t.

(** A table whose second row for [teams] is out of the scale. *)
Definition csv_two_rows : string :=
  "Categories,Ratings" ++ String newline ("teams,2" ++ String newline "teams,9").

End FurtherClientVocabulary3.

Section FurtherClientVocabulary4.
Import JS Client Json ClientRest.


(** The fields after [input.value = value] for each member in turn. *)
Definition restored (members : list (string * json)) (fields : list (string * string))
  : list (string * string) :=
  fold_left (fun l kv => setInput (fst kv) (fieldText (Some (snd kv))) l) members fields.

(** A response with a record that has an identity and three ratings. *)
Definition response_sample : fetchResult :=
  Fetched (JObj [("assessment",
    JObj [("_id", JStr "64b7f3a2c1");
          ("employeeName", JStr "Jane Doe");
          ("metrics", JObj [("teams", JNum (ofZ 4)); ("sharedVision", JNum (ofZ 2))])])]).

End FurtherClientVocabulary4.

Section FurtherServerVocabulary.
Import JS Server ServerRest Json.

(** A whole rating of the scale. *)
Definition wholeRating (n : jsnum) : Prop :=
  exists z, n = ofZ z /\ 0 <= z <= 5.

(** The body the server parses from the payload the client sends.  A
    payload of the client holds no NaN, which would travel as [null]. *)
Definition bodyOf (p : Client.Payload) : Body :=
  {| b_employeeName := Str (Client.p_employeeName p);
     b_assessmentDate := Str (Client.p_assessmentDate p);
     b_metrics := map (fun kv => (fst kv, Num (snd kv))) (Client.p_metrics p) |}.

(** Every stored document passes the validators of the schema. *)
Definition wellFormed (db : list Assessment) : Prop :=
  Forall (fun a => schemaValid a = true) db.

(** No two stored documents share an identity. *)
Definition distinctIds (db : list Assessment) : Prop := NoDup (map _id db).

(** The documents of the users other than [uid] are the same in both. *)
Definition othersKept (uid : string) (db db' : list Assessment) : Prop :=
  forall a, userId a <> uid -> (In a db <-> In a db').

(** Every check passes: the sample cast of identities and dates. *)
Definition castAny (s : string) : bool := true.

(** A second document, of another user. *)
Definition assessment_john : Assessment :=
  {| _id := "65f0c0ffaa";
     userId := "u2";
     employeeName := "John Roe";
     assessmentDate := "2024-03-10T09:00:00.000Z";
     metrics := recordOf 4 2;
     createdAt := "2024-03-10T09:00:00.000Z";
     updatedAt := "2024-03-10T09:00:00.000Z";
     version := 1 |}.

Definition db_two : list Assessment := [assessment_jane; assessment_john].

(** A full request body for a new document. *)
Definition update_full : Update :=
  {| u_employeeName := Some " Ann Lee ";
     u_assessmentDate := None;
     u_metrics := Some (recordOf 5 1) |}.

End FurtherServerVocabulary.

Section FurtherAuthVocabulary.
Import JS ServerRest.

(** A verification that accepts the one token [good] for user [u1]. *)
Definition verify_sample (token : string) : verification :=
  if String.eqb token "good"
  then Verified {| tp_userId := "u1"; tp_email := "jane@example.org";
                   tp_role := Some "user" |}
  else JsonWebTokenError.

Definition users_sample (id : string) : lookup :=
  if String.eqb id "u1" then UserFound else UserMissing.

End FurtherAuthVocabulary.

Section FurtherServerSamples.
Import JS Server ServerRest.

(** The document that [update_full] creates for user [u1]. *)
Definition assessment_ann : Assessment :=
  {| _id := "65f0c0ffbb";
     userId := "u1";
     employeeName := "Ann Lee";
     assessmentDate := "2024-03-11T08:00:00.000Z";
     metrics := recordOf 5 1;
     createdAt := "2024-03-11T08:00:00.000Z";
     updatedAt := "2024-03-11T08:00:00.000Z";
     version := 1 |}.

End FurtherServerSamples.

Section WireVocabulary.
Import JS Json ServerRest.



End WireVocabulary.

Section SessionVocabulary.
Import JS Client Json ClientRest Session.

(** A request that is no create, no load and no update of another
    identity than [i]: a logout, or an update of [i]. *)
Definition writesTo (i : string) (c : apiCall) : Prop :=
  c = Logout \/ isUpdateOf i c.

(** An event other than "start new" and the load of a record. *)
Definition calm (e : event) : bool :=
  match e with
  | NewAssessment | LoadAssessment _ _ => false
  | _ => true
  end.

(** Every state a statement may end in, returning or throwing, is related
    by [P] to the one it started in. *)
Definition preserves {A} (P : App -> App -> Prop) (m : M A) : Prop :=
  forall s, P s (stateOf (m s)).

(** The bound identity and the requests sent are as before. *)
Definition keeps (s s' : App) : Prop :=
  currentAssessmentId s' = currentAssessmentId s /\ requests s' = requests s.

(** While [i] is bound: the identity is as before and what has been sent
    since writes to [i]. *)
Definition sends (i : string) (s s' : App) : Prop :=
  boundId (currentAssessmentId s) = Some i ->
  currentAssessmentId s' = currentAssessmentId s /\
  exists sent, requests s' = (requests s ++ sent)%list /\ Forall (writesTo i) sent.

(** The user types a rating and a name; the two debounce timers then run,
    the second before the create of the first has settled; the two
    creates settle with the identities [a] and [b], and the user saves
    once more. *)
Definition overlapping (env : Env) (a b : string) : list event :=
  [InputRating "teams" "4"; InputName "Jo";
   RatingsTimer env; NameTimer env;
   Settles env 0 (Replied (Ok a)); Settles env 0 (Replied (Ok b));
   SaveShortcut env].

End SessionVocabulary.

Section NameVocabulary.
Import JS Client Json ClientRest Session.

(** The name the application holds, and the name in the saved item if
    there is one, have no surrounding whitespace. *)
Definition namesTrimmed (s : App) : Prop :=
  trim (employeeName s) = employeeName s /\
  match localStorage s with
  | Some saved => trim (saved_employeeName saved) = saved_employeeName saved
  | None => True
  end.

Definition staysTrimmed (s s' : App) : Prop := namesTrimmed s -> namesTrimmed s'.

(** The name that [loadAssessment] takes from a response, if it takes
    one. *)
Definition servedName (response : fetchResult) : option string :=
  match response with
  | Fetched d =>
      match prop "assessment" (Some d) with
      | Some assessment =>
          match prop "employeeName" assessment with
          | Some (Some n) => if truthy (Some n) then Some (text n) else None
          | _ => None
          end
      | None => None
      end
  | FetchFailed _ => None
  end.

(** An event that brings no name with surrounding whitespace from the
    remote store. *)
Definition servesTrimmed (e : event) : Prop :=
  match e with
  | Settles _ _ (Delivered response) =>
      forall n, servedName response = Some n -> trim n = n
  | _ => True
  end.

End NameVocabulary.

(* ================================================================== *)
(** * Properties *)
(* ================================================================== *)

(** ** The primitives on sample inputs *)

Example parseFloat_ex1 : JS.parseFloat (JS.Str " 2.50abc") = JS.Fin (5 # 2).
Proof. vm_compute. reflexivity. Qed.
Example parseFloat_ex2 : JS.parseFloat (JS.Str "-.5e1") = JS.Fin (-5 # 1).
Proof. vm_compute. reflexivity. Qed.
Example parseFloat_ex3 : JS.parseFloat (JS.Str "1e") = JS.Fin 1.
Proof. vm_compute. reflexivity. Qed.
Example parseFloat_ex4 : JS.parseFloat (JS.Str ".") = JS.NaN.
Proof. vm_compute. reflexivity. Qed.
Example parseFloat_ex5 : JS.parseFloat JS.Undefined = JS.NaN.
Proof. vm_compute. reflexivity. Qed.
Example parseFloat_ex6 : JS.parseFloat (JS.Str "-Infinityx") = JS.Inf true.
Proof. vm_compute. reflexivity. Qed.
Example parseInt_ex1 : JS.parseInt (JS.Str " 0x1F") = JS.ofZ 31.
Proof. vm_compute. reflexivity. Qed.
Example parseInt_ex2 : JS.parseInt (JS.Str "2.7") = JS.ofZ 2.
Proof. vm_compute. reflexivity. Qed.
Example parseInt_ex3 : JS.parseInt (JS.Str "") = JS.NaN.
Proof. vm_compute. reflexivity. Qed.
Example toString_ex1 : map JS.numberToString
  [JS.Fin 0; JS.Fin 5; JS.Fin (5#2); JS.Fin (1#1000); JS.Fin (1#10000000);
   JS.Fin (-1500#1); JS.Fin (123456#100); JS.Fin (12 # 10000000000)]
  = ["0"; "5"; "2.5"; "0.001"; "1e-7"; "-1500"; "1234.56"; "1.2e-9"].
Proof. vm_compute. reflexivity. Qed.
Example trim_ex : JS.trim "  a b
 " = "a b".
Proof. vm_compute. reflexivity. Qed.
Example split_ex : JS.split "," "a,,b," = ["a"; ""; "b"; ""].
Proof. vm_compute. reflexivity. Qed.

(** ** Numbers and the rating clamp *)

Section NumberFacts.
Import JS.

Lemma Qltb_true (x y : Q) : Qltb x y = true <-> (x < y)%Q.
Proof.
  unfold Qltb. rewrite negb_true_iff. split; intro H.
  - apply Qnot_le_lt. intro L. apply Qle_bool_iff in L. congruence.
  - destruct (Qle_bool y x) eqn:E; [|reflexivity].
    apply Qle_bool_iff in E. exfalso. exact (Qlt_not_le _ _ H E).
Qed.

Lemma Qltb_false (x y : Q) : Qltb x y = false <-> (y <= x)%Q.
Proof.
  unfold Qltb. rewrite negb_false_iff. apply Qle_bool_iff.
Qed.

(** Two reduced fractions that are equal as rationals are the same term. *)
Lemma Qred_canon (x y : Q) : Qred x = x -> Qred y = y -> (x == y)%Q -> x = y.
Proof.
  intros Hx Hy E. rewrite <- Hx, <- Hy. now apply Qred_complete.
Qed.

Lemma Qred_idem (q : Q) : Qred (Qred q) = Qred q.
Proof. apply Qred_complete, Qred_correct. Qed.

Lemma readDecimal_reduced (s : string) (q : Q) :
  readDecimal s = Some q -> Qred q = q.
Proof.
  unfold readDecimal.
  destruct (span isDigit s) as [ip r1].
  destruct (match r1 with
            | String "." r => span isDigit r
            | _ => (EmptyString, r1)
            end) as [fp r2].
  destruct ip, fp; intro H; try discriminate;
    apply (f_equal (fun o => match o with Some x => x | None => q end)) in H;
    rewrite <- H; apply Qred_idem.
Qed.

(** A finite result of [parseFloat] is a reduced fraction. *)
Lemma parseFloat_reduced (v : jsval) (r : Q) :
  parseFloat v = Fin r -> Qred r = r.
Proof.
  unfold parseFloat, parseFloatStr.
  destruct (readSign (trimStart (toString v))) as [neg rest].
  destruct (startsWith "Infinity" rest); [discriminate|].
  destruct (readDecimal rest) as [q|] eqn:E; [|discriminate].
  intro H.
  apply (f_equal (fun n => match n with Fin x => x | _ => r end)) in H.
  rewrite <- H. destruct neg.
  - apply Qred_idem.
  - eapply readDecimal_reduced; eauto.
Qed.

End NumberFacts.

(** C1. For every input [v]: when [parseFloat] reads a number [r] from it,
    [validateInput] returns [r] itself if [0 <= r <= 5] (no rounding of
    fractional values), 0 if [r < 0] and 5 if [r > 5], the infinities
    included; when the input is not numeric, it returns 0. *)
Theorem validateInput_clamps (v : JS.jsval) :
  (forall r, JS.parseFloat v = JS.Fin r -> (0 <= r)%Q -> (r <= 5)%Q ->
             Client.validateInput v = JS.Fin r) /\
  (forall r, JS.parseFloat v = JS.Fin r -> (r < 0)%Q ->
             Client.validateInput v = JS.Fin 0) /\
  (forall r, JS.parseFloat v = JS.Fin r -> (5 < r)%Q ->
             Client.validateInput v = JS.Fin 5) /\
  (JS.parseFloat v = JS.Inf true -> Client.validateInput v = JS.Fin 0) /\
  (JS.parseFloat v = JS.Inf false -> Client.validateInput v = JS.Fin 5) /\
  (JS.parseFloat v = JS.NaN -> Client.validateInput v = JS.Fin 0).
Proof.
  unfold Client.validateInput, Config.ratingScale_min, Config.ratingScale_max, JS.ofZ.
  change (inject_Z 0) with 0%Q. change (inject_Z 5) with 5%Q.
  repeat split.
  - intros r E Hlo Hhi. pose proof (parseFloat_reduced v r E) as Hr.
    rewrite E. cbn [JS.isNaN JS.Math_min JS.Math_max JS.ltb].
    destruct (JS.Qltb r 5) eqn:L5.
    + cbn [JS.Math_max JS.ltb].
      destruct (JS.Qltb 0 r) eqn:L0; [reflexivity|].
      apply Qltb_false in L0. f_equal.
      apply Qred_canon; [reflexivity | exact Hr | now apply Qle_antisym].
    + apply Qltb_false in L5. cbn [JS.Math_max JS.ltb].
      replace (JS.Qltb 0 5) with true by reflexivity. f_equal.
      apply Qred_canon; [reflexivity | exact Hr | now apply Qle_antisym].
  - intros r E Hneg. rewrite E. cbn [JS.isNaN JS.Math_min JS.Math_max JS.ltb].
    assert (L5 : JS.Qltb r 5 = true).
    { apply Qltb_true. eapply Qlt_trans; [exact Hneg | reflexivity]. }
    rewrite L5. cbn [JS.Math_max JS.ltb].
    assert (L0 : JS.Qltb 0 r = false).
    { apply Qltb_false. now apply Qlt_le_weak. }
    now rewrite L0.
  - intros r E Hbig. rewrite E. cbn [JS.isNaN JS.Math_min JS.Math_max JS.ltb].
    assert (L5 : JS.Qltb r 5 = false).
    { apply Qltb_false. now apply Qlt_le_weak. }
    rewrite L5. reflexivity.
  - intro E. rewrite E. reflexivity.
  - intro E. rewrite E. reflexivity.
  - intro E. rewrite E. reflexivity.
Qed.

Lemma validateInput_clamps_witness :
  Client.validateInput (JS.Str "2.5") = JS.Fin (5 # 2) /\
  Client.validateInput (JS.Str "-3") = JS.Fin 0 /\
  Client.validateInput (JS.Str "7.25") = JS.Fin 5 /\
  Client.validateInput (JS.Str "abc") = JS.Fin 0.
Proof.
  split; [|split; [|split]].
  - apply (proj1 (validateInput_clamps (JS.Str "2.5")) (5 # 2));
      [reflexivity | discriminate | discriminate].
  - apply (proj1 (proj2 (validateInput_clamps (JS.Str "-3"))) (-3 # 1));
      reflexivity.
  - apply (proj1 (proj2 (proj2 (validateInput_clamps (JS.Str "7.25")))) (29 # 4));
      reflexivity.
  - apply (proj2 (proj2 (proj2 (proj2 (proj2 (validateInput_clamps (JS.Str "abc"))))))).
    reflexivity.
Defined.

(** ** Strings *)

Section StringFacts.
Import JS.

Lemma split_nonempty (sep : ascii) (s : string) : split sep s <> [].
Proof.
  induction s as [|c r IH]; simpl; [discriminate|].
  destruct (Ascii.eqb c sep); [discriminate|].
  destruct (split sep r); [contradiction | discriminate].
Qed.

Lemma split_lacks (sep : ascii) (s : string) :
  lacks sep s = true -> split sep s = [s].
Proof.
  induction s as [|c r IH]; simpl; [reflexivity|].
  intro H. apply andb_true_iff in H as [Hc Hr].
  apply negb_true_iff in Hc. rewrite Hc, (IH Hr). reflexivity.
Qed.

Lemma split_app (sep : ascii) (a b : string) :
  lacks sep a = true -> split sep (a ++ String sep b) = a :: split sep b.
Proof.
  induction a as [|c r IH]; simpl.
  - intros _. now rewrite Ascii.eqb_refl.
  - intro H. apply andb_true_iff in H as [Hc Hr].
    apply negb_true_iff in Hc. rewrite Hc, (IH Hr). reflexivity.
Qed.

Lemma append_assoc (a b c : string) : (a ++ b) ++ c = a ++ (b ++ c).
Proof. induction a as [|x a IH]; simpl; [reflexivity | now rewrite IH]. Qed.

Lemma append_nil_r (a : string) : a ++ "" = a.
Proof. induction a as [|x a IH]; simpl; [reflexivity | now rewrite IH]. Qed.

Lemma length_drop_le (n : nat) (s : string) :
  (String.length (drop n s) <= String.length s)%nat.
Proof.
  revert s. induction n as [|n IH]; intros [|c r]; simpl; try lia.
  specialize (IH r). lia.
Qed.

End StringFacts.

(** ** File names of the single-record export *)

Section Filenames.
Import JS.

Lemma collapse_other (c : ascii) (r : string) :
  Ascii.eqb c "_" = false ->
  Stated.collapseUnderscores (String c r) = String c (Stated.collapseUnderscores r).
Proof.
  intro H. destruct r as [|b r]; [reflexivity|].
  cbn [Stated.collapseUnderscores]. now rewrite H.
Qed.

(** After an underscore the whole run that follows is dropped. *)
Lemma collapse_run (r : string) :
  Stated.collapseUnderscores (String "_" r)
  = String "_" (Stated.collapseUnderscores (drop (Client.underscores r) r)).
Proof.
  induction r as [|b r IH]; [reflexivity|].
  cbn [Client.underscores]. destruct (Ascii.eqb b "_") eqn:E.
  - apply Ascii.eqb_eq in E. subst b. cbn [drop]. rewrite <- IH. reflexivity.
  - cbn [drop]. change (Stated.collapseUnderscores (String "_" (String b r)))
      with (if (Ascii.eqb "_" "_" && Ascii.eqb b "_")%bool
            then Stated.collapseUnderscores (String b r)
            else String "_" (Stated.collapseUnderscores (String b r))).
    now rewrite E.
Qed.

(** The scan of the regular expression, given enough positions, collapses
    the runs. *)
Lemma replaceRuns_collapse (fuel : nat) (s : string) :
  (String.length s <= fuel)%nat ->
  Client.replaceRuns fuel s = Stated.collapseUnderscores s.
Proof.
  revert s. induction fuel as [|k IH]; intros s Hlen.
  - destruct s; [reflexivity | simpl in Hlen; lia].
  - destruct s as [|c r]; [reflexivity|].
    simpl in Hlen. cbn [Client.replaceRuns Client.underscores].
    destruct (Ascii.eqb c "_") eqn:E.
    + apply Ascii.eqb_eq in E. subst c. rewrite collapse_run.
      assert (Hd : (String.length (drop (Client.underscores r) r) <= k)%nat).
      { pose proof (length_drop_le (Client.underscores r) r). lia. }
      destruct (Client.underscores r) as [|m] eqn:U.
      * cbn [Nat.leb drop]. rewrite IH by lia. reflexivity.
      * cbn [Nat.leb drop]. rewrite IH by exact Hd. reflexivity.
    + cbn [Nat.leb]. rewrite IH by lia. now rewrite collapse_other.
Qed.

Lemma outside_in (c : ascii) :
  Client.outsideFilenameClass c = negb (Stated.inFilenameClass c).
Proof.
  unfold Client.outsideFilenameClass, Stated.inFilenameClass.
  destruct (isLower c), (isUpper c); reflexivity.
Qed.

Lemma smap_ext (f g : ascii -> ascii) (s : string) :
  (forall c, f c = g c) -> smap f s = smap g s.
Proof. intro H. induction s as [|c r IH]; simpl; [reflexivity | now rewrite H, IH]. Qed.

(** [sanitizeFilename] is the three steps of the specification applied to
    the trimmed name. *)
Lemma sanitizeFilename_stated (name : string) :
  Client.sanitizeFilename name = Stated.sanitize (trim name).
Proof.
  unfold Client.sanitizeFilename, Stated.sanitize, substring0.
  rewrite replaceRuns_collapse by lia. f_equal. f_equal.
  apply smap_ext. intro c. rewrite outside_in.
  now destruct (Stated.inFilenameClass c).
Qed.

End Filenames.

(** The name of the export of any text: the text is trimmed before the
    three steps. *)
Lemma csvFilename_eq (env : Client.Env) (name date rest : string) :
  Client.now env = date ++ "T" ++ rest ->
  lacks "T" date = true ->
  Client.csvFilename env name =
    (match name with
     | EmptyString => "user"
     | _ => Stated.sanitize (JS.trim name)
     end) ++ "_assessment_" ++ date ++ ".csv".
Proof.
  intros Hnow Hdate. unfold Client.csvFilename.
  rewrite Hnow. change (date ++ "T" ++ rest) with (date ++ String "T" rest).
  rewrite split_app by exact Hdate. cbn [hd].
  destruct name as [|c r]; [reflexivity|].
  now rewrite sanitizeFilename_stated.
Qed.



(** On a text with surrounding whitespace, which the program never stores
    as the name, the code trims where the three steps alone would not. *)
Example csvFilename_of_untrimmed_text :
  Client.csvFilename env_offline " a" = "a_assessment_2024-03-09.csv" /\
  Stated.filename " a" "2024-03-09" = "_a_assessment_2024-03-09.csv".
Proof. split; reflexivity. Qed.

(** ** Averages of a stored record *)

Section Averages.
Import JS.

Lemma get_In {V} (k : string) (v : V) (o : list (string * V)) :
  Obj.get k o = Some v -> In (k, v) o.
Proof.
  induction o as [|[k' v'] r IH]; simpl; [discriminate|].
  destruct (String.eqb k k') eqn:E.
  - apply String.eqb_eq in E. intros [= ->]. subst. now left.
  - intro H. right. now apply IH.
Qed.

Lemma get_None {V} (k : string) (o : list (string * V)) :
  Obj.get k o = None <-> ~ In k (Obj.keys o).
Proof.
  induction o as [|[k' v'] r IH]; simpl.
  - split; [tauto | reflexivity].
  - destruct (String.eqb k k') eqn:E.
    + apply String.eqb_eq in E. subst. split; [discriminate | tauto].
    + apply String.eqb_neq in E. rewrite IH. split; intro H.
      * intros [H1 | H1]; [congruence | tauto].
      * tauto.
Qed.

Lemma NoDup_get {V} (o : list (string * V)) (k : string) (v : V) :
  NoDup (Obj.keys o) -> In (k, v) o -> Obj.get k o = Some v.
Proof.
  induction o as [|[k' v'] r IH]; simpl; [tauto|].
  intros ND [H | H].
  - inversion H; subst. now rewrite String.eqb_refl.
  - inversion ND as [|? ? Hnot ND']; subst.
    destruct (String.eqb k k') eqn:E.
    + apply String.eqb_eq in E. subst. exfalso. apply Hnot.
      change (In (fst (k', v)) (map fst r)). now apply in_map.
    + now apply IH.
Qed.

Lemma requiredMetrics_NoDup : NoDup Server.requiredMetrics.
Proof.
  unfold Server.requiredMetrics.
  repeat (constructor; [simpl; intuition discriminate|]). constructor.
Qed.

Lemma complete_field (m : list (string * jsnum)) (k : string) :
  complete m -> In k Server.requiredMetrics ->
  exists q, Server.field k m = Fin q /\ (0 <= q)%Q /\ (q <= 5)%Q.
Proof.
  intros (ND & Hkeys & Hvals) Hk. unfold Server.field.
  destruct (Obj.get k m) as [v|] eqn:E.
  - apply get_In in E. destruct (Hvals _ _ E) as (q & -> & Hq). now exists q.
  - apply get_None in E. exfalso. apply E. now apply Hkeys.
Qed.

Lemma sumQ_perm (f : string -> Q) (l l' : list string) :
  Permutation l l' -> (sumQ (map f l) == sumQ (map f l'))%Q.
Proof.
  induction 1; simpl.
  - reflexivity.
  - now rewrite IHPermutation.
  - ring.
  - now rewrite IHPermutation1.
Qed.

Lemma fold_add_finite (l : list jsnum) (a : Q) :
  (forall v, In v l -> exists q, v = Fin q) ->
  exists s, fold_left add l (Fin a) = Fin s /\ (s == a + sumQ (map toQ l))%Q.
Proof.
  revert a. induction l as [|v r IH]; intros a H; simpl.
  - exists a. split; [reflexivity | ring].
  - destruct (H v (or_introl eq_refl)) as (q & ->).
    destruct (IH (a + q)%Q) as (s & E & Hs).
    { intros w Hw. apply H. now right. }
    exists s. split; [exact E|]. rewrite Hs. simpl. ring.
Qed.

(** Reading the ratings key by key gives the values in order. *)
Lemma ratings_of_keys (m : list (string * jsnum)) :
  NoDup (Obj.keys m) -> map (rating m) (Obj.keys m) = map toQ (Obj.values m).
Proof.
  intro ND. unfold Obj.keys, Obj.values. rewrite !map_map.
  apply map_ext_in. intros [k v] Hin. unfold rating, Server.field. simpl.
  now rewrite (NoDup_get m k v ND Hin).
Qed.

Lemma div_finite (s : Q) (n : Z) :
  (0 < n)%Z -> div (Fin s) (ofZ n) = Fin (s / inject_Z n).
Proof.
  intro Hn. unfold div, ofZ.
  destruct (Qeq_bool (inject_Z n) 0) eqn:E; [|reflexivity].
  apply Qeq_bool_iff in E. unfold Qeq in E. simpl in E. lia.
Qed.

Lemma recordOf_complete (first others : Z) :
  (0 <= first <= 5)%Z -> (0 <= others <= 5)%Z -> complete (recordOf first others).
Proof.
  intros Hf Ho. split; [|split].
  - exact requiredMetrics_NoDup.
  - intro k. reflexivity.
  - intros k v Hin. unfold recordOf in Hin. apply in_map_iff in Hin.
    destruct Hin as (k' & [= <- <-] & _).
    match goal with |- context [if ?b then _ else _] => destruct b end;
      eexists; (split; [reflexivity|]); unfold Qle; simpl; lia.
Qed.

End Averages.

Ltac field_of m Hc k :=
  let q := fresh "q" in
  let E := fresh "E" in
  let Hlo := fresh "Hlo" in
  let Hhi := fresh "Hhi" in
  destruct (complete_field m k Hc ltac:(simpl; tauto)) as (q & E & Hlo & Hhi);
  rewrite E.

(** C3. For every complete record, each theme average is a number in
    [0,5] and the overall average is the sum of the nineteen ratings
    divided by 19; and that is not the mean of the four theme averages: on
    the complete record rating the four metrics of the first theme 5 and
    all others 0 the two differ. *)
Theorem averages_of_complete_record :
  (forall m, complete m ->
     (forall theme avg, In (theme, avg) (Server.calculateThemeAverages m) ->
        exists q, avg = JS.Fin q /\ (0 <= q)%Q /\ (q <= 5)%Q) /\
     (exists q, Server.calculateOverallAverage m = JS.Fin q /\
        (q == sumQ (map (rating m) Server.requiredMetrics) / 19)%Q)) /\
  (exists m a b, complete m /\
     Server.calculateOverallAverage m = JS.Fin a /\
     meanOfThemeAverages m = JS.Fin b /\ ~ (a == b)%Q).
Proof.
  split.
  - intros m Hc. split.
    + intros theme avg Hin. unfold Server.calculateThemeAverages in Hin.
      revert Hin.
      field_of m Hc "sharedVision". field_of m Hc "strategy".
      field_of m Hc "businessAlignment". field_of m Hc "customerFocus".
      field_of m Hc "crossFunctionalTeams". field_of m Hc "clarityInPriorities".
      field_of m Hc "acceptanceCriteria". field_of m Hc "enablingFocus".
      field_of m Hc "engagement". field_of m Hc "feedback".
      field_of m Hc "enablingAutonomy". field_of m Hc "changeAndAmbiguity".
      field_of m Hc "desiredCulture". field_of m Hc "workAutonomously".
      field_of m Hc "stakeholders". field_of m Hc "teamAttrition".
      field_of m Hc "teams". field_of m Hc "developingPeople".
      field_of m Hc "subordinatesForSuccess".
      cbn [JS.add]. rewrite !div_finite by lia.
      intros [H | [H | [H | [H | []]]]]; inversion H; subst; clear H;
        eexists; (split; [reflexivity|]);
        change (inject_Z 4) with 4%Q; change (inject_Z 5) with 5%Q;
        (split; [apply Qle_shift_div_l | apply Qle_shift_div_r]); lra.
    + destruct Hc as (ND & Hkeys & Hvals).
      assert (Hperm : Permutation (Obj.keys m) Server.requiredMetrics).
      { apply NoDup_Permutation; [exact ND | exact requiredMetrics_NoDup | exact Hkeys]. }
      assert (Hlen : List.length (Obj.values m) = 19%nat).
      { unfold Obj.values. rewrite length_map.
        rewrite <- (length_map fst). apply (Permutation_length Hperm). }
      destruct (fold_add_finite (Obj.values m) 0) as (s & Es & Hs).
      { intros v Hv. unfold Obj.values in Hv. apply in_map_iff in Hv.
        destruct Hv as ([k v'] & <- & Hin).
        destruct (Hvals _ _ Hin) as (q & -> & _). now exists q. }
      exists (s / inject_Z 19)%Q. split.
      * unfold Server.calculateOverallAverage. cbv zeta.
        change (JS.ofZ 0) with (JS.Fin 0).
        change (fun acc val : JS.jsnum => JS.add acc val) with JS.add.
        rewrite Es, Hlen. now apply div_finite.
      * rewrite Hs, <- (ratings_of_keys m ND).
        rewrite (sumQ_perm (rating m) _ _ Hperm).
        change (inject_Z 19) with 19%Q. field.
  - exists (recordOf 5 0), (20 # 19)%Q, (2500 # 2000)%Q. split; [|split; [|split]].
    + apply recordOf_complete; lia.
    + vm_compute. reflexivity.
    + vm_compute. reflexivity.
    + discriminate.
Qed.

Lemma averages_of_complete_record_witness :
  exists q, Server.calculateOverallAverage (recordOf 3 3) = JS.Fin q /\
    (q == sumQ (map (rating (recordOf 3 3)) Server.requiredMetrics) / 19)%Q.
Proof.
  apply (proj1 averages_of_complete_record (recordOf 3 3)).
  apply recordOf_complete; lia.
Defined.

(** ** The sync policy *)

Section Sync.
Import JS Client.

Lemma saveToLocalStorage_eq (env : Env) (s : App) :
  saveToLocalStorage env s = Returns tt (set_localStorage (Some (snapshot env s)) s).
Proof. reflexivity. Qed.

Lemma signedIn_spec (env : Env) (s : App) :
  signedIn env s = Returns (authenticated env) (refusal env s).
Proof.
  unfold signedIn, authenticated, refusal, isAuthenticated.
  destruct (authManager env) as [[[|c r]|]|]; try reflexivity.
  destruct (decodeToken env (String c r)) as [exp|]; [|reflexivity].
  destruct (expired env exp); reflexivity.
Qed.

Lemma refusal_authenticated (env : Env) (s : App) :
  authenticated env = true -> refusal env s = s.
Proof.
  unfold authenticated, refusal.
  destruct (authManager env) as [[[|c r]|]|]; try reflexivity.
  destruct (decodeToken env (String c r)) as [exp|]; [|discriminate].
  now destruct (expired env exp).
Qed.

(** Why the test fails when it does. *)
Lemma unauthenticated_cases (env : Env) :
  authenticated env = false -> signedOut env \/ tokenRefused env.
Proof.
  unfold authenticated, signedOut, tokenRefused.
  destruct (authManager env) as [[[|c r]|]|]; auto.
  intro H. right. exists (String c r). split; [reflexivity|]. split; [discriminate|].
  destruct (decodeToken env (String c r)) as [exp|]; [|exact I].
  now destruct (expired env exp).
Qed.

Lemma refusal_signedOut (env : Env) (s : App) :
  signedOut env -> authenticated env = false /\ refusal env s = s.
Proof.
  unfold signedOut, authenticated, refusal.
  intros [H|[H|H]]; rewrite H; split; reflexivity.
Qed.

Lemma refusal_tokenRefused (env : Env) (s : App) :
  tokenRefused env ->
  authenticated env = false /\
  exists lines, refusal env s = add_request Logout (fold_left (fun a l => add_log l a) lines s) /\
    (lines = [Log "Token expired"] \/
     lines = [Error "Token decode error:"; Error "Token validation error:"]).
Proof.
  unfold tokenRefused, authenticated, refusal.
  intros (token & H & Hne & Hd). rewrite H.
  destruct token as [|c r]; [contradiction|].
  destruct (decodeToken env (String c r)) as [exp|].
  - rewrite Hd. split; [reflexivity|].
    exists [Log "Token expired"]. split; [reflexivity | now left].
  - split; [reflexivity|]. eexists. split; [|now right]. reflexivity.
Qed.

(** What the test leaves alone: all but the console and the requests. *)
Lemma refusal_frame (env : Env) (s : App) :
  dom (refusal env s) = dom s /\ chart (refusal env s) = chart s /\
  employeeName (refusal env s) = employeeName s /\
  currentAssessmentId (refusal env s) = currentAssessmentId s /\
  localStorage (refusal env s) = localStorage s /\
  notices (refusal env s) = notices s /\
  downloads (refusal env s) = downloads s /\
  (requests (refusal env s) = requests s \/
   requests (refusal env s) = (requests s ++ [Logout])%list).
Proof.
  unfold refusal.
  destruct (authManager env) as [[[|c r]|]|]; try (repeat split; now left).
  destruct (decodeToken env (String c r)) as [exp|].
  - destruct (expired env exp); repeat split; auto.
  - repeat split; auto.
Qed.

Lemma snapshot_refusal (env env' : Env) (s : App) :
  snapshot env' (refusal env s) = snapshot env' s.
Proof.
  destruct (refusal_frame env s) as (D & _ & N & _).
  unfold snapshot. now rewrite D, N.
Qed.

(** When the test fails no save request is sent: the state goes to the
    local storage and the console gets a line. *)
Lemma save_unauthenticated (env : Env) (s : App) :
  authenticated env = false ->
  saveToMongoDB env s =
    Returns tt
      (set_localStorage
         (Some (snapshot env s))
         (add_log (Log "Not authenticated, saving to localStorage only")
            (refusal env s))).
Proof.
  intro H. unfold saveToMongoDB, tryCatch. unfold bind at 1.
  rewrite signedIn_spec, H. cbn [negb].
  unfold bind, console_log, modify. rewrite saveToLocalStorage_eq.
  f_equal. f_equal. f_equal. unfold snapshot. cbn [employeeName dom add_log].
  destruct (refusal_frame env s) as (D & _ & N & _). now rewrite D, N.
Qed.

Lemma save_rejected (env : Env) (s : App) (message : string) :
  authenticated env = true ->
  remote env (requestOf env s) = Rejected message ->
  saveToMongoDB env s =
    Returns tt
      (add_notice (SuccessMessage "Saved locally (offline mode)")
         (set_localStorage (Some (snapshot env s))
            (add_notice (ErrorMessage ("Could not save to database: " ++ message))
               (add_log (Error "MongoDB save error:")
                  (add_request (requestOf env s) s))))).
Proof.
  intros Ha Hr. unfold saveToMongoDB, tryCatch. unfold bind at 1.
  rewrite signedIn_spec, Ha, (refusal_authenticated env s Ha). cbn [negb].
  unfold requestOf in *. unfold bind, gets, callApi, bind, modify.
  destruct (boundId (currentAssessmentId s)) as [i|];
    cbn [currentAssessmentId add_request]; rewrite Hr; reflexivity.
Qed.

Lemma save_created (env : Env) (s : App) (i : string) :
  authenticated env = true ->
  boundId (currentAssessmentId s) = None ->
  remote env (CreateAssessment (payloadOf env (dom s))) = Ok i ->
  saveToMongoDB env s =
    Returns tt
      (set_localStorage (Some (snapshot env s))
         (add_notice (SuccessMessage "Assessment saved to database")
            (set_currentAssessmentId (Some i)
               (add_request (CreateAssessment (payloadOf env (dom s))) s)))).
Proof.
  intros Ha Hb Hr. unfold saveToMongoDB, tryCatch. unfold bind at 1.
  rewrite signedIn_spec, Ha, (refusal_authenticated env s Ha). cbn [negb].
  unfold bind, gets, callApi, bind, modify. rewrite Hb.
  cbn [add_request]. rewrite Hr. reflexivity.
Qed.

Lemma save_updated (env : Env) (s : App) (i j : string) :
  authenticated env = true ->
  boundId (currentAssessmentId s) = Some i ->
  remote env (UpdateAssessment i (payloadOf env (dom s))) = Ok j ->
  saveToMongoDB env s =
    Returns tt
      (set_localStorage (Some (snapshot env s))
         (add_notice (SuccessMessage "Assessment updated successfully")
            (add_request (UpdateAssessment i (payloadOf env (dom s))) s))).
Proof.
  intros Ha Hb Hr. unfold saveToMongoDB, tryCatch. unfold bind at 1.
  rewrite signedIn_spec, Ha, (refusal_authenticated env s Ha). cbn [negb].
  unfold bind, gets, callApi, bind, modify. rewrite Hb.
  cbn [add_request]. rewrite Hr. reflexivity.
Qed.

(** A save never throws, changes neither the page nor the name, sends at
    most the one request [requestOf] describes, or starts a logout, and
    leaves a bound identity bound. *)
Lemma save_frame (env : Env) (s : App) :
  exists s', saveToMongoDB env s = Returns tt s' /\
    dom s' = dom s /\ employeeName s' = employeeName s /\
    chart s' = chart s /\
    (requests s' = requests s \/ requests s' = (requests s ++ [requestOf env s])%list
     \/ requests s' = (requests s ++ [Logout])%list) /\
    (forall i, boundId (currentAssessmentId s) = Some i ->
               currentAssessmentId s' = currentAssessmentId s).
Proof.
  destruct (authenticated env) eqn:Ha.
  - destruct (remote env (requestOf env s)) as [j|message] eqn:Hr.
    + destruct (boundId (currentAssessmentId s)) as [i|] eqn:Hb.
      * unfold requestOf in Hr. rewrite Hb in Hr.
        rewrite (save_updated env s i j Ha Hb Hr). eexists. split; [reflexivity|].
        unfold requestOf. rewrite Hb. cbn. repeat split; auto.
      * unfold requestOf in Hr. rewrite Hb in Hr.
        rewrite (save_created env s j Ha Hb Hr). eexists. split; [reflexivity|].
        unfold requestOf. rewrite Hb. cbn. repeat split; auto. discriminate.
    + rewrite (save_rejected env s message Ha Hr). eexists. split; [reflexivity|].
      cbn. repeat split; auto.
  - rewrite (save_unauthenticated env s Ha). eexists. split; [reflexivity|].
    destruct (refusal_frame env s) as (D & C & N & I & _ & _ & _ & R).
    cbn. rewrite D, C, N, I. repeat split; auto. destruct R as [-> | ->]; auto.
Qed.

Lemma forEach_frame {A} (P : App -> App -> Prop) (l : list A) (body : A -> M unit) :
  (forall s, P s s) ->
  (forall s1 s2 s3, P s1 s2 -> P s2 s3 -> P s1 s3) ->
  (forall x s, exists s', body x s = Returns tt s' /\ P s s') ->
  forall s, exists s', forEach l body s = Returns tt s' /\ P s s'.
Proof.
  intros Hrefl Htrans Hbody. induction l as [|x r IH]; intro s.
  - exists s. split; [reflexivity | apply Hrefl].
  - destruct (Hbody x s) as (s1 & E1 & P1).
    destruct (IH s1) as (s2 & E2 & P2).
    exists s2. split; [|eauto].
    cbn [forEach]. unfold bind. now rewrite E1.
Qed.

Lemma sameButChart_refl (s : App) : sameButChart s s.
Proof. repeat split. Qed.

Lemma sameButChart_trans (s1 s2 s3 : App) :
  sameButChart s1 s2 -> sameButChart s2 s3 -> sameButChart s1 s3.
Proof.
  unfold sameButChart. intros (A1 & A2 & A3 & A4 & A5 & A6 & A7)
    (B1 & B2 & B3 & B4 & B5 & B6 & B7).
  repeat split; congruence.
Qed.

Lemma updateChart_frame (s : App) :
  exists s', updateChart s = Returns tt s' /\ sameButChart s s'.
Proof.
  unfold updateChart, bind, gets. destruct (chart s) as [ch|].
  - destruct (forEach_frame sameButChart Config.metricIds
               (fun i => match getElementById i (dom s) with
                         | Some _ => ret tt
                         | None => console_warn ("Missing input field: " ++ i)
                         end)
               sameButChart_refl sameButChart_trans) with (s := s)
      as (s1 & E1 & P1).
    { intros x s0. destruct (getElementById x (dom s)).
      - exists s0. split; [reflexivity | apply sameButChart_refl].
      - eexists. split; [reflexivity|]. repeat split. }
    rewrite E1. eexists. split; [reflexivity|].
    eapply sameButChart_trans; [exact P1|]. repeat split.
  - exists s. split; [reflexivity | apply sameButChart_refl].
Qed.

End Sync.

Section SyncClaims.
Import JS Client.

Lemma set_fresh {V} (k : string) (v : V) (o : list (string * V)) :
  ~ In k (Obj.keys o) -> Obj.set k v o = (o ++ [(k, v)])%list.
Proof.
  induction o as [|[k' v'] r IH]; simpl; [reflexivity|].
  intro H. destruct (String.eqb k k') eqn:E.
  - apply String.eqb_eq in E. subst. tauto.
  - rewrite IH by tauto. reflexivity.
Qed.

Lemma fold_set_fresh {V} (f : string -> V) (l : list string) (acc : list (string * V)) :
  NoDup l -> (forall i, In i l -> ~ In i (Obj.keys acc)) ->
  fold_left (fun m i => Obj.set i (f i) m) l acc
  = (acc ++ map (fun i => (i, f i)) l)%list.
Proof.
  revert acc. induction l as [|i r IH]; intros acc ND Hfresh; simpl.
  - now rewrite app_nil_r.
  - inversion ND as [|? ? Hi ND']; subst.
    rewrite set_fresh by (apply Hfresh; now left).
    rewrite IH; [now rewrite <- app_assoc | exact ND' |].
    intros j Hj. unfold Obj.keys. rewrite map_app, in_app_iff. simpl.
    intros [H | [H | []]].
    + apply (Hfresh j); [now right | exact H].
    + subst. contradiction.
Qed.

Lemma fold_left_ext_in {A B} (g h : A -> B -> A) (l : list B) (a : A) :
  (forall x b, In b l -> g x b = h x b) -> fold_left g l a = fold_left h l a.
Proof.
  revert a. induction l as [|b r IH]; intros a H; simpl; [reflexivity|].
  rewrite H by now left. apply IH. intros x b' Hb. apply H. now right.
Qed.

Lemma metricIds_NoDup : NoDup Config.metricIds.
Proof.
  change Config.metricIds with Server.requiredMetrics. exact requiredMetrics_NoDup.
Qed.

Lemma pageComplete_get (d : Dom) (i : string) :
  pageComplete d -> In i Config.metricIds ->
  exists v, getElementById i d = Some v.
Proof.
  intros H Hi. destruct (H i Hi) as (v & E). exists v.
  unfold getElementById. now rewrite E.
Qed.

(** On a complete page the collected mapping has every metric, in the
    order of the configuration. *)
Lemma collectFormData_complete (d : Dom) :
  pageComplete d ->
  collectFormData d = map (fun i => (i, entered d i)) Config.metricIds.
Proof.
  intro H. unfold collectFormData.
  rewrite (fold_left_ext_in _ (fun m i => Obj.set i (entered d i) m)).
  - apply (fold_set_fresh (entered d) Config.metricIds []).
    + exact metricIds_NoDup.
    + intros i _ [].
  - intros m i Hi. unfold entered.
    destruct (pageComplete_get d i H Hi) as (v & ->). reflexivity.
Qed.

Lemma get_map_key {V} (f : string -> V) (l : list string) (i : string) :
  In i l -> Obj.get i (map (fun k => (k, f k)) l) = Some (f i).
Proof.
  induction l as [|k r IH]; simpl; [tauto|].
  intros [-> | H].
  - now rewrite String.eqb_refl.
  - destruct (String.eqb i k) eqn:E.
    + apply String.eqb_eq in E. now subst.
    + now apply IH.
Qed.

End SyncClaims.

Lemma pageOf_complete (v name : string) : pageComplete (pageOf v name).
Proof.
  intros i Hi. exists v. unfold pageOf. cbn [Client.numberInputs].
  now apply (get_map_key (fun _ => v)).
Qed.

Section SaveSteps.
Import JS Client.

(** The call of a save, as far as it runs at once. *)
Lemma called_authenticated (env : Env) (s : App) :
  authenticated env = true ->
  saveToMongoDB_called env s = Returns tt (add_request (requestOf env s) s).
Proof.
  intro Ha. unfold saveToMongoDB_called, tryCatch. unfold bind at 1.
  rewrite signedIn_spec, Ha, (refusal_authenticated env s Ha). cbn [negb].
  unfold bind, gets, requestOf.
  now destruct (boundId (currentAssessmentId s)).
Qed.

Lemma called_unauthenticated (env : Env) (s : App) :
  authenticated env = false ->
  saveToMongoDB_called env s = saveToMongoDB env s.
Proof.
  intro Ha. rewrite (save_unauthenticated env s Ha).
  unfold saveToMongoDB_called, tryCatch. unfold bind at 1.
  rewrite signedIn_spec, Ha. cbn [negb].
  unfold bind, console_log, modify. rewrite saveToLocalStorage_eq.
  f_equal. f_equal. f_equal. unfold snapshot. cbn [employeeName dom add_log].
  destruct (refusal_frame env s) as (D & _ & N & _). now rewrite D, N.
Qed.

(** The two parts of a save make the whole, when the request settles at
    once. *)
Lemma called_then_resumed (env : Env) (s : App) :
  authenticated env = true ->
  saveToMongoDB env s
  = saveToMongoDB_resumed env (requestOf env s) (remote env (requestOf env s))
      (add_request (requestOf env s) s).
Proof.
  intro Ha. unfold saveToMongoDB, saveToMongoDB_resumed, tryCatch. unfold bind at 1.
  rewrite signedIn_spec, Ha, (refusal_authenticated env s Ha). cbn [negb].
  unfold requestOf. unfold bind, gets, callApi, bind, modify.
  destruct (boundId (currentAssessmentId s)) as [i|];
    cbn [currentAssessmentId add_request];
    now destruct (remote env _).
Qed.

(** A request that settles rejected, whenever it does. *)
Lemma resumed_rejected (env : Env) (c : apiCall) (message : string) (s : App) :
  saveToMongoDB_resumed env c (Rejected message) s =
    Returns tt
      (add_notice (SuccessMessage "Saved locally (offline mode)")
         (set_localStorage (Some (snapshot env s))
            (add_notice (ErrorMessage ("Could not save to database: " ++ message))
               (add_log (Error "MongoDB save error:") s)))).
Proof. reflexivity. Qed.

(** A create that settles accepted. *)
Lemma resumed_created (env : Env) (data : Payload) (i : string) (s : App) :
  saveToMongoDB_resumed env (CreateAssessment data) (Ok i) s =
    Returns tt
      (set_localStorage (Some (snapshot env s))
         (add_notice (SuccessMessage "Assessment saved to database")
            (set_currentAssessmentId (Some i) s))).
Proof. reflexivity. Qed.

(** Any other request of a save that settles accepted. *)
Lemma resumed_updated (env : Env) (c : apiCall) (j : string) (s : App) :
  (forall data, c <> CreateAssessment data) ->
  saveToMongoDB_resumed env c (Ok j) s =
    Returns tt
      (set_localStorage (Some (snapshot env s))
         (add_notice (SuccessMessage "Assessment updated successfully") s)).
Proof.
  intro H. destruct c as [data| | |]; try reflexivity. now destruct (H data).
Qed.

End SaveSteps.

(** C7, as the code has it.  A save never throws, neither when it is
    called nor when its request settles.  When the request is rejected
    (network or server error), whenever that comes and whatever the
    request was, the state of that moment goes to the local storage, the
    error and then the notice "Saved locally (offline mode)" are shown,
    nothing more is sent and the bound identity is as before.  When
    nobody has signed in (no manager, or no token), the state goes to the
    local storage as well and nothing is sent, but no notice is shown: the
    console alone gets a line.  When the token has expired or cannot be
    decoded, the test for authentication logs that and starts a logout
    before the same happens; and when that logout settles, the item in
    the local storage is removed again. *)
Theorem autosave_failure_falls_back (env : Client.Env) (s : Client.App) :
  (forall message,
     Client.authenticated env = true ->
     Client.remote env (requestOf env s) = Client.Rejected message ->
     exists s', Client.saveToMongoDB env s = Client.Returns tt s' /\
       Client.localStorage s' = Some (snapshot env s) /\
       Client.notices s' =
         (Client.notices s ++
           [Client.ErrorMessage ("Could not save to database: " ++ message);
            Client.SuccessMessage "Saved locally (offline mode)"])%list /\
       Client.requests s' = (Client.requests s ++ [requestOf env s])%list /\
       Client.currentAssessmentId s' = Client.currentAssessmentId s) /\
  (forall env1 c message s1,
     exists s', Client.saveToMongoDB_resumed env1 c (Client.Rejected message) s1
                = Client.Returns tt s' /\
       Client.localStorage s' = Some (snapshot env1 s1) /\
       Client.notices s' =
         (Client.notices s1 ++
           [Client.ErrorMessage ("Could not save to database: " ++ message);
            Client.SuccessMessage "Saved locally (offline mode)"])%list /\
       Client.requests s' = Client.requests s1 /\
       Client.currentAssessmentId s' = Client.currentAssessmentId s1) /\
  (signedOut env ->
     exists s', Client.saveToMongoDB env s = Client.Returns tt s' /\
       Client.saveToMongoDB_called env s = Client.Returns tt s' /\
       Client.localStorage s' = Some (snapshot env s) /\
       Client.notices s' = Client.notices s /\
       Client.console s' =
         (Client.console s ++
           [Client.Log "Not authenticated, saving to localStorage only"])%list /\
       Client.requests s' = Client.requests s) /\
  (tokenRefused env ->
     exists s' lines,
       Client.saveToMongoDB env s = Client.Returns tt s' /\
       Client.saveToMongoDB_called env s = Client.Returns tt s' /\
       Client.localStorage s' = Some (snapshot env s) /\
       Client.notices s' = Client.notices s /\
       Client.console s' =
         (Client.console s ++ lines ++
           [Client.Log "Not authenticated, saving to localStorage only"])%list /\
       (lines = [Client.Log "Token expired"] \/
        lines = [Client.Error "Token decode error:";
                 Client.Error "Token validation error:"]) /\
       Client.requests s' = (Client.requests s ++ [Client.Logout])%list /\
       forall r, exists s'',
         Client.authManager_logout_resumed r s' = Client.Returns tt s'' /\
         Client.localStorage s'' = None /\
         Client.notices s'' = Client.notices s) /\
  (exists s', Client.saveToMongoDB env s = Client.Returns tt s') /\
  (exists s', Client.saveToMongoDB_called env s = Client.Returns tt s') /\
  (forall env1 c r s1, exists s',
     Client.saveToMongoDB_resumed env1 c r s1 = Client.Returns tt s').
Proof.
  split; [|split; [|split; [|split; [|split; [|split]]]]].
  - intros message Ha Hr. rewrite (save_rejected env s message Ha Hr).
    eexists. split; [reflexivity|]. cbn. rewrite <- app_assoc. repeat split.
  - intros env1 c message s1. rewrite resumed_rejected.
    eexists. split; [reflexivity|]. cbn. rewrite <- app_assoc. repeat split.
  - intro Ho. destruct (refusal_signedOut env s Ho) as (Ha & Hs).
    rewrite (called_unauthenticated env s Ha), (save_unauthenticated env s Ha), Hs.
    eexists. split; [reflexivity|]. cbn. repeat split.
  - intro Ht. destruct (refusal_tokenRefused env s Ht) as (Ha & lines & Hs & Hl).
    rewrite (called_unauthenticated env s Ha), (save_unauthenticated env s Ha), Hs.
    eexists _, lines. split; [reflexivity|]. split; [reflexivity|].
    cbn. split; [reflexivity|].
    assert (F : forall l a,
      Client.notices (fold_left (fun a l => Client.add_log l a) l a) = Client.notices a /\
      Client.requests (fold_left (fun a l => Client.add_log l a) l a) = Client.requests a /\
      Client.console (fold_left (fun a l => Client.add_log l a) l a)
      = (Client.console a ++ l)%list).
    { induction l as [|x l IH]; intro a; cbn [fold_left].
      - now rewrite app_nil_r.
      - destruct (IH (Client.add_log x a)) as (E1 & E2 & E3).
        rewrite E1, E2, E3. cbn. now rewrite <- app_assoc. }
    destruct (F lines s) as (E1 & E2 & E3). rewrite E1, E2, E3.
    split; [reflexivity|]. split; [now rewrite app_assoc|]. split; [exact Hl|].
    split; [reflexivity|].
    intros [j|m]; eexists; (split; [reflexivity|]); cbn; now rewrite E1.
  - destruct (save_frame env s) as (s' & E & _). now exists s'.
  - destruct (Client.authenticated env) eqn:Ha.
    + rewrite (called_authenticated env s Ha). now eexists.
    + rewrite (called_unauthenticated env s Ha).
      destruct (save_frame env s) as (s' & E & _). now exists s'.
  - intros env1 c [j|m] s1.
    + destruct c; eexists; reflexivity.
    + rewrite resumed_rejected. now eexists.
Qed.

Lemma autosave_failure_falls_back_witness :
  exists s', Client.saveToMongoDB env_unreachable app_fresh = Client.Returns tt s' /\
    Client.localStorage s' = Some (snapshot env_unreachable app_fresh) /\
    Client.notices s' =
      [Client.ErrorMessage "Could not save to database: Failed to fetch";
       Client.SuccessMessage "Saved locally (offline mode)"] /\
    Client.requests s' = [requestOf env_unreachable app_fresh] /\
    Client.currentAssessmentId s' = None.
Proof.
  exact (proj1 (autosave_failure_falls_back env_unreachable app_fresh)
           "Failed to fetch" eq_refl eq_refl).
Defined.

(** C7 as stated fails for the absence of authentication: the autosave
    writes the local storage but shows no notice at all. *)
Lemma autosave_unauthenticated_no_notice :
  Client.authenticated env_offline = false /\
  ~ exists n,
      In n (Client.notices (Client.stateOf (Client.saveToMongoDB env_offline app_fresh))).
Proof.
  split; [reflexivity|]. intros (n & H). exact H.
Qed.

(** With a token that has expired the local storage does not keep what
    the autosave writes: the logout that the test has started removes the
    item when it settles. *)
Example autosave_expired_token :
  let s' := Client.stateOf (Client.saveToMongoDB env_expired app_fresh) in
  Client.localStorage s' = Some (snapshot env_expired app_fresh) /\
  Client.requests s' = [Client.Logout] /\
  Client.localStorage
    (Client.stateOf (Client.authManager_logout_resumed (Client.Ok "") s')) = None.
Proof. repeat split. Qed.

(** ** Starting a new record *)

Section Clearing.
Import JS Client.

Lemma clearAll_spec (s : App) :
  exists s', clearAll s = Returns tt s' /\
    numberInputs (dom s') = zeroed (numberInputs (dom s)) /\
    localStorage s' = None /\
    currentAssessmentId s' = currentAssessmentId s.
Proof.
  unfold clearAll. unfold bind at 1. unfold gets at 1. unfold bind at 1.
  unfold modify at 1. cbn [nameInput].
  set (s1 := set_dom _ s).
  assert (H1 : numberInputs (dom s1) = zeroed (numberInputs (dom s))) by reflexivity.
  assert (I1 : currentAssessmentId s1 = currentAssessmentId s) by reflexivity.
  clearbody s1.
  assert (Hname : exists s2,
    (match nameInput (dom s) with
     | Some _ =>
         modify (set_dom {| numberInputs := numberInputs
                              {| numberInputs := map (fun kv => (fst kv, toString (Num (ofZ 0))))
                                                     (numberInputs (dom s));
                                 nameInput := nameInput (dom s) |};
                            nameInput := Some "" |}) ;;;
         modify (set_employeeName "")
     | None => ret tt
     end) s1 = Returns tt s2 /\
    numberInputs (dom s2) = zeroed (numberInputs (dom s)) /\
    currentAssessmentId s2 = currentAssessmentId s).
  { destruct (nameInput (dom s)).
    - eexists. split; [reflexivity|]. split; [reflexivity | exact I1].
    - exists s1. split; [reflexivity|]. now split. }
  destruct Hname as (s2 & E2 & H2 & I2).
  unfold bind at 1. rewrite E2. unfold bind at 1. unfold gets at 1.
  assert (Htitle : exists s3,
    (match chart s2 with
     | Some ch => modify (set_chart (Some {| title := "Results"; data := data ch |}))
     | None => ret tt
     end) s2 = Returns tt s3 /\
    numberInputs (dom s3) = zeroed (numberInputs (dom s)) /\
    currentAssessmentId s3 = currentAssessmentId s).
  { destruct (chart s2).
    - eexists. split; [reflexivity|]. now split.
    - exists s2. split; [reflexivity|]. now split. }
  destruct Htitle as (s3 & E3 & H3 & I3).
  unfold bind at 1. rewrite E3.
  destruct (updateChart_frame s3) as (s4 & E4 & D4 & _ & I4 & _).
  unfold bind at 1. rewrite E4.
  eexists. split; [reflexivity|]. cbn.
  rewrite D4, I4. now repeat split.
Qed.

Lemma loadFromLocalStorage_empty (s : App) :
  localStorage s = None -> loadFromLocalStorage s = Returns tt s.
Proof.
  intro H. unfold loadFromLocalStorage, tryCatch, bind, gets. now rewrite H.
Qed.

End Clearing.

(** C10. Starting a new record returns normally with no identity bound,
    every rating field at 0 and the item [performanceAssessment] removed
    from the local storage, so that loading from the local storage
    afterwards restores nothing; clearing all does the same to the fields
    and the local storage. *)
Theorem newAssessment_removes_local_cache (s : Client.App) :
  (exists s', Client.newAssessment s = Client.Returns tt s' /\
     Client.currentAssessmentId s' = None /\
     Client.numberInputs (Client.dom s') = zeroed (Client.numberInputs (Client.dom s)) /\
     Client.localStorage s' = None /\
     Client.loadFromLocalStorage s' = Client.Returns tt s') /\
  (exists s', Client.clearAll s = Client.Returns tt s' /\
     Client.numberInputs (Client.dom s') = zeroed (Client.numberInputs (Client.dom s)) /\
     Client.localStorage s' = None /\
     Client.loadFromLocalStorage s' = Client.Returns tt s').
Proof.
  split.
  - unfold Client.newAssessment. unfold Client.bind at 1. unfold Client.modify at 1.
    destruct (clearAll_spec (Client.set_currentAssessmentId None s))
      as (s1 & E1 & H1 & L1 & I1).
    unfold Client.bind at 1. rewrite E1.
    eexists. split; [reflexivity|]. cbn.
    repeat split; [exact I1 | exact H1 | exact L1 |].
    apply loadFromLocalStorage_empty. exact L1.
  - destruct (clearAll_spec s) as (s1 & E1 & H1 & L1 & _).
    exists s1. repeat split; auto. now apply loadFromLocalStorage_empty.
Qed.

(** ** Importing a table *)

Section CsvImport.
Import JS Client.

Lemma get_setInput (i k v : string) (l : list (string * string)) :
  Obj.get i (setInput k v l) =
    if String.eqb i k
    then match Obj.get i l with Some _ => Some v | None => None end
    else Obj.get i l.
Proof.
  induction l as [|[k' w] r IH]; simpl.
  - now destruct (String.eqb i k).
  - destruct (String.eqb k k') eqn:Ekk'; simpl.
    + apply String.eqb_eq in Ekk'. subst k'.
      destruct (String.eqb i k) eqn:Eik; reflexivity.
    + destruct (String.eqb i k') eqn:Eik'.
      * apply String.eqb_eq in Eik'. subst k'.
        rewrite String.eqb_sym in Ekk'. now rewrite Ekk'.
      * exact IH.
Qed.

Lemma setInput_complete (k v : string) (d : Dom) :
  pageComplete d ->
  pageComplete {| numberInputs := setInput k v (numberInputs d);
                  nameInput := nameInput d |}.
Proof.
  intros H i Hi. cbn [numberInputs]. rewrite get_setInput.
  destruct (H i Hi) as (w & E). rewrite E.
  destruct (String.eqb i k); eauto.
Qed.

Lemma existsb_eqb_In (k : string) (l : list string) :
  existsb (String.eqb k) l = true <-> In k l.
Proof.
  rewrite existsb_exists. split.
  - intros (x & Hx & E). apply String.eqb_eq in E. now subst.
  - intro H. exists k. split; [exact H | apply String.eqb_refl].
Qed.

Lemma rowEffect_complete (s : App) (raw : string) :
  pageComplete (dom s) -> pageComplete (dom (rowEffect s raw)).
Proof.
  intro H. unfold rowEffect.
  destruct (recognized raw); [|destruct (unknown raw); exact H].
  cbn [dom set_dom]. unfold write. now apply setInput_complete.
Qed.

(** One row of the loop: it is loaded exactly when it is recognized. *)
Lemma loadRow_spec (s : App) (raw : string) :
  pageComplete (dom s) ->
  loadRow raw s = Returns (recognized raw) (rowEffect s raw).
Proof.
  intro Hpage. unfold loadRow, rowEffect, recognized, unknown, blank, known,
    warningOf, write, rowCategory, rowRating, rowCells.
  destruct (trim raw) as [|c r] eqn:Et; [reflexivity|].
  cbn [String.eqb negb andb].
  set (cells := map trim (split "," (String c r))).
  destruct (existsb (String.eqb (nth 0 cells "")) Config.metricIds) eqn:Ek;
    cbn [negb]; [|reflexivity].
  apply existsb_eqb_In in Ek.
  destruct (Hpage _ Ek) as (w & Ew).
  unfold bind, gets, modify, getElementById, setValue. rewrite Ew. reflexivity.
Qed.

Lemma loadRows_spec (rows : list string) (n : nat) (s : App) :
  pageComplete (dom s) ->
  loadRows rows n s =
    Returns (n + List.length (filter recognized rows))%nat (fold_left rowEffect rows s).
Proof.
  revert n s. induction rows as [|raw rest IH]; intros n s Hpage.
  - cbn. now rewrite Nat.add_0_r.
  - cbn [loadRows fold_left filter]. unfold bind.
    rewrite (loadRow_spec s raw Hpage).
    rewrite IH by now apply rowEffect_complete.
    destruct (recognized raw); cbn [List.length]; f_equal; lia.
Qed.

(** The fields after the rows: the recognized rows written in order. *)
Lemma rows_fields (rows : list string) (s : App) :
  numberInputs (dom (fold_left rowEffect rows s))
  = fold_left write (filter recognized rows) (numberInputs (dom s)).
Proof.
  revert s. induction rows as [|raw rest IH]; intro s; [reflexivity|].
  cbn [fold_left filter]. rewrite IH. unfold rowEffect.
  destruct (recognized raw); [reflexivity|].
  destruct (unknown raw); reflexivity.
Qed.

(** The console after the rows: one warning for each unknown row. *)
Lemma rows_console (rows : list string) (s : App) :
  console (fold_left rowEffect rows s)
  = (console s ++ map warningOf (filter unknown rows))%list.
Proof.
  revert s. induction rows as [|raw rest IH]; intro s.
  - cbn. now rewrite app_nil_r.
  - cbn [fold_left filter]. rewrite IH. unfold rowEffect, recognized, unknown.
    destruct (blank raw), (known raw); cbn [negb andb map]; cbn;
      try reflexivity.
    now rewrite <- app_assoc.
Qed.

(** What the rows leave alone. *)
Lemma rows_frame (rows : list string) (s : App) :
  let s' := fold_left rowEffect rows s in
  nameInput (dom s') = nameInput (dom s) /\
  employeeName s' = employeeName s /\
  currentAssessmentId s' = currentAssessmentId s /\
  localStorage s' = localStorage s /\
  notices s' = notices s /\
  requests s' = requests s.
Proof.
  revert s. induction rows as [|raw rest IH]; intro s; [cbn; tauto|].
  cbn [fold_left]. cbv zeta. specialize (IH (rowEffect s raw)). cbv zeta in IH.
  destruct IH as (A1 & A2 & A3 & A4 & A5 & A6).
  rewrite A1, A2, A3, A4, A5, A6. unfold rowEffect.
  destruct (recognized raw); [cbn; tauto|].
  destruct (unknown raw); cbn; tauto.
Qed.

Lemma rows_none (rows : list string) (s : App) :
  filter recognized rows = [] -> dom (fold_left rowEffect rows s) = dom s.
Proof.
  revert s. induction rows as [|raw rest IH]; intro s; [reflexivity|].
  cbn [fold_left filter]. unfold rowEffect at 2.
  destruct (recognized raw); [discriminate|].
  intro H. rewrite (IH _ H). destruct (unknown raw); reflexivity.
Qed.

End CsvImport.

Section ImportClaims.
Import JS Client.

Lemma forEach_ret {A} (l : list A) (body : A -> M unit) (s : App) :
  (forall x, In x l -> body x s = Returns tt s) -> forEach l body s = Returns tt s.
Proof.
  induction l as [|x r IH]; intro H; [reflexivity|].
  cbn [forEach]. unfold bind. rewrite H by now left.
  apply IH. intros y Hy. apply H. now right.
Qed.

(** On a complete page [updateChart] writes the chart and nothing else. *)
Lemma updateChart_complete (s : App) :
  pageComplete (dom s) ->
  exists s', updateChart s = Returns tt s' /\ sameButChart s s' /\
             console s' = console s.
Proof.
  intro Hpage. unfold updateChart, bind, gets. destruct (chart s) as [ch|].
  - rewrite forEach_ret.
    + eexists. split; [reflexivity|]. split; [|reflexivity]. repeat split.
    + intros i Hi. destruct (pageComplete_get _ _ Hpage Hi) as (v & ->). reflexivity.
  - exists s. split; [reflexivity|]. split; [apply sameButChart_refl | reflexivity].
Qed.

Lemma fold_write_complete (rows : list string) (s : App) :
  pageComplete (dom s) -> pageComplete (dom (fold_left rowEffect rows s)).
Proof.
  revert s. induction rows as [|raw rest IH]; intros s H; [exact H|].
  cbn [fold_left]. apply IH. now apply rowEffect_complete.
Qed.

(** The import of a text with a good header and a recognized row. *)
Lemma import_succeeds (env : Env) (csvContent : string) (s : App) :
  pageComplete (dom s) ->
  (2 <= List.length (linesOf csvContent))%nat ->
  headerOk (hd "" (linesOf csvContent)) = true ->
  filter recognized (tl (linesOf csvContent)) <> [] ->
  exists s', parseAndLoadCSV env csvContent s = Returns tt s' /\
    numberInputs (dom s') =
      fold_left write (filter recognized (tl (linesOf csvContent)))
                (numberInputs (dom s)) /\
    nameInput (dom s') = nameInput (dom s) /\
    console s' =
      (console s ++ map warningOf (filter unknown (tl (linesOf csvContent))))%list /\
    notices s' =
      (notices s ++
        [SuccessMessage
           ("Successfully loaded "
            ++ natStr (Z.of_nat (List.length
                                   (filter recognized (tl (linesOf csvContent)))))
            ++ " ratings from CSV")])%list.
Proof.
  intros Hpage Hlen Hh Hsome. unfold parseAndLoadCSV.
  change (split (ascii_of_nat 10) (trim csvContent)) with (linesOf csvContent).
  cbv zeta. set (lines := linesOf csvContent) in *. set (rows := tl lines) in *.
  apply Nat.ltb_ge in Hlen. rewrite Hlen.
  unfold headerOk in Hh. apply andb_true_iff in Hh. destruct Hh as [Hc Hr].
  rewrite Hc, Hr. cbn [negb orb].
  unfold bind at 1. rewrite (loadRows_spec rows 0 s Hpage).
  destruct (filter recognized rows) as [|r0 rest] eqn:Ef; [contradiction|].
  cbn [List.length Nat.eqb Nat.add]. rewrite <- Ef.
  set (s1 := fold_left rowEffect rows s).
  assert (Hpage1 : pageComplete (dom s1)) by now apply fold_write_complete.
  destruct (updateChart_complete s1 Hpage1)
    as (s2 & E2 & (D2 & _ & _ & _ & N2 & _) & C2).
  unfold bind at 1. rewrite E2.
  unfold bind at 1. rewrite saveToLocalStorage_eq.
  eexists. split; [reflexivity|]. cbn.
  rewrite D2, C2, N2. subst s1. rewrite rows_fields, rows_console.
  destruct (rows_frame rows s) as (Hname & _ & _ & _ & Hn & _). rewrite Hn, Hname, Ef.
  repeat split.
Qed.

End ImportClaims.

(** C4, as the code has it.  On a page that has every rating field, for
    every text: when the trimmed text has fewer than two lines the import
    fails with "CSV file is empty or invalid", whatever its first line;
    otherwise, when the first line lacks [categories] or [ratings]
    (case-insensitive), it fails with the header error whatever the rows;
    otherwise each non-blank row whose first column is not a metric
    identifier is skipped with one warning, each recognized row writes
    its rating clamped by [validateInput] into its field, and the import
    fails with "No valid data found in CSV file" exactly when no row was
    recognized. *)
Theorem import_outcomes (env : Client.Env) (csvContent : string) (s : Client.App) :
  pageComplete (Client.dom s) ->
  let lines := linesOf csvContent in
  let rows := tl lines in
  ((List.length lines < 2)%nat ->
     Client.parseAndLoadCSV env csvContent s = Client.Throws Client.CsvEmptyOrInvalid s) /\
  ((2 <= List.length lines)%nat -> headerOk (hd "" lines) = false ->
     Client.parseAndLoadCSV env csvContent s = Client.Throws Client.CsvInvalidHeader s) /\
  ((2 <= List.length lines)%nat -> headerOk (hd "" lines) = true ->
     (filter recognized rows = [] ->
        exists s', Client.parseAndLoadCSV env csvContent s
                   = Client.Throws Client.CsvNoValidData s' /\
          Client.dom s' = Client.dom s /\
          Client.console s' =
            (Client.console s ++ map warningOf (filter unknown rows))%list) /\
     (filter recognized rows <> [] ->
        exists s', Client.parseAndLoadCSV env csvContent s = Client.Returns tt s' /\
          Client.numberInputs (Client.dom s') =
            fold_left write (filter recognized rows)
                      (Client.numberInputs (Client.dom s)) /\
          Client.console s' =
            (Client.console s ++ map warningOf (filter unknown rows))%list /\
          Client.notices s' =
            (Client.notices s ++
              [Client.SuccessMessage
                 ("Successfully loaded "
                  ++ JS.natStr (Z.of_nat (List.length (filter recognized rows)))
                  ++ " ratings from CSV")])%list)).
Proof.
  intros Hpage lines rows. unfold Client.parseAndLoadCSV.
  change (JS.split (ascii_of_nat 10) (JS.trim csvContent)) with lines.
  cbv zeta.
  split; [|split].
  - intro Hlen. apply Nat.ltb_lt in Hlen. now rewrite Hlen.
  - intros Hlen Hh. apply Nat.ltb_ge in Hlen. rewrite Hlen.
    unfold headerOk in Hh. apply andb_false_iff in Hh.
    destruct Hh as [Hh | Hh]; rewrite Hh; cbn [negb orb]; [reflexivity|].
    now rewrite orb_true_r.
  - intros Hlen Hh. apply Nat.ltb_ge in Hlen. rewrite Hlen.
    unfold headerOk in Hh. apply andb_true_iff in Hh. destruct Hh as [Hc Hr].
    rewrite Hc, Hr. cbn [negb orb]. fold rows.
    split.
    + intro Hnone.
      unfold Client.bind at 1. rewrite (loadRows_spec rows 0 s Hpage).
      rewrite Hnone. cbn [List.length Nat.eqb Nat.add].
      eexists. split; [reflexivity|]. split.
      * now apply rows_none.
      * rewrite rows_console. reflexivity.
    + intro Hsome.
      destruct (import_succeeds env csvContent s Hpage) as (s' & E & F & _ & C & N).
      * now apply Nat.ltb_ge.
      * unfold headerOk. fold lines. now rewrite Hc, Hr.
      * exact Hsome.
      * exists s'. unfold Client.parseAndLoadCSV in E.
        change (JS.split (ascii_of_nat 10) (JS.trim csvContent)) with lines in E.
        cbv zeta in E. rewrite Hlen, Hc, Hr in E. cbn [negb orb] in E.
        fold rows in E. now repeat split.
Qed.

Lemma import_outcomes_witness :
  Client.parseAndLoadCSV env_offline csv_wrong_header app_fresh
  = Client.Throws Client.CsvInvalidHeader app_fresh.
Proof.
  exact (proj1 (proj2 (import_outcomes env_offline csv_wrong_header app_fresh
                         (pageOf_complete "3" "Jane Doe")))
           (le_n 2) eq_refl).
Defined.

(** C4 as stated fails on a text that is the header [Foo,Bar] alone: the
    header lacks both tokens, yet the failure is the empty-or-invalid
    error, raised before the header is looked at. *)
Lemma import_header_alone_not_header_error :
  headerOk (hd "" (linesOf "Foo,Bar")) = false /\
  Client.parseAndLoadCSV env_offline "Foo,Bar" app_fresh
    = Client.Throws Client.CsvEmptyOrInvalid app_fresh /\
  Client.CsvEmptyOrInvalid <> Client.CsvInvalidHeader.
Proof.
  split; [reflexivity|]. split; [reflexivity | discriminate].
Qed.

(** ** Export followed by import *)

Section RoundTrip.
Import JS Client.

Lemma fold_append (entries : list (string * string)) (acc : string) :
  fold_left (fun csvContent kv =>
               csvContent ++ fst kv ++ "," ++ snd kv ++ String (ascii_of_nat 10) "")
            entries acc
  = acc ++ sconcat (map (fun kv => rowText kv ++ String newline "") entries).
Proof.
  revert acc. induction entries as [|kv rest IH]; intro acc; cbn [fold_left map sconcat].
  - now rewrite append_nil_r.
  - rewrite IH. unfold rowText. now rewrite !append_assoc.
Qed.

Lemma trimStart_first (a b : string) :
  firstNonWs a = true -> trimStart (a ++ b) = a ++ b.
Proof.
  destruct a as [|c r]; [discriminate|]. cbn. intro H.
  apply negb_true_iff in H. now rewrite H.
Qed.

Lemma trimEnd_last (s : string) : lastNonWs s = true -> trimEnd s = s.
Proof.
  induction s as [|c r IH]; [discriminate|].
  destruct r as [|c' r'].
  - cbn. intro H. apply negb_true_iff in H. now rewrite H.
  - intro H. change (lastNonWs (String c (String c' r'))) with (lastNonWs (String c' r')) in H.
    change (trimEnd (String c (String c' r')))
      with (match trimEnd (String c' r') with
            | EmptyString => if isWhiteSpace c then EmptyString else String c EmptyString
            | r0 => String c r0
            end).
    now rewrite (IH H).
Qed.

Lemma trimEnd_app (a b : string) :
  trimEnd b <> "" -> trimEnd (a ++ b) = a ++ trimEnd b.
Proof.
  intro H. induction a as [|c r IH]; [reflexivity|].
  cbn [append trimEnd]. rewrite IH.
  destruct (r ++ trimEnd b) eqn:E; [|reflexivity].
  destruct r; [cbn in E; contradiction | discriminate].
Qed.

Lemma lastNonWs_app (a b : string) :
  lastNonWs b = true -> lastNonWs (a ++ b) = true.
Proof.
  intro H. induction a as [|c r IH]; [exact H|].
  cbn [append]. destruct (r ++ b) eqn:E.
  - destruct r; [cbn in E; subst; discriminate | discriminate].
  - exact IH.
Qed.

Lemma lacks_app (sep : ascii) (a b : string) :
  lacks sep (a ++ b) = (lacks sep a && lacks sep b)%bool.
Proof.
  induction a as [|c r IH]; [reflexivity|]. cbn. rewrite IH. now rewrite andb_assoc.
Qed.

Lemma trim_clean (s : string) :
  firstNonWs s = true -> lastNonWs s = true -> trim s = s.
Proof.
  intros Hf Hl. unfold trim.
  rewrite <- (append_nil_r s) at 1. rewrite trimStart_first by exact Hf.
  rewrite append_nil_r. now apply trimEnd_last.
Qed.

Lemma trimEnd_newline (a : string) :
  lastNonWs a = true -> trimEnd (a ++ String newline "") = a.
Proof.
  induction a as [|c r IH]; [discriminate|].
  destruct r as [|c' r'].
  - cbn. intro H. apply negb_true_iff in H. now rewrite H.
  - intro H. change (lastNonWs (String c (String c' r'))) with (lastNonWs (String c' r')) in H.
    cbn [append]. cbn [append] in IH.
    change (trimEnd (String c (String c' (r' ++ String newline ""))))
      with (match trimEnd (String c' (r' ++ String newline "")) with
            | EmptyString => if isWhiteSpace c then EmptyString else String c EmptyString
            | r0 => String c r0
            end).
    now rewrite (IH H).
Qed.

Lemma lastNonWs_cons (c : ascii) (r : string) :
  lastNonWs r = true -> lastNonWs (String c r) = true.
Proof. destruct r; [discriminate | trivial]. Qed.

Lemma lastNonWs_join (l : string) (rest : list string) :
  lastNonWs l = true -> Forall (fun x => lastNonWs x = true) rest ->
  lastNonWs (join l rest) = true.
Proof.
  revert l. induction rest as [|x rest' IH]; intros l Hl Hrest; [exact Hl|].
  inversion Hrest; subst. cbn [join].
  apply lastNonWs_app, lastNonWs_cons. now apply IH.
Qed.

Lemma split_join (l : string) (rest : list string) :
  lacks newline l = true -> Forall (fun x => lacks newline x = true) rest ->
  split newline (join l rest) = l :: rest.
Proof.
  revert l. induction rest as [|x rest' IH]; intros l Hl Hrest; cbn [join].
  - now apply split_lacks.
  - inversion Hrest; subst. rewrite split_app by exact Hl. f_equal. now apply IH.
Qed.

Lemma sconcat_join (l : string) (rest : list string) :
  sconcat (map (fun x => x ++ String newline "") (l :: rest))
  = join l rest ++ String newline "".
Proof.
  revert l. induction rest as [|x rest' IH]; intro l.
  - cbn. now rewrite !append_nil_r.
  - change (sconcat (map (fun x0 => x0 ++ String newline "") (l :: x :: rest')))
      with ((l ++ String newline "")
            ++ sconcat (map (fun x0 => x0 ++ String newline "") (x :: rest'))).
    rewrite IH. cbn [join]. rewrite !append_assoc. reflexivity.
Qed.

(** The lines the import sees in an export. *)
Lemma linesOf_csvOf (entries : list (string * string)) :
  Forall (fun kv => lacks newline (rowText kv) = true
                    /\ lastNonWs (rowText kv) = true) entries ->
  linesOf (csvOf entries) = "Categories,Ratings" :: map rowText entries.
Proof.
  intro H. unfold linesOf, csvOf. rewrite fold_append.
  change ("Categories,Ratings" ++ String (ascii_of_nat 10) "")
    with ("Categories,Ratings" ++ String newline "").
  rewrite <- (map_map rowText (fun x => x ++ String newline "")).
  change (("Categories,Ratings" ++ String newline "")
          ++ sconcat (map (fun x => x ++ String newline "") (map rowText entries)))
    with (sconcat (map (fun x => x ++ String newline "")
                       ("Categories,Ratings" :: map rowText entries))).
  - rewrite sconcat_join. unfold trim.
    assert (Hlast : lastNonWs (join "Categories,Ratings" (map rowText entries)) = true).
    { apply lastNonWs_join; [reflexivity|].
      apply Forall_map. eapply Forall_impl; [|exact H]. now intros kv []. }
    assert (Hfirst : trimStart (join "Categories,Ratings" (map rowText entries)
                                ++ String newline "")
                     = join "Categories,Ratings" (map rowText entries)
                       ++ String newline "").
    { destruct (map rowText entries); reflexivity. }
    rewrite Hfirst, trimEnd_newline by exact Hlast.
    apply split_join; [reflexivity|].
    apply Forall_map. eapply Forall_impl; [|exact H]. now intros kv [].
Qed.

Ltac rating_cases z H :=
  let C := fresh "C" in
  assert (C : z = 0 \/ z = 1 \/ z = 2 \/ z = 3 \/ z = 4 \/ z = 5) by lia;
  clear H;
  destruct C as [C | [C | [C | [C | [C | C]]]]]; rewrite C.

(** What an integer rating in [0,5] shows is read back as that rating. *)
Lemma shown_facts (z : Z) :
  0 <= z <= 5 ->
  trim (shown z) = shown z /\
  lacks "," (shown z) = true /\
  lacks newline (shown z) = true /\
  lastNonWs (String "," (shown z)) = true /\
  toString (Num (validateInput (Str (shown z)))) = shown z /\
  orElse (parseInt (Str (shown z))) (ofZ 0) = ofZ z.
Proof.
  intro H. rating_cases z H; vm_compute; repeat split.
Qed.

Lemma metricIds_clean (i : string) :
  In i Config.metricIds -> cleanKey i = true.
Proof.
  revert i. apply forallb_forall. vm_compute. reflexivity.
Qed.

Lemma firstNonWs_app (a b : string) :
  firstNonWs a = true -> firstNonWs (a ++ b) = true.
Proof. destruct a; [discriminate | trivial]. Qed.

Section Row.
Variables (i : string) (z : Z).
Hypothesis Hi : In i Config.metricIds.
Hypothesis Hz : 0 <= z <= 5.

Lemma row_shape : lacks newline (rowText (i, shown z)) = true /\
  lastNonWs (rowText (i, shown z)) = true.
Proof.
  pose proof (metricIds_clean i Hi) as Hc. unfold cleanKey in Hc.
  apply andb_true_iff in Hc as [Hc Hn]. apply andb_true_iff in Hc as [Hc Hcomma].
  apply andb_true_iff in Hc as [Hf Hl].
  destruct (shown_facts z Hz) as (_ & _ & Hdn & Hdl & _).
  unfold rowText. cbn [fst snd]. split.
  - rewrite lacks_app, Hn. cbn [andb]. change ("," ++ shown z) with (String "," (shown z)).
    cbn [lacks]. now rewrite Hdn.
  - now apply lastNonWs_app.
Qed.

Lemma row_trim : trim (rowText (i, shown z)) = rowText (i, shown z).
Proof.
  pose proof (metricIds_clean i Hi) as Hc. unfold cleanKey in Hc.
  apply andb_true_iff in Hc as [Hc _]. apply andb_true_iff in Hc as [Hc _].
  apply andb_true_iff in Hc as [Hf _].
  apply trim_clean; [|apply row_shape].
  unfold rowText. now apply firstNonWs_app.
Qed.

Lemma row_cells : rowCells (rowText (i, shown z)) = [i; shown z].
Proof.
  pose proof (metricIds_clean i Hi) as Hc. unfold cleanKey in Hc.
  apply andb_true_iff in Hc as [Hc _]. apply andb_true_iff in Hc as [Hc Hcomma].
  apply andb_true_iff in Hc as [Hf Hl].
  destruct (shown_facts z Hz) as (Ht & Hdc & _).
  unfold rowCells. rewrite row_trim. unfold rowText. cbn [fst snd].
  change ("," ++ shown z) with (String "," (shown z)).
  rewrite split_app by exact Hcomma. rewrite split_lacks by exact Hdc.
  cbn [map]. now rewrite Ht, trim_clean.
Qed.

Lemma row_recognized : recognized (rowText (i, shown z)) = true.
Proof.
  unfold recognized, blank, known, rowCategory. rewrite row_cells, row_trim.
  cbn [nth]. apply andb_true_iff. split.
  - unfold rowText. cbn [fst].
    pose proof (metricIds_clean i Hi) as Hc. destruct i; [discriminate | reflexivity].
  - now apply existsb_eqb_In.
Qed.

Lemma row_write (fields : list (string * string)) :
  write fields (rowText (i, shown z)) = setInput i (shown z) fields.
Proof.
  unfold write, rowCategory, rowRating. rewrite row_cells. cbn [nth nth_error].
  destruct (shown_facts z Hz) as (_ & _ & _ & _ & Hv & _). now rewrite Hv.
Qed.
End Row.

Section Record.
Variable r : string -> Z.
Hypothesis Hr : forall i, In i Config.metricIds -> 0 <= r i <= 5.

Lemma rows_recognized (ids : list string) :
  incl ids Config.metricIds -> filter recognized (rowsOf r ids) = rowsOf r ids.
Proof.
  induction ids as [|i rest IH]; intro Hsub; [reflexivity|].
  unfold rowsOf. cbn [map filter].
  rewrite row_recognized; [|apply Hsub; now left | apply Hr, Hsub; now left].
  f_equal. apply IH. intros x Hx. apply Hsub. now right.
Qed.

Lemma rows_written (ids : list string) (fields : list (string * string)) :
  incl ids Config.metricIds ->
  fold_left write (rowsOf r ids) fields
  = fold_left (fun l i => setInput i (shown (r i)) l) ids fields.
Proof.
  revert fields. induction ids as [|i rest IH]; intros fields Hsub; [reflexivity|].
  unfold rowsOf. cbn [map fold_left].
  rewrite row_write; [|apply Hsub; now left | apply Hr, Hsub; now left].
  apply IH. intros x Hx. apply Hsub. now right.
Qed.

Lemma written_other (ids : list string) (fields : list (string * string)) (k : string) :
  ~ In k ids ->
  Obj.get k (fold_left (fun l i => setInput i (shown (r i)) l) ids fields)
  = Obj.get k fields.
Proof.
  revert fields. induction ids as [|i rest IH]; intros fields Hk; [reflexivity|].
  cbn [fold_left]. rewrite IH by (intro; apply Hk; now right).
  rewrite get_setInput.
  destruct (String.eqb k i) eqn:E; [|reflexivity].
  apply String.eqb_eq in E. subst. exfalso. apply Hk. now left.
Qed.

Lemma written_get (ids : list string) (fields : list (string * string)) (k : string) :
  NoDup ids -> In k ids -> Obj.get k fields <> None ->
  Obj.get k (fold_left (fun l i => setInput i (shown (r i)) l) ids fields)
  = Some (shown (r k)).
Proof.
  revert fields. induction ids as [|i rest IH]; intros fields ND Hk Hget; [destruct Hk|].
  inversion ND as [|? ? Hnot ND']; subst. cbn [fold_left].
  destruct Hk as [-> | Hk].
  - rewrite written_other by exact Hnot. rewrite get_setInput, String.eqb_refl.
    destruct (Obj.get k fields); [reflexivity | contradiction].
  - apply IH; [exact ND' | exact Hk |].
    rewrite get_setInput. destruct (String.eqb k i); [|exact Hget].
    destruct (Obj.get k fields); [discriminate | contradiction].
Qed.

Lemma rows_shape :
  Forall (fun kv => lacks newline (rowText kv) = true
                    /\ lastNonWs (rowText kv) = true) (fieldsOf r).
Proof.
  apply Forall_forall. intros kv Hin. unfold fieldsOf in Hin.
  apply in_map_iff in Hin. destruct Hin as (i & <- & Hi).
  apply row_shape; [exact Hi | now apply Hr].
Qed.

(** The fields of a page showing [r] are read as the mapping of [r]. *)
Lemma collect_shown (d : Dom) :
  (forall i, In i Config.metricIds ->
             Obj.get i (numberInputs d) = Some (shown (r i))) ->
  collectFormData d = mappingOf r.
Proof.
  intro H. rewrite collectFormData_complete.
  - unfold mappingOf. apply map_ext_in. intros i Hi. f_equal.
    unfold entered, getElementById. rewrite (H i Hi).
    now destruct (shown_facts (r i) (Hr i Hi)) as (_ & _ & _ & _ & _ & E).
  - intros i Hi. eauto.
Qed.
End Record.

End RoundTrip.

(** C2. For every complete, valid record [r] (each of the nineteen metrics
    rated by an integer in [0,5]): the export of a page showing [r]
    offers the text [csvOf (fieldsOf r)], a header line and one
    [metricId,rating] line per metric, and the import of that text into
    any page that has the rating fields succeeds and leaves every field
    showing the rating of [r], so that the mapping read from the page is
    the mapping of [r], as it was on the exporting page. *)
Theorem export_import_roundtrip
    (env env' : Client.Env) (r : string -> Z) (src s : Client.App) :
  (forall i, In i Config.metricIds -> 0 <= r i <= 5) ->
  Client.numberInputs (Client.dom src) = fieldsOf r ->
  pageComplete (Client.dom s) ->
  Client.collectFormData (Client.dom src) = mappingOf r /\
  Client.saveToCSV env src =
    Client.Returns tt
      (Client.add_download
         (Client.csvFilename env (Client.employeeName src), Client.csvOf (fieldsOf r))
         src) /\
  linesOf (Client.csvOf (fieldsOf r)) = "Categories,Ratings" :: rowsOf r Config.metricIds /\
  exists s',
    Client.parseAndLoadCSV env' (Client.csvOf (fieldsOf r)) s = Client.Returns tt s' /\
    (forall i, In i Config.metricIds ->
       Client.getElementById i (Client.dom s') = Some (shown (r i))) /\
    Client.collectFormData (Client.dom s') = mappingOf r.
Proof.
  intros Hr Hsrc Hpage.
  assert (Hlines : linesOf (Client.csvOf (fieldsOf r))
                   = "Categories,Ratings" :: rowsOf r Config.metricIds).
  { apply linesOf_csvOf. now apply rows_shape. }
  split; [|split; [|split; [exact Hlines|]]].
  - apply collect_shown; [exact Hr|]. intros i Hi. rewrite Hsrc.
    unfold fieldsOf. now apply (get_map_key (fun k => shown (r k))).
  - unfold Client.saveToCSV, Client.tryCatch, Client.bind, Client.gets, Client.modify.
    now rewrite Hsrc.
  - destruct (import_succeeds env' (Client.csvOf (fieldsOf r)) s Hpage)
      as (s' & E & F & _).
    + rewrite Hlines. cbn. lia.
    + rewrite Hlines. reflexivity.
    + rewrite Hlines. cbn [tl]. rewrite rows_recognized by (exact Hr || apply incl_refl).
      discriminate.
    + exists s'. split; [exact E|].
      rewrite Hlines in F. cbn [tl] in F.
      rewrite rows_recognized in F by (exact Hr || apply incl_refl).
      rewrite rows_written in F by (exact Hr || apply incl_refl).
      assert (Hget : forall i, In i Config.metricIds ->
                Obj.get i (Client.numberInputs (Client.dom s')) = Some (shown (r i))).
      { intros i Hi. rewrite F. apply written_get; [exact metricIds_NoDup | exact Hi |].
        destruct (Hpage i Hi) as (v & ->). discriminate. }
      split.
      * intros i Hi. unfold Client.getElementById. now rewrite (Hget i Hi).
      * now apply collect_shown.
Qed.

Lemma export_import_roundtrip_witness :
  exists s',
    Client.parseAndLoadCSV env_offline (Client.csvOf (fieldsOf (fun _ => 3)))
                           (Client.initial (pageOf "0" ""))
    = Client.Returns tt s' /\
    (forall i, In i Config.metricIds ->
       Client.getElementById i (Client.dom s') = Some (shown 3)) /\
    Client.collectFormData (Client.dom s') = mappingOf (fun _ => 3).
Proof.
  refine (proj2 (proj2 (proj2
            (export_import_roundtrip env_offline env_offline (fun _ => 3)
               app_fresh (Client.initial (pageOf "0" "")) _ eq_refl
               (pageOf_complete "0" "")))));
    intros; lia.
Defined.

(** ** The server: updates *)

Section Updates.
Import JS Server.



Lemma store_other (a' b : Assessment) (db : list Assessment) :
  In b db -> _id b <> _id a' -> In b (store a' db).
Proof.
  intros Hin Hne. unfold store, eqId. apply in_map_iff. exists b. split; [|exact Hin].
  destruct (String.eqb (_id b) (_id a')) eqn:E; [|reflexivity].
  apply String.eqb_eq in E. contradiction.
Qed.

Lemma store_self (a a' : Assessment) (db : list Assessment) :
  In a db -> _id a' = _id a -> In a' (store a' db).
Proof.
  intros Hin Hid. unfold store, eqId. apply in_map_iff. exists a. split; [|exact Hin].
  now rewrite Hid, String.eqb_refl.
Qed.

End Updates.

(** ** The server: validation at the persistence boundary *)

Section Boundary.
Import JS Server.

(** Every metric has a rule in [validateAssessment]. *)
Lemma metricRules_cover : map fst metricRules = requiredMetrics.
Proof. reflexivity. Qed.

(** A request whose value for a metric is not accepted by [isInt] is
    answered 400, and the metric is among the errors: no clamping. *)
Lemma validateAssessment_rejects
    (isISO8601 : string -> bool) (b : Body) (k : string) :
  In k requiredMetrics ->
  isInt_0_5 (bodyMetric k b) = false ->
  exists errors message,
    handleValidationErrors isISO8601 b = Some errors /\
    In {| err_field := "metrics." ++ k; err_message := message |} errors.
Proof.
  intros Hk Hbad. rewrite <- metricRules_cover in Hk.
  apply in_map_iff in Hk. destruct Hk as ([k' message] & Hfst & Hin).
  cbn [fst] in Hfst. subst k'.
  assert (Herr : In {| err_field := "metrics." ++ k; err_message := message |}
                    (validateAssessment isISO8601 b)).
  { unfold validateAssessment. rewrite !in_app_iff. right. right. right.
    apply in_flat_map. exists (k, message). split; [exact Hin|].
    cbn [fst snd]. rewrite Hbad. now left. }
  unfold handleValidationErrors.
  destruct (validateAssessment isISO8601 b) as [|e rest]; [destruct Herr|].
  now exists (e :: rest), message.
Qed.

(** A fraction, a negative number, a number above 5 and an absent value
    are all refused by [isInt]. *)
Lemma isInt_refuses :
  isInt_0_5 (Num (Fin (5 # 2))) = false /\
  isInt_0_5 (Num (ofZ (-1))) = false /\
  isInt_0_5 (Num (ofZ 6)) = false /\
  isInt_0_5 (Str "2.5") = false /\
  isInt_0_5 Undefined = false.
Proof. repeat split. Qed.

(** The metrics an import reports as missing are the required ones without
    a kept row. *)
Lemma import_missing_exact (db : list Assessment) (req : ImportRequest)
    (missing : list string) (k : string) :
  importFromCSV db req = (db, Status400Missing missing) ->
  forall csvData, file req = Some csvData ->
  In k missing <->
  In k requiredMetrics /\
  Obj.get k (fst (parseRows (tl (split newline (trim csvData))) [] [])) = None.
Proof.
  intros H csvData Hfile. unfold importFromCSV in H. rewrite Hfile in H.
  change (ascii_of_nat 10) with newline in H.
  destruct (List.length (split newline (trim csvData)) <? 2)%nat; [discriminate|].
  destruct (negb _ || negb _)%bool; [discriminate|].
  destruct (parseRows (tl (split newline (trim csvData))) [] []) as [metrics errors].
  cbn [fst].
  destruct (filter _ requiredMetrics) as [|m0 rest] eqn:Ef.
  - destruct (schemaValid _); discriminate.
  - injection H as <-. rewrite <- Ef, filter_In.
    destruct (Obj.get k metrics); intuition discriminate.
Qed.

End Boundary.

(** What the validation lets through. *)

Section BodyFacts.
Import JS Server.
Variable isISO8601 : string -> bool.

Lemma flat_map_nil {A B} (f : A -> list B) (l : list A) :
  flat_map f l = [] <-> forall x, In x l -> f x = [].
Proof.
  induction l as [|x r IH]; cbn [flat_map].
  - split; [intros _ y []|reflexivity].
  - split.
    + intros H y [<-|Hy].
      * now destruct (app_eq_nil _ _ H).
      * apply IH; [now destruct (app_eq_nil _ _ H)|exact Hy].
    + intro H. rewrite (H x (or_introl eq_refl)). cbn [app].
      apply IH. intros y Hy. apply H. now right.
Qed.

Lemma validation_passes_iff (b : Body) :
  handleValidationErrors isISO8601 b = None <->
  (trim (validatorText (b_employeeName b)) <> "" /\
   (String.length (trim (validatorText (b_employeeName b))) <= 100)%nat) /\
  (b_assessmentDate b = Undefined \/
   isISO8601 (toString (b_assessmentDate b)) = true) /\
  (forall k, In k requiredMetrics -> isInt_0_5 (bodyMetric k b) = true).
Proof.
  unfold handleValidationErrors.
  assert (E : match validateAssessment isISO8601 b with
              | [] => None
              | e :: r => Some (e :: r)
              end = None <-> validateAssessment isISO8601 b = []).
  { destruct (validateAssessment isISO8601 b); split; congruence. }
  rewrite E. clear E. unfold validateAssessment.
  set (name := trim (validatorText (b_employeeName b))).
  split.
  - intro H. apply app_eq_nil in H. destruct H as [H1 H].
    apply app_eq_nil in H. destruct H as [H2 H].
    apply app_eq_nil in H. destruct H as [H3 H4].
    split; [|split].
    + split.
      * destruct (String.eqb_spec name ""); [discriminate|assumption].
      * destruct (1 <=? String.length name)%nat; [|discriminate].
        destruct (Nat.leb_spec (String.length name) 100); [assumption|discriminate].
    + destruct (b_assessmentDate b) as [|s|n]; [now left | right | right].
      * destruct (isISO8601 (toString (Str s))); [reflexivity|discriminate].
      * destruct (isISO8601 (toString (Num n))); [reflexivity|discriminate].
    + intros k Hk. rewrite <- metricRules_cover in Hk.
      apply in_map_iff in Hk. destruct Hk as (rule & <- & Hrule).
      pose proof (proj1 (flat_map_nil _ _) H4 rule Hrule) as Hr. cbv beta in Hr.
      destruct (isInt_0_5 (bodyMetric (fst rule) b)); [reflexivity|discriminate].
  - intros ((Hne & Hlen) & Hdate & Hm).
    destruct (String.eqb_spec name ""); [contradiction|]. cbn [app].
    assert (L1 : (1 <=? String.length name)%nat = true).
    { apply Nat.leb_le. destruct name; [contradiction|cbn; lia]. }
    rewrite L1, (proj2 (Nat.leb_le _ _) Hlen). cbn [andb app].
    assert (D : match b_assessmentDate b with
                | Undefined => []
                | _ => if isISO8601 (toString (b_assessmentDate b)) then []
                       else [ {| err_field := "assessmentDate";
                                 err_message := "Assessment date must be a valid date" |} ]
                end = []).
    { destruct Hdate as [->| ->]; [reflexivity|]. now destruct (b_assessmentDate b). }
    destruct (b_assessmentDate b) as [|ds|dn]; cbn [app] in *.
    + apply flat_map_nil. intros rule Hrule.
      rewrite Hm; [reflexivity|]. rewrite <- metricRules_cover. now apply in_map.
    + rewrite D. cbn [app]. apply flat_map_nil. intros rule Hrule.
      rewrite Hm; [reflexivity|]. rewrite <- metricRules_cover. now apply in_map.
    + rewrite D. cbn [app]. apply flat_map_nil. intros rule Hrule.
      rewrite Hm; [reflexivity|]. rewrite <- metricRules_cover. now apply in_map.
Qed.

End BodyFacts.

(** ** Updating a record *)

Section UpdateEffect.
Import JS Server.
Variable isObjectId : string -> bool.
Variable castDate : string -> option string.



End UpdateEffect.




(** The owner renames the record: the metrics and the date stay. *)
Example update_name_only_keeps_metrics :
  exists a',
    Server.updateAssessment isHex24 castSample "2024-04-01T08:00:00.000Z" [assessment_kim]
      "65f0c0ffee65f0c0ffee0001" "65f0c0ffee65f0c0ffee00a1" update_name_only
    = ([a'], Server.Status200 a') /\
    Server.employeeName a' = "Jane Roe" /\
    Server.metrics a' = Server.metrics assessment_kim /\
    Server.assessmentDate a' = Server.assessmentDate assessment_kim.
Proof. eexists. split; [vm_compute; reflexivity|]. repeat split. Qed.

(** A date that cannot be cast: the update is answered 500 and the record
    is as before. *)
Example update_bad_date :
  Server.updateAssessment isHex24 castSample "2024-04-01T08:00:00.000Z" [assessment_kim]
    "65f0c0ffee65f0c0ffee0001" "65f0c0ffee65f0c0ffee00a1"
    {| Server.u_employeeName := None; Server.u_assessmentDate := Some "yesterday";
       Server.u_metrics := None |}
  = ([assessment_kim], Server.Status500).
Proof. reflexivity. Qed.


(** Omitting [feedback] and [teams] from an import is answered with
    exactly those two as missing, and nothing is stored. *)
Example import_lists_missing :
  Server.importFromCSV [] (importRequest (importFile "" "" ["feedback"; "teams"]))
  = ([], Server.Status400Missing ["feedback"; "teams"]).
Proof. vm_compute. reflexivity. Qed.

(** A rating above 5 in an import is dropped, not clamped: the metric is
    then reported missing. *)
Example import_rejects_out_of_range :
  Server.importFromCSV [] (importRequest (importFile "strategy" "9" []))
  = ([], Server.Status400Missing ["strategy"]).
Proof. vm_compute. reflexivity. Qed.

(** A fraction in a create request is refused by the validation. *)
Example create_rejects_fraction :
  Server.handleValidationErrors (fun _ => true)
    (bodyWith "sharedVision" (JS.Num (JS.Fin (5 # 2))))
  = Some [ {| Server.err_field := "metrics.sharedVision";
              Server.err_message := "Shared Vision must be between 0 and 5" |} ].
Proof. vm_compute. reflexivity. Qed.

(** C5. The import route does not reject a rating that is not an integer:
    the file rating [sharedVision] 2.5 and every other metric 3 is
    accepted, and the record is stored with [sharedVision] at 2, where the
    validation of the create and update routes refuses 2.5. *)
Theorem import_truncates_fraction :
  exists a,
    Server.importFromCSV [] (importRequest (importFile "sharedVision" "2.5" []))
    = ([a], Server.Status201 a []) /\
    Obj.get "sharedVision" (Server.metrics a) = Some (JS.ofZ 2) /\
    Server.isInt_0_5 (JS.Str "2.5") = false.
Proof.
  eexists. split; [vm_compute; reflexivity|]. split; reflexivity.
Qed.

(** ** Scenarios of the specification *)

(** Every metric rated 3: the overall average and every theme average
    are 3. *)
Example scenario_all_three_averages :
  (exists q, Server.calculateOverallAverage (recordOf 3 3) = JS.Fin q /\ (q == 3)%Q) /\
  Forall (fun ta => exists q, snd ta = JS.Fin q /\ (q == 3)%Q)
         (Server.calculateThemeAverages (recordOf 3 3)).
Proof.
  split.
  - eexists. split; [vm_compute; reflexivity | reflexivity].
  - vm_compute. repeat constructor; eexists; (split; [reflexivity | reflexivity]).
Qed.

(** Its export is the header and nineteen lines [metricId,3]. *)
Example scenario_all_three_export :
  linesOf (Client.csvOf (Client.numberInputs (Client.dom app_fresh)))
  = "Categories,Ratings" :: map (fun i => i ++ ",3") Config.metricIds.
Proof. vm_compute. reflexivity. Qed.

(** A table with the nineteen metric rows and one unknown row is imported
    with one warning and nineteen ratings loaded. *)
Example scenario_one_unknown_row :
  match Client.parseAndLoadCSV env_offline (importFile "" "" [] ++ "mood,4")
                               (Client.initial (pageOf "0" "")) with
  | Client.Returns _ s' =>
      Client.console s' = [Client.Warn "Unknown category in CSV: mood"] /\
      Client.notices s' = [Client.SuccessMessage "Successfully loaded 19 ratings from CSV"] /\
      Client.numberInputs (Client.dom s') = Client.numberInputs (pageOf "3" "")
  | Client.Throws _ _ => False
  end.
Proof. vm_compute. repeat split. Qed.

(** A fractional rating within the range is kept as it is by the import
    on the page, and one above the range becomes 5. *)
Example scenario_fraction_kept :
  match Client.parseAndLoadCSV env_offline
          (importFile "strategy" "7" ["teams"] ++ "teams, 2.50")
          (Client.initial (pageOf "0" "")) with
  | Client.Returns _ s' =>
      Client.getElementById "teams" (Client.dom s') = Some "2.5" /\
      Client.getElementById "strategy" (Client.dom s') = Some "5"
  | Client.Throws _ _ => False
  end.
Proof. vm_compute. repeat split. Qed.

(* ================================================================== *)
(** * Further properties of the code *)
(* ================================================================== *)

(** ** The rating clamp and what is drawn *)

Section ClampRange.
Import JS Client.

(** X1. Whatever the input, [validateInput] returns a finite number
    between 0 and 5. *)
Theorem validateInput_in_scale (v : jsval) : inScale (validateInput v).
Proof.
  unfold inScale, validateInput, Config.ratingScale_min, Config.ratingScale_max, ofZ.
  change (inject_Z 0) with 0%Q. change (inject_Z 5) with 5%Q.
  destruct (parseFloat v) as [|[|]|r]; cbn [isNaN Math_min Math_max ltb].
  - exists 0%Q. repeat split; discriminate.
  - exists 0%Q. repeat split; discriminate.
  - exists 5%Q. repeat split; discriminate.
  - destruct (Qltb r 5) eqn:L5; cbn [Math_max ltb].
    + destruct (Qltb 0 r) eqn:L0.
      * exists r. split; [reflexivity|]. apply Qltb_true in L0, L5.
        split; now apply Qlt_le_weak.
      * exists 0%Q. repeat split; discriminate.
    + replace (Qltb 0 5) with true by reflexivity.
      exists 5%Q. repeat split; discriminate.
Qed.

Lemma sameButConsole_refl (s : App) : sameButConsole s s.
Proof. repeat split. Qed.

Lemma sameButConsole_trans (s1 s2 s3 : App) :
  sameButConsole s1 s2 -> sameButConsole s2 s3 -> sameButConsole s1 s3.
Proof.
  unfold sameButConsole.
  intros (A1 & A2 & A3 & A4 & A5 & A6 & A7 & A8) (B1 & B2 & B3 & B4 & B5 & B6 & B7 & B8).
  repeat split; congruence.
Qed.

(** X2. With a chart on the page, [updateChart] returns normally and the
    chart then holds one value per metric of the configuration, nineteen
    in all, each between 0 and 5, under its former title; the page, the
    stored item, the identity and the notices are as before. *)
Theorem updateChart_draws_ratings (s : App) (ch : Chart) :
  chart s = Some ch ->
  exists s' ch',
    updateChart s = Returns tt s' /\
    chart s' = Some ch' /\ title ch' = title ch /\
    List.length (data ch') = 19%nat /\
    Forall inScale (data ch') /\
    sameButChart s s'.
Proof.
  intro Hch. unfold updateChart, bind, gets. rewrite Hch.
  destruct (forEach_frame sameButConsole Config.metricIds
             (fun i => match getElementById i (dom s) with
                       | Some _ => ret tt
                       | None => console_warn ("Missing input field: " ++ i)
                       end)
             sameButConsole_refl sameButConsole_trans) with (s := s)
    as (s1 & E1 & P1).
  { intros x s0. destruct (getElementById x (dom s)).
    - exists s0. split; [reflexivity | apply sameButConsole_refl].
    - eexists. split; [reflexivity|]. repeat split. }
  rewrite E1. destruct P1 as (D & C & N & I & L & No & R & Dl).
  set (values := map (fun i => match getElementById i (dom s) with
                               | Some v => validateInput (Str v)
                               | None => ofZ 0
                               end) Config.metricIds).
  exists (set_chart (Some {| title := title ch; data := values |}) s1).
  exists {| title := title ch; data := values |}.
  split; [reflexivity|]. split; [reflexivity|]. split; [reflexivity|].
  cbn [data]. split; [|split].
  - subst values. now rewrite length_map.
  - apply Forall_forall. intros n Hn. subst values. apply in_map_iff in Hn.
    destruct Hn as (i & <- & _).
    destruct (getElementById i (dom s)); [apply validateInput_in_scale|].
    exists 0%Q. repeat split; discriminate.
  - unfold sameButChart. cbn [set_chart dom employeeName currentAssessmentId
      localStorage notices requests downloads]. repeat split; assumption.
Qed.

Lemma updateChart_draws_ratings_witness :
  exists s' ch',
    updateChart (set_chart (Some {| title := "Results"; data := [] |}) app_fresh)
    = Returns tt s' /\
    chart s' = Some ch' /\ title ch' = "Results" /\
    List.length (data ch') = 19%nat /\
    Forall inScale (data ch') /\
    sameButChart (set_chart (Some {| title := "Results"; data := [] |}) app_fresh) s'.
Proof.
  exact (updateChart_draws_ratings
           (set_chart (Some {| title := "Results"; data := [] |}) app_fresh)
           {| title := "Results"; data := [] |} eq_refl).
Defined.

End ClampRange.

(** ** File names *)

Section FilenameSafety.
Import JS Client.

Lemma take_length (n : nat) (s : string) : (String.length (take n s) <= n)%nat.
Proof.
  revert s. induction n as [|n IH]; intros [|c r]; simpl; try lia.
  specialize (IH r). lia.
Qed.

Lemma take_all (n : nat) (s : string) : (String.length s <= n)%nat -> take n s = s.
Proof.
  revert s. induction n as [|n IH]; intros [|c r]; simpl; intro H; try reflexivity; try lia.
  rewrite IH by lia. reflexivity.
Qed.

Lemma allChars_take (p : ascii -> bool) (n : nat) (s : string) :
  allChars p s = true -> allChars p (take n s) = true.
Proof.
  revert s. induction n as [|n IH]; intros [|c r]; simpl; intro H; try reflexivity.
  apply andb_true_iff in H as [Hc Hr]. now rewrite Hc, IH.
Qed.

Lemma collapse_head (b : ascii) (r : string) :
  exists t, Stated.collapseUnderscores (String b r) = String b t.
Proof.
  revert b. induction r as [|c r IH]; intro b.
  - now exists EmptyString.
  - cbn [Stated.collapseUnderscores].
    destruct (Ascii.eqb b "_" && Ascii.eqb c "_")%bool eqn:E.
    + apply andb_true_iff in E as [Eb Ec].
      apply Ascii.eqb_eq in Eb, Ec. subst. apply IH.
    + eexists. reflexivity.
Qed.

Lemma allChars_collapse (p : ascii -> bool) (s : string) :
  allChars p s = true -> allChars p (Stated.collapseUnderscores s) = true.
Proof.
  induction s as [|a t IH]; [reflexivity|].
  intro H. cbn [allChars] in H. apply andb_true_iff in H as [Ha Ht].
  destruct t as [|b r]; [cbn; now rewrite Ha|].
  cbn [Stated.collapseUnderscores].
  destruct (Ascii.eqb a "_" && Ascii.eqb b "_")%bool; [now apply IH|].
  cbn [allChars]. rewrite Ha. now apply IH.
Qed.

Lemma noDouble_collapse (s : string) :
  noDoubleUnderscore (Stated.collapseUnderscores s) = true.
Proof.
  induction s as [|a t IH]; [reflexivity|].
  destruct t as [|b r]; [reflexivity|].
  change (Stated.collapseUnderscores (String a (String b r)))
    with (if (Ascii.eqb a "_" && Ascii.eqb b "_")%bool
          then Stated.collapseUnderscores (String b r)
          else String a (Stated.collapseUnderscores (String b r))).
  destruct (Ascii.eqb a "_" && Ascii.eqb b "_")%bool eqn:E; [exact IH|].
  destruct (collapse_head b r) as (t & Ht). rewrite Ht in *.
  change (noDoubleUnderscore (String a (String b t)))
    with ((negb (Ascii.eqb a "_" && Ascii.eqb b "_")
           && noDoubleUnderscore (String b t))%bool).
  rewrite E. exact IH.
Qed.

Lemma noDouble_take (n : nat) (s : string) :
  noDoubleUnderscore s = true -> noDoubleUnderscore (take n s) = true.
Proof.
  revert s. induction n as [|n IH]; intros s H; [reflexivity|].
  destruct s as [|a t]; [reflexivity|].
  destruct t as [|b r]; [destruct n; reflexivity|].
  cbn [noDoubleUnderscore] in H. apply andb_true_iff in H as [Hab Ht].
  specialize (IH (String b r) Ht).
  destruct n as [|m]; [reflexivity|].
  change (take (S (S m)) (String a (String b r)))
    with (String a (take (S m) (String b r))).
  change (take (S m) (String b r)) with (String b (take m r)) in *.
  change (noDoubleUnderscore (String a (String b (take m r))))
    with ((negb (Ascii.eqb a "_" && Ascii.eqb b "_")
           && noDoubleUnderscore (String b (take m r)))%bool).
  now rewrite Hab, IH.
Qed.

Lemma collapse_fixed (s : string) :
  noDoubleUnderscore s = true -> Stated.collapseUnderscores s = s.
Proof.
  induction s as [|a t IH]; [reflexivity|].
  destruct t as [|b r]; [reflexivity|].
  intro H. cbn [noDoubleUnderscore] in H. apply andb_true_iff in H as [Hab Ht].
  change (Stated.collapseUnderscores (String a (String b r)))
    with (if (Ascii.eqb a "_" && Ascii.eqb b "_")%bool
          then Stated.collapseUnderscores (String b r)
          else String a (Stated.collapseUnderscores (String b r))).
  apply negb_true_iff in Hab. rewrite Hab.
  now rewrite (IH Ht).
Qed.

Lemma replaceOutside_class (s : string) :
  allChars Stated.inFilenameClass (Stated.replaceOutside s) = true.
Proof.
  unfold Stated.replaceOutside.
  induction s as [|c r IH]; [reflexivity|].
  cbn [smap allChars]. rewrite IH, andb_true_r.
  destruct (Stated.inFilenameClass c) eqn:E; [exact E | reflexivity].
Qed.

Lemma replaceOutside_fixed (s : string) :
  allChars Stated.inFilenameClass s = true -> Stated.replaceOutside s = s.
Proof.
  unfold Stated.replaceOutside.
  induction s as [|c r IH]; [reflexivity|].
  cbn [smap allChars]. intro H. apply andb_true_iff in H as [Hc Hr].
  now rewrite Hc, (IH Hr).
Qed.

Lemma class_not_space (c : ascii) :
  Stated.inFilenameClass c = true -> isWhiteSpace c = false.
Proof.
  destruct c as [[] [] [] [] [] [] [] []]; vm_compute; intro H;
    (reflexivity || discriminate).
Qed.

Lemma lastNonWs_class (s : string) :
  s <> "" -> allChars Stated.inFilenameClass s = true -> lastNonWs s = true.
Proof.
  induction s as [|c r IH]; [contradiction|].
  intros _ H. cbn [allChars] in H. apply andb_true_iff in H as [Hc Hr].
  destruct r as [|c' r'].
  - cbn. now rewrite (class_not_space c Hc).
  - apply lastNonWs_cons. apply IH; [discriminate | exact Hr].
Qed.

Lemma trim_class (s : string) :
  allChars Stated.inFilenameClass s = true -> trim s = s.
Proof.
  intro H. destruct s as [|c r]; [reflexivity|].
  apply trim_clean.
  - cbn [allChars] in H. apply andb_true_iff in H as [Hc _].
    cbn. now rewrite (class_not_space c Hc).
  - apply lastNonWs_class; [discriminate | exact H].
Qed.

(** X3. Whatever the name, [sanitizeFilename] gives at most 50
    characters, all of them letters, digits, [_] or [-], and never two
    underscores in a row. *)
Theorem sanitizeFilename_safe (name : string) :
  (String.length (sanitizeFilename name) <= 50)%nat /\
  allChars Stated.inFilenameClass (sanitizeFilename name) = true /\
  noDoubleUnderscore (sanitizeFilename name) = true.
Proof.
  rewrite sanitizeFilename_stated. unfold Stated.sanitize. split; [|split].
  - apply take_length.
  - apply allChars_take, allChars_collapse, replaceOutside_class.
  - apply noDouble_take, noDouble_collapse.
Qed.

(** X4. Sanitizing a file name twice is sanitizing it once. *)
Theorem sanitizeFilename_idempotent (name : string) :
  sanitizeFilename (sanitizeFilename name) = sanitizeFilename name.
Proof.
  destruct (sanitizeFilename_safe name) as (Hlen & Hclass & Hnd).
  rewrite (sanitizeFilename_stated (sanitizeFilename name)).
  unfold Stated.sanitize.
  rewrite trim_class by exact Hclass.
  rewrite replaceOutside_fixed by exact Hclass.
  rewrite collapse_fixed by exact Hnd.
  now apply take_all.
Qed.

Lemma trimStart_shape (s : string) :
  trimStart s = "" \/ firstNonWs (trimStart s) = true.
Proof.
  induction s as [|c r IH]; [now left|].
  cbn [trimStart]. destruct (isWhiteSpace c) eqn:E; [exact IH|].
  right. cbn. now rewrite E.
Qed.

Lemma trimEnd_shape (s : string) :
  trimEnd s = "" \/ lastNonWs (trimEnd s) = true.
Proof.
  induction s as [|c r IH]; [now left|].
  cbn [trimEnd]. destruct (trimEnd r) as [|c' r'] eqn:E.
  - destruct (isWhiteSpace c) eqn:Ec; [now left|].
    right. cbn. now rewrite Ec.
  - right. destruct IH as [IH | IH]; [discriminate|]. now apply lastNonWs_cons.
Qed.

Lemma trimEnd_first (s : string) :
  firstNonWs s = true -> firstNonWs (trimEnd s) = true.
Proof.
  destruct s as [|c r]; [discriminate|]. cbn [firstNonWs trimEnd]. intro H.
  destruct (trimEnd r).
  - apply negb_true_iff in H. rewrite H. cbn. now rewrite H.
  - exact H.
Qed.

Lemma trimEnd_empty_first (s : string) :
  firstNonWs s = true -> trimEnd s <> "".
Proof.
  intros H E. apply trimEnd_first in H. rewrite E in H. discriminate.
Qed.

(** Trimming what is trimmed changes nothing. *)
Lemma trim_trim (s : string) : trim (trim s) = trim s.
Proof.
  unfold trim at 2 3.
  destruct (trimStart_shape s) as [E | Hf].
  - rewrite E. reflexivity.
  - destruct (trimEnd_shape (trimStart s)) as [E | Hl].
    + rewrite E. reflexivity.
    + apply trim_clean; [now apply trimEnd_first | exact Hl].
Qed.

(** X5. For a name as the listener of the name field stores it, which is
    trimmed, the export is named by the three steps of the specification
    alone: replace, collapse, truncate. *)
Theorem csvFilename_of_typed_name (env : Env) (typed date rest : string) :
  now env = date ++ "T" ++ rest ->
  lacks "T" date = true ->
  csvFilename env (sanitizeEmployeeName typed)
  = Stated.filename (sanitizeEmployeeName typed) date.
Proof.
  intros Hnow Hdate. unfold csvFilename, Stated.filename.
  rewrite Hnow. change (date ++ "T" ++ rest) with (date ++ String "T" rest).
  rewrite split_app by exact Hdate. cbn [hd].
  destruct (sanitizeEmployeeName typed) as [|c r] eqn:E; [reflexivity|].
  rewrite sanitizeFilename_stated, <- E. unfold sanitizeEmployeeName.
  now rewrite trim_trim.
Qed.

Lemma csvFilename_of_typed_name_witness :
  csvFilename env_offline (sanitizeEmployeeName "  Ann & Bob ")
  = "Ann_amp_Bob_assessment_2024-03-09.csv".
Proof.
  exact (csvFilename_of_typed_name env_offline "  Ann & Bob " "2024-03-09"
           "10:15:00.000Z" eq_refl eq_refl).
Defined.

End FilenameSafety.

(** ** What is collected from the page *)

Section Collecting.
Import JS Client.

Lemma get_set {V} (k i : string) (v : V) (m : list (string * V)) :
  Obj.get k (Obj.set i v m) = if String.eqb k i then Some v else Obj.get k m.
Proof.
  induction m as [|[k' v'] r IH]; simpl.
  - now destruct (String.eqb k i).
  - destruct (String.eqb i k') eqn:Eik'; simpl.
    + apply String.eqb_eq in Eik'. subst k'.
      now destruct (String.eqb k i).
    + destruct (String.eqb k k') eqn:Ekk'.
      * apply String.eqb_eq in Ekk'. subst k'.
        rewrite String.eqb_sym in Eik'. now rewrite Eik'.
      * exact IH.
Qed.

Lemma fold_collect (d : Dom) (l : list string) (acc : list (string * jsnum)) (k : string) :
  Obj.get k
    (fold_left (fun metrics i =>
       match getElementById i d with
       | Some v => Obj.set i (orElse (parseInt (Str v)) (ofZ 0)) metrics
       | None => metrics
       end) l acc)
  = if existsb (String.eqb k) l
    then match getElementById k d with
         | Some v => Some (orElse (parseInt (Str v)) (ofZ 0))
         | None => Obj.get k acc
         end
    else Obj.get k acc.
Proof.
  revert acc. induction l as [|i r IH]; intro acc; [reflexivity|].
  cbn [fold_left existsb]. rewrite IH.
  destruct (String.eqb k i) eqn:E.
  - apply String.eqb_eq in E. subst i. cbn [orb].
    destruct (getElementById k d) as [v|].
    + rewrite get_set, String.eqb_refl. now destruct (existsb (String.eqb k) r).
    + now destruct (existsb (String.eqb k) r).
  - cbn [orb]. destruct (getElementById i d) as [w|]; [|reflexivity].
    rewrite get_set, E. reflexivity.
Qed.

Lemma parseInt_integer (v : jsval) :
  parseInt v = NaN \/ exists z, parseInt v = ofZ z.
Proof.
  unfold parseInt, parseIntStr.
  destruct (readSign (trimStart (toString v))) as [neg r].
  destruct (match r with
            | String "0" (String x r') =>
                if (Ascii.eqb x "x" || Ascii.eqb x "X")%bool then (16, r') else (10, r)
            | _ => (10, r)
            end) as [radix body].
  destruct (radixAcc radix None body) as [z|]; [right | now left].
  now eexists.
Qed.

Lemma orElse_integer (v : jsval) : exists z, orElse (parseInt v) (ofZ 0) = ofZ z.
Proof.
  unfold orElse. destruct (parseInt_integer v) as [-> | (z & ->)].
  - now exists 0.
  - destruct (truthyNum (ofZ z)); [now exists z | now exists 0].
Qed.

(** X6. Whatever the page, [collectFormData] holds, for each metric of
    the configuration whose field exists, the integer [parseInt] reads
    from the field, or 0 when it reads none; it holds nothing for a metric
    without a field and nothing under any other key.  Every value is an
    integer, and none is clamped: a field showing 9 is collected as 9. *)
Theorem collectFormData_reads_fields (d : Dom) :
  (forall k,
     Obj.get k (collectFormData d) =
       if existsb (String.eqb k) Config.metricIds
       then match getElementById k d with
            | Some v => Some (orElse (parseInt (Str v)) (ofZ 0))
            | None => None
            end
       else None) /\
  (forall k n, Obj.get k (collectFormData d) = Some n -> exists z, n = ofZ z) /\
  (forall k, In k Config.metricIds -> getElementById k d = Some "9" ->
             Obj.get k (collectFormData d) = Some (ofZ 9)).
Proof.
  assert (H : forall k,
     Obj.get k (collectFormData d) =
       if existsb (String.eqb k) Config.metricIds
       then match getElementById k d with
            | Some v => Some (orElse (parseInt (Str v)) (ofZ 0))
            | None => None
            end
       else None).
  { intro k. unfold collectFormData. rewrite fold_collect. reflexivity. }
  split; [exact H|]. split.
  - intros k n. rewrite H.
    destruct (existsb (String.eqb k) Config.metricIds); [|discriminate].
    destruct (getElementById k d) as [v|]; [|discriminate].
    intros [= <-]. apply orElse_integer.
  - intros k Hk H9. rewrite H. apply existsb_eqb_In in Hk. rewrite Hk, H9.
    reflexivity.
Qed.

Lemma collectFormData_reads_fields_witness :
  Obj.get "teams"
    (collectFormData
       {| numberInputs := [("teams", "9"); ("strategy", "abc")]; nameInput := None |})
  = Some (ofZ 9).
Proof.
  apply (proj2 (proj2 (collectFormData_reads_fields
                         {| numberInputs := [("teams", "9"); ("strategy", "abc")];
                            nameInput := None |}))).
  - simpl. tauto.
  - reflexivity.
Defined.

End Collecting.

(** ** The local storage *)

Section LocalStorage.
Import JS Client.

Lemma fold_setInput_cons (k v : string) (l1 l2 : list (string * string)) :
  ~ In k (map fst l1) ->
  fold_left (fun acc kv => setInput (fst kv) (snd kv) acc) l1 ((k, v) :: l2)
  = (k, v) :: fold_left (fun acc kv => setInput (fst kv) (snd kv) acc) l1 l2.
Proof.
  revert l2. induction l1 as [|[k' v'] r IH]; intros l2 Hk; [reflexivity|].
  cbn [fold_left fst snd setInput].
  destruct (String.eqb k' k) eqn:E.
  - apply String.eqb_eq in E. subst. exfalso. apply Hk. now left.
  - apply IH. intro H. apply Hk. now right.
Qed.

(** Writing back, field by field, what was read from fields of the same
    names restores the fields. *)
Lemma fold_setInput_restore (l1 l2 : list (string * string)) :
  map fst l1 = map fst l2 -> NoDup (map fst l1) ->
  fold_left (fun acc kv => setInput (fst kv) (snd kv) acc) l1 l2 = l1.
Proof.
  revert l2. induction l1 as [|[k v] r IH]; intros l2 Hkeys ND.
  - destruct l2; [reflexivity | discriminate].
  - destruct l2 as [|[k' w] r2]; [discriminate|].
    cbn [map fst] in Hkeys. injection Hkeys as <- Hrest.
    cbn [map fst] in ND. inversion ND as [|? ? Hnot ND']; subst.
    cbn [fold_left fst snd setInput]. rewrite String.eqb_refl.
    rewrite fold_setInput_cons by exact Hnot. f_equal. now apply IH.
Qed.

Lemma setInput_keys (i v : string) (l : list (string * string)) :
  map fst (setInput i v l) = map fst l.
Proof.
  induction l as [|[k w] r IH]; [reflexivity|].
  cbn [setInput]. destruct (String.eqb i k); cbn [map fst]; [reflexivity|].
  now rewrite IH.
Qed.

(** The loop of [loadFromLocalStorage] over stored fields that the page
    has. *)
Lemma restore_loop (l : list (string * string)) (s : App) :
  (forall kv, In kv l -> In (fst kv) (map fst (numberInputs (dom s)))) ->
  exists s',
    forEach l (fun kv =>
      d' <- gets dom ;;
      match getElementById (fst kv) d' with
      | Some _ => modify (set_dom (setValue (fst kv) (snd kv) d'))
      | None => ret tt
      end) s = Returns tt s' /\
    numberInputs (dom s')
    = fold_left (fun acc kv => setInput (fst kv) (snd kv) acc) l (numberInputs (dom s)) /\
    nameInput (dom s') = nameInput (dom s) /\
    chart s' = chart s /\ employeeName s' = employeeName s /\
    currentAssessmentId s' = currentAssessmentId s /\
    localStorage s' = localStorage s /\ notices s' = notices s /\
    requests s' = requests s /\ console s' = console s.
Proof.
  revert s. induction l as [|[k v] r IH]; intros s Hin.
  - exists s. repeat split.
  - assert (Hk : exists w, Obj.get k (numberInputs (dom s)) = Some w).
    { specialize (Hin (k, v) (or_introl eq_refl)). cbn [fst] in Hin.
      destruct (Obj.get k (numberInputs (dom s))) as [w|] eqn:E; [now exists w|].
      apply get_None in E. contradiction. }
    destruct Hk as (w & Ew).
    cbn [forEach fst snd]. unfold bind at 1. unfold bind at 1. unfold gets at 1.
    unfold getElementById, setValue. rewrite Ew. unfold modify at 1.
    set (s1 := set_dom _ s).
    destruct (IH s1) as (s' & E & F & N & C & En & I & L & No & R & Co).
    { intros kv Hkv. subst s1. cbn [dom set_dom numberInputs].
      rewrite setInput_keys. apply Hin. now right. }
    exists s'. split; [exact E|]. rewrite F, N, C, En, I, L, No, R, Co.
    subst s1. repeat split.
Qed.

(** X7. What [saveToLocalStorage] stores, [loadFromLocalStorage] brings
    back: on any later page that has rating fields of the same names (each
    name once), loading restores every field to the text it showed when
    saved, and restores the name when a name field exists and the saved
    name is not empty; the stored item and the bound identity are left as
    they are and nothing is thrown. *)
Theorem localStorage_round_trip (env : Env) (s later : App) :
  NoDup (map fst (numberInputs (dom s))) ->
  map fst (numberInputs (dom later)) = map fst (numberInputs (dom s)) ->
  localStorage later = localStorage (stateOf (saveToLocalStorage env s)) ->
  exists s',
    loadFromLocalStorage later = Returns tt s' /\
    numberInputs (dom s') = numberInputs (dom s) /\
    (nameInput (dom later) <> None -> employeeName s <> "" ->
       employeeName s' = employeeName s /\
       nameInput (dom s') = Some (employeeName s)) /\
    localStorage s' = localStorage later /\
    currentAssessmentId s' = currentAssessmentId later.
Proof.
  intros ND Hkeys Hstored. rewrite saveToLocalStorage_eq in Hstored.
  cbn [stateOf localStorage set_localStorage] in Hstored.
  unfold loadFromLocalStorage, tryCatch. unfold bind at 1. unfold gets at 1.
  rewrite Hstored. unfold bind at 1. unfold gets at 1.
  cbn [snapshot saved_employeeName saved_formData].
  assert (Hname : exists s1,
    (match nameInput (dom later), employeeName s with
     | Some _, String _ _ =>
         modify (set_dom {| numberInputs := numberInputs (dom later);
                            nameInput := Some (employeeName s) |}) ;;;
         modify (set_employeeName (employeeName s))
     | _, _ => ret tt
     end) later = Returns tt s1 /\
    numberInputs (dom s1) = numberInputs (dom later) /\
    (nameInput (dom later) <> None -> employeeName s <> "" ->
       employeeName s1 = employeeName s /\ nameInput (dom s1) = Some (employeeName s)) /\
    localStorage s1 = localStorage later /\
    currentAssessmentId s1 = currentAssessmentId later).
  { destruct (nameInput (dom later)) as [n|]; [destruct (employeeName s) as [|c r]|].
    - exists later. repeat split; intros; contradiction.
    - eexists. split; [reflexivity|]. repeat split.
    - exists later. repeat split; intros; contradiction. }
  destruct Hname as (s1 & E1 & F1 & N1 & L1 & I1).
  unfold bind at 1. rewrite E1.
  destruct (restore_loop (numberInputs (dom s)) s1)
    as (s2 & E2 & F2 & N2 & _ & En2 & I2 & L2 & _).
  { intros kv Hkv. rewrite F1, Hkeys. now apply in_map. }
  unfold bind at 1. rewrite E2.
  destruct (updateChart_frame s2) as (s3 & E3 & D3 & En3 & I3 & L3 & _).
  rewrite E3. exists s3. split; [reflexivity|].
  rewrite D3, En3, I3, L3, F2, En2, I2, L2, F1.
  split; [apply fold_setInput_restore; [now symmetry | exact ND]|].
  split; [|split; [congruence | assumption]].
  intros Hn He. destruct (N1 Hn He) as (A & B). split; [exact A|].
  now rewrite N2.
Qed.

Lemma metricIds_NoDup_fields :
  NoDup (map fst (numberInputs (dom app_fresh))).
Proof.
  cbn [app_fresh initial dom pageOf numberInputs]. rewrite map_map. cbn [fst].
  rewrite map_id. exact metricIds_NoDup.
Qed.

Lemma localStorage_round_trip_witness :
  exists s',
    loadFromLocalStorage
      (set_dom (pageOf "0" "") (stateOf (saveToLocalStorage env_offline app_fresh)))
    = Returns tt s' /\
    numberInputs (dom s') = numberInputs (dom app_fresh).
Proof.
  destruct (localStorage_round_trip env_offline app_fresh
              (set_dom (pageOf "0" "") (stateOf (saveToLocalStorage env_offline app_fresh)))
              metricIds_NoDup_fields eq_refl eq_refl) as (s' & E & F & _).
  exists s'. now split.
Defined.

End LocalStorage.

(** ** Clearing, starting anew and the next save *)

Section ClearThenSave.
Import JS Client.

(** An authenticated save sends exactly the request [requestOf]
    describes. *)
Lemma save_authenticated_request (env : Env) (s : App) :
  authenticated env = true ->
  requests (stateOf (saveToMongoDB env s)) = (requests s ++ [requestOf env s])%list.
Proof.
  intro Ha. destruct (remote env (requestOf env s)) as [j|message] eqn:Hr.
  - destruct (boundId (currentAssessmentId s)) as [i|] eqn:Hb.
    + pose proof Hr as Hr'. unfold requestOf in Hr'. rewrite Hb in Hr'.
      rewrite (save_updated env s i j Ha Hb Hr'). unfold requestOf. now rewrite Hb.
    + pose proof Hr as Hr'. unfold requestOf in Hr'. rewrite Hb in Hr'.
      rewrite (save_created env s j Ha Hb Hr'). unfold requestOf. now rewrite Hb.
  - now rewrite (save_rejected env s message Ha Hr).
Qed.

(** All that [clearAll] does. *)
Lemma clearAll_frame (s : App) :
  exists s', clearAll s = Returns tt s' /\
    numberInputs (dom s') = zeroed (numberInputs (dom s)) /\
    nameInput (dom s') = match nameInput (dom s) with Some _ => Some "" | None => None end /\
    localStorage s' = None /\
    currentAssessmentId s' = currentAssessmentId s /\
    requests s' = requests s /\
    notices s' = (notices s ++ [SuccessMessage "All values have been cleared"])%list.
Proof.
  unfold clearAll. unfold bind at 1. unfold gets at 1. unfold bind at 1.
  unfold modify at 1. cbn [nameInput].
  set (s1 := set_dom _ s).
  assert (H1 : numberInputs (dom s1) = zeroed (numberInputs (dom s))
               /\ nameInput (dom s1) = nameInput (dom s)
               /\ currentAssessmentId s1 = currentAssessmentId s
               /\ requests s1 = requests s /\ notices s1 = notices s)
    by (repeat split).
  clearbody s1. destruct H1 as (F1 & N1 & I1 & R1 & No1).
  assert (Hname : exists s2,
    (match nameInput (dom s) with
     | Some _ =>
         modify (set_dom {| numberInputs := numberInputs
                              {| numberInputs := map (fun kv => (fst kv, toString (Num (ofZ 0))))
                                                     (numberInputs (dom s));
                                 nameInput := nameInput (dom s) |};
                            nameInput := Some "" |}) ;;;
         modify (set_employeeName "")
     | None => ret tt
     end) s1 = Returns tt s2 /\
    numberInputs (dom s2) = zeroed (numberInputs (dom s)) /\
    nameInput (dom s2) = match nameInput (dom s) with Some _ => Some "" | None => None end /\
    currentAssessmentId s2 = currentAssessmentId s /\
    requests s2 = requests s /\ notices s2 = notices s).
  { destruct (nameInput (dom s)).
    - eexists. split; [reflexivity|]. cbn. repeat split; assumption.
    - exists s1. split; [reflexivity|]. repeat split; assumption. }
  destruct Hname as (s2 & E2 & F2 & N2 & I2 & R2 & No2).
  unfold bind at 1. rewrite E2. unfold bind at 1. unfold gets at 1.
  assert (Htitle : exists s3,
    (match chart s2 with
     | Some ch => modify (set_chart (Some {| title := "Results"; data := data ch |}))
     | None => ret tt
     end) s2 = Returns tt s3 /\ dom s3 = dom s2 /\
    currentAssessmentId s3 = currentAssessmentId s2 /\
    requests s3 = requests s2 /\ notices s3 = notices s2).
  { destruct (chart s2).
    - eexists. split; [reflexivity|]. repeat split.
    - exists s2. split; [reflexivity|]. repeat split. }
  destruct Htitle as (s3 & E3 & D3 & I3 & R3 & No3).
  unfold bind at 1. rewrite E3.
  destruct (updateChart_frame s3) as (s4 & E4 & D4 & _ & I4 & _ & No4 & R4 & _).
  unfold bind at 1. rewrite E4.
  eexists. split; [reflexivity|]. cbn.
  rewrite D4, I4, R4, No4, D3, I3, R3, No3, F2, N2, I2, R2, No2. repeat split.
Qed.

(** X8. Clearing all does not unbind: while an identity is bound, the
    authenticated save that follows [clearAll] is an update of that
    identity, and on a page with every rating field it carries 0 for every
    metric, so the stored record is overwritten with zeros.  After
    [newAssessment] the save that follows is a create. *)
Theorem save_after_clearing (env : Env) (s : App) :
  authenticated env = true ->
  pageComplete (dom s) ->
  (forall i, boundId (currentAssessmentId s) = Some i ->
     exists s1 data1,
       clearAll s = Returns tt s1 /\
       requests (stateOf (saveToMongoDB env s1))
       = (requests s ++ [UpdateAssessment i data1])%list /\
       p_metrics data1 = map (fun k => (k, ofZ 0)) Config.metricIds) /\
  (exists s1 data1,
     newAssessment s = Returns tt s1 /\
     requests (stateOf (saveToMongoDB env s1))
     = (requests s ++ [CreateAssessment data1])%list /\
     p_metrics data1 = map (fun k => (k, ofZ 0)) Config.metricIds).
Proof.
  intros Ha Hpage.
  assert (Hzero : forall s1,
    numberInputs (dom s1) = zeroed (numberInputs (dom s)) ->
    p_metrics (payloadOf env (dom s1)) = map (fun k => (k, ofZ 0)) Config.metricIds).
  { intros s1 F. cbn [payloadOf p_metrics].
    assert (Hget : forall k, In k Config.metricIds ->
              Obj.get k (numberInputs (dom s1)) = Some "0").
    { intros k Hk. rewrite F. destruct (Hpage k Hk) as (v & Ev).
      clear - Ev. unfold zeroed.
      induction (numberInputs (dom s)) as [|[k' w] r IH]; [discriminate|].
      cbn [map fst Obj.get] in *. destruct (String.eqb k k'); [reflexivity | auto]. }
    rewrite collectFormData_complete by (intros k Hk; eauto).
    apply map_ext_in. intros k Hk. f_equal. unfold entered, getElementById.
    now rewrite (Hget k Hk). }
  split.
  - intros i Hb. destruct (clearAll_frame s) as (s1 & E & F & _ & _ & I & R & _).
    exists s1, (payloadOf env (dom s1)). split; [exact E|]. split; [|now apply Hzero].
    rewrite save_authenticated_request by exact Ha.
    unfold requestOf. now rewrite I, Hb, R.
  - unfold newAssessment. unfold bind at 1. unfold modify at 1.
    destruct (clearAll_frame (set_currentAssessmentId None s))
      as (s1 & E & F & _ & _ & I & R & _).
    unfold bind at 1. rewrite E. unfold showSuccessMessage, modify.
    eexists. exists (payloadOf env (dom s1)). split; [reflexivity|]. split.
    + rewrite save_authenticated_request by exact Ha.
      unfold requestOf. cbn [currentAssessmentId add_notice dom requests].
      rewrite I, R. reflexivity.
    + now apply (Hzero s1).
Qed.

Lemma save_after_clearing_witness :
  exists s1 data1,
    newAssessment app_fresh = Returns tt s1 /\
    requests (stateOf (saveToMongoDB (env_online "65f0c0ffee") s1))
    = [CreateAssessment data1] /\
    p_metrics data1 = map (fun k => (k, ofZ 0)) Config.metricIds.
Proof.
  exact (proj2 (save_after_clearing (env_online "65f0c0ffee") app_fresh eq_refl
                  (pageOf_complete "3" "Jane Doe"))).
Defined.

End ClearThenSave.

(** ** Rows of an imported table *)

Section LastRow.
Import JS Client.

Lemma write_exists (rows : list string) (l : list (string * string)) (i : string) :
  Obj.get i l <> None -> Obj.get i (fold_left write rows l) <> None.
Proof.
  revert l. induction rows as [|raw rest IH]; intros l H; [exact H|].
  cbn [fold_left]. apply IH. unfold write. rewrite get_setInput.
  destruct (String.eqb i (rowCategory raw)); [|exact H].
  destruct (Obj.get i l); [discriminate | contradiction].
Qed.

(** Among rows written in order, the last one naming a field decides
    it. *)
Lemma write_last (rows : list string) (l : list (string * string)) (i : string) :
  Obj.get i l <> None ->
  Obj.get i (fold_left write rows l) =
    match find (fun raw => String.eqb (rowCategory raw) i) (rev rows) with
    | Some raw => Some (clampedText raw)
    | None => Obj.get i l
    end.
Proof.
  intro H. induction rows as [|raw rest IH] using rev_ind; [reflexivity|].
  rewrite fold_left_app, rev_app_distr. cbn [fold_left rev app find].
  unfold write at 1. rewrite get_setInput, (String.eqb_sym i).
  destruct (String.eqb (rowCategory raw) i); [|exact IH].
  pose proof (write_exists rest l i H) as Hex.
  destruct (Obj.get i (fold_left write rest l)); [reflexivity | contradiction].
Qed.

Lemma find_filter {A} (p q : A -> bool) (l : list A) :
  find p (filter q l) = find (fun x => (q x && p x)%bool) l.
Proof.
  induction l as [|x r IH]; [reflexivity|].
  cbn [filter find]. destruct (q x); [|exact IH].
  cbn [find andb]. destruct (p x); [reflexivity | exact IH].
Qed.

Lemma filter_rev {A} (q : A -> bool) (l : list A) :
  rev (filter q l) = filter q (rev l).
Proof.
  induction l as [|x r IH]; [reflexivity|].
  cbn [filter rev]. rewrite filter_app. cbn [filter].
  destruct (q x); cbn [rev]; rewrite IH; [reflexivity | now rewrite app_nil_r].
Qed.

(** X9. When a table is imported on a page with every rating field, each
    field ends with the clamped rating of the last recognized row that
    names it, and a field that no recognized row names keeps its text. *)
Theorem import_last_row_wins (env : Env) (csvContent : string) (s : App) (i : string) :
  pageComplete (dom s) ->
  (2 <= List.length (linesOf csvContent))%nat ->
  headerOk (hd "" (linesOf csvContent)) = true ->
  filter recognized (tl (linesOf csvContent)) <> [] ->
  In i Config.metricIds ->
  exists s',
    parseAndLoadCSV env csvContent s = Returns tt s' /\
    getElementById i (dom s') =
      match lastRowFor i (tl (linesOf csvContent)) with
      | Some raw => Some (clampedText raw)
      | None => getElementById i (dom s)
      end.
Proof.
  intros Hpage Hlen Hh Hsome Hi.
  destruct (import_succeeds env csvContent s Hpage Hlen Hh Hsome) as (s' & E & F & _).
  exists s'. split; [exact E|].
  destruct (Hpage i Hi) as (v & Ev).
  unfold getElementById. rewrite F, write_last by (rewrite Ev; discriminate).
  rewrite filter_rev, find_filter. unfold lastRowFor. rewrite Ev.
  now destruct (find _ (rev (tl (linesOf csvContent)))).
Qed.

End LastRow.

Lemma import_last_row_wins_witness :
  exists s',
    Client.parseAndLoadCSV env_offline csv_two_rows app_fresh = Client.Returns tt s' /\
    Client.getElementById "teams" (Client.dom s') = Some "5".
Proof.
  refine (import_last_row_wins env_offline csv_two_rows app_fresh "teams"
            (pageOf_complete "3" "Jane Doe") (le_S _ _ (le_n 2)) eq_refl _ _).
  - discriminate.
  - simpl. tauto.
Defined.

(** ** Debouncing *)

Section Debouncing.
Import JS Client ClientRest.
Context {A : Type}.
Variable wait : Z.
Variable ran : Z -> Z -> bool.
Hypothesis never_early : forall due t, t < due -> ran due t = false.

Lemma last_cons_default (c d : Z * A) (r : list (Z * A)) :
  last (c :: r) d = last r c.
Proof.
  revert c d. induction r as [|c' r IHr]; intros c d; [reflexivity|].
  change (last (c :: c' :: r) d) with (last (c' :: r) d).
  now rewrite (IHr c' d), (IHr c' c).
Qed.

Lemma callAll_burst (t : Z) (a : A) (rest : list (Z * A)) (done : list (Z * A)) :
  chained (fun prev next => next < prev + wait) t rest ->
  callAll wait ran rest {| timeout := Some (t + wait, a); executed := done |}
  = {| timeout := Some (fst (last rest (t, a)) + wait, snd (last rest (t, a)));
       executed := done |}.
Proof.
  revert t a. induction rest as [|[t' a'] rest IH]; intros t a H; [reflexivity|].
  cbn [chained fst] in H. destruct H as [Hclose Hrest].
  unfold callAll. cbn [fold_left fst snd].
  unfold executedFunction at 2. unfold elapse. cbn [timeout executed].
  rewrite (never_early (t + wait) t' Hclose). cbn [executed].
  change (fold_left _ rest ?d) with (callAll wait ran rest d).
  rewrite (IH t' a' Hrest).
  now rewrite (last_cons_default (t', a') (t, a) rest).
Qed.

(** X10. Debouncing collapses a burst: when each call comes less than
    [wait] after the one before, the function runs once only, for the
    timer set [wait] after the last call and with the arguments of the
    last call, whatever the runtime does with its timers short of running
    one early. *)
Theorem debounce_collapses_burst (first : Z * A) (rest : list (Z * A)) (T : Z) :
  chained (fun prev next => next < prev + wait) (fst first) rest ->
  ran (fst (last rest first) + wait) T = true ->
  elapse ran T (callAll wait ran (first :: rest) idle)
  = {| timeout := None;
       executed := [(fst (last rest first) + wait, snd (last rest first))] |}.
Proof.
  intros Hburst HT. destruct first as [t a].
  unfold callAll. cbn [fold_left fst snd].
  change (fold_left _ rest ?d) with (callAll wait ran rest d).
  unfold executedFunction, elapse at 2, idle. cbn [timeout executed].
  rewrite (callAll_burst t a rest [] Hburst).
  unfold elapse. cbn [timeout executed]. cbn [fst] in HT.
  now rewrite HT.
Qed.

Lemma callAll_spaced (t : Z) (a : A) (rest : list (Z * A)) (done : list (Z * A)) :
  chained (fun prev next => ran (prev + wait) next = true) t rest ->
  let d := callAll wait ran rest {| timeout := Some (t + wait, a); executed := done |} in
  timeout d = Some (fst (last rest (t, a)) + wait, snd (last rest (t, a))) /\
  (executed d ++ [(fst (last rest (t, a)) + wait, snd (last rest (t, a)))])%list
  = (done ++ map (fun c => (fst c + wait, snd c)) ((t, a) :: rest))%list.
Proof.
  revert t a done. induction rest as [|[t' a'] rest IH]; intros t a done H.
  - cbn. split; reflexivity.
  - cbn [chained fst] in H. destruct H as [E Hrest].
    assert (Estep : executedFunction wait ran t' a'
                      {| timeout := Some (t + wait, a); executed := done |}
                    = {| timeout := Some (t' + wait, a');
                         executed := (done ++ [(t + wait, a)])%list |}).
    { unfold executedFunction, elapse. cbn [timeout executed]. now rewrite E. }
    cbv zeta. unfold callAll. cbn [fold_left fst snd].
    change (fold_left _ rest ?d) with (callAll wait ran rest d).
    rewrite Estep.
    destruct (IH t' a' (done ++ [(t + wait, a)])%list Hrest) as (Ht & He).
    cbv zeta in Ht, He.
    rewrite (last_cons_default (t', a') (t, a) rest). split; [exact Ht|].
    rewrite He. cbn [map fst snd]. now rewrite <- app_assoc.
Qed.

Lemma ran_spaced (t : Z) (rest : list (Z * A)) :
  chained (fun prev next => ran (prev + wait) next = true) t rest ->
  chained (fun prev next => prev + wait <= next) t rest.
Proof.
  revert t. induction rest as [|c rest IH]; intros t H; [exact I|].
  cbn [chained] in *. destruct H as [E Hrest]. split; [|now apply IH].
  destruct (Z.le_gt_cases (t + wait) (fst c)) as [L|G]; [exact L|].
  rewrite never_early in E by lia. discriminate.
Qed.

(** X11. Debouncing loses no call whose timer has run before the next
    call comes: when that holds of every call, every call runs the
    function, for the timer set [wait] after the call and with its
    arguments, in the order of the calls.  Such calls are at least [wait]
    apart, since no timer runs early; a gap of [wait] or more does not
    ensure it, the runtime may run the timer later than the next call. *)
Theorem debounce_runs_spaced_calls (first : Z * A) (rest : list (Z * A)) (T : Z) :
  chained (fun prev next => ran (prev + wait) next = true) (fst first) rest ->
  ran (fst (last rest first) + wait) T = true ->
  executed (elapse ran T (callAll wait ran (first :: rest) idle))
  = map (fun c => (fst c + wait, snd c)) (first :: rest) /\
  chained (fun prev next => prev + wait <= next) (fst first) rest.
Proof.
  intros Hran HT. split; [|now apply ran_spaced]. destruct first as [t a].
  unfold callAll. cbn [fold_left fst snd].
  change (fold_left _ rest ?d) with (callAll wait ran rest d).
  unfold executedFunction, elapse at 2, idle. cbn [timeout executed].
  destruct (callAll_spaced t a rest [] Hran) as (Ht & He). cbv zeta in Ht, He.
  unfold elapse. rewrite Ht. cbn [fst] in HT. rewrite HT. cbn [executed]. exact He.
Qed.

End Debouncing.

Lemma prompt_never_early (due t : Z) : t < due -> prompt due t = false.
Proof. intro H. unfold prompt. apply Z.leb_gt. exact H. Defined.

Lemma debounce_collapses_burst_witness :
  ClientRest.elapse prompt 12000
    (ClientRest.callAll 5000 prompt [(0, "a"); (1000, "b"); (5500, "c")] ClientRest.idle)
  = {| ClientRest.timeout := None; ClientRest.executed := [(10500, "c")] |}.
Proof.
  apply (debounce_collapses_burst 5000 prompt prompt_never_early
           (0, "a") [(1000, "b"); (5500, "c")] 12000).
  - cbn. lia.
  - reflexivity.
Defined.

Lemma debounce_runs_spaced_calls_witness :
  ClientRest.executed
    (ClientRest.elapse prompt 20000
       (ClientRest.callAll 5000 prompt [(0, "a"); (6000, "b")] ClientRest.idle))
  = [(5000, "a"); (11000, "b")] /\
  chained (fun prev next => prev + 5000 <= next) 0 [(6000, "b")].
Proof.
  apply (debounce_runs_spaced_calls 5000 prompt prompt_never_early
           (0, "a") [(6000, "b")] 20000).
  - cbn. split; [reflexivity | exact I].
  - reflexivity.
Defined.


(** ** Loading a file chosen by the user *)

Section FileLoad.
Import JS Client ClientRest.

(** A row either is loaded or leaves the page as it was; apart from the
    page it writes to the console at most. *)
Lemma loadRow_total (raw : string) (s : App) :
  exists b s', loadRow raw s = Returns b s' /\
    (b = false -> dom s' = dom s) /\
    chart s' = chart s /\ employeeName s' = employeeName s /\
    currentAssessmentId s' = currentAssessmentId s /\
    localStorage s' = localStorage s /\ notices s' = notices s /\
    requests s' = requests s /\ downloads s' = downloads s.
Proof.
  unfold loadRow. destruct (trim raw) as [|c r].
  - exists false, s. repeat split.
  - set (cells := map trim (split "," (String c r))).
    destruct (existsb (String.eqb (nth 0 cells "")) Config.metricIds); cbn [negb].
    + unfold bind, gets.
      destruct (getElementById (nth 0 cells "") (dom s)).
      * eexists true, _. split; [reflexivity|]. split; [discriminate|]. repeat split.
      * exists false, s. repeat split.
    + eexists false, _. split; [reflexivity|]. repeat split.
Qed.

Lemma loadRows_total (rows : list string) (n : nat) (s : App) :
  exists m s', loadRows rows n s = Returns m s' /\
    (n <= m)%nat /\ (m = n -> dom s' = dom s) /\
    chart s' = chart s /\ employeeName s' = employeeName s /\
    currentAssessmentId s' = currentAssessmentId s /\
    localStorage s' = localStorage s /\ notices s' = notices s /\
    requests s' = requests s /\ downloads s' = downloads s.
Proof.
  revert n s. induction rows as [|raw rest IH]; intros n s.
  - exists n, s. repeat split. lia.
  - destruct (loadRow_total raw s) as (b & s1 & E1 & D1 & F1).
    destruct (IH (if b then S n else n) s1) as (m & s2 & E2 & L2 & D2 & F2).
    exists m, s2. cbn [loadRows]. unfold bind. rewrite E1. split; [exact E2|].
    destruct F1 as (A1 & A2 & A3 & A4 & A5 & A6 & A7).
    destruct F2 as (B1 & B2 & B3 & B4 & B5 & B6 & B7).
    split; [destruct b; lia|].
    split.
    { intro Hm. destruct b; [lia|]. rewrite (D2 Hm). now apply D1. }
    repeat split; congruence.
Qed.

(** [parseAndLoadCSV] throws before it has written anything but console
    lines. *)
Lemma parseAndLoadCSV_throws (env : Env) (csv : string) (s s1 : App) (e : exn) :
  parseAndLoadCSV env csv s = Throws e s1 -> sameButConsole s s1.
Proof.
  unfold parseAndLoadCSV.
  set (lines := split (ascii_of_nat 10) (trim csv)).
  destruct (List.length lines <? 2)%nat.
  { intro H. inversion H. subst. repeat split. }
  destruct (negb (includes "categories" (toLowerCase (hd "" lines)))
            || negb (includes "ratings" (toLowerCase (hd "" lines))))%bool.
  { intro H. inversion H. subst. repeat split. }
  unfold bind at 1.
  destruct (loadRows_total (tl lines) 0 s)
    as (m & s' & E & _ & D & A1 & A2 & A3 & A4 & A5 & A6 & A7).
  rewrite E. destruct (Nat.eqb_spec m 0) as [Hm|Hm].
  - intro H. inversion H. subst s1. specialize (D Hm). repeat split; assumption.
  - unfold bind at 1. destruct (updateChart_frame s') as (s2 & E2 & _).
    rewrite E2. discriminate.
Qed.

(** X12. Loading a file never lets an exception escape: either the import
    succeeds, or the page, the chart, the saved item and the current
    identity are as before and the user is shown the one general message,
    whatever the reason was.  The reason goes to the console only. *)
Theorem loadFromCSV_reports_failure (env : Env) (result : string) (s : App) :
  exists s', loadFromCSV_onload env result s = Returns tt s' /\
    (parseAndLoadCSV env result s = Returns tt s' \/
     (dom s' = dom s /\ chart s' = chart s /\ employeeName s' = employeeName s /\
      currentAssessmentId s' = currentAssessmentId s /\
      localStorage s' = localStorage s /\ requests s' = requests s /\
      downloads s' = downloads s /\
      notices s' = (notices s ++
        [ErrorMessage "Failed to load CSV file. Please check the file format."])%list)).
Proof.
  unfold loadFromCSV_onload, tryCatch.
  destruct (parseAndLoadCSV env result s) as [[] s1|e s1] eqn:E.
  - exists s1. split; [reflexivity|]. now left.
  - eexists. split; [reflexivity|]. right.
    destruct (parseAndLoadCSV_throws _ _ _ _ _ E) as (A1 & A2 & A3 & A4 & A5 & A6 & A7 & A8).
    cbn. rewrite A1, A2, A3, A4, A5, A6, A7, A8. repeat split.
Qed.

End FileLoad.


(** ** Loading a record from the server *)

Section RecordLoad.
Import JS Client Json ClientRest.

Lemma setInput_absent (k v : string) (l : list (string * string)) :
  Obj.get k l = None -> setInput k v l = l.
Proof.
  induction l as [|[k' w] r IH]; [reflexivity|].
  cbn [Obj.get setInput].
  destruct (String.eqb k k'); [discriminate|].
  intro H. now rewrite (IH H).
Qed.

Lemma setValue_fields (k v : string) (d : Dom) :
  numberInputs (setValue k v d) = setInput k v (numberInputs d).
Proof.
  unfold setValue. destruct (Obj.get k (numberInputs d)) eqn:E; [reflexivity|].
  rewrite (setInput_absent _ _ _ E). now destruct (String.eqb k "employeeName").
Qed.

(** The loop over [Object.entries(assessment.metrics)]. *)
Lemma restore_metrics (members : list (string * json)) (s : App) :
  exists s',
    forEach members
      (fun kv =>
         d' <- gets dom ;;
         match getElementById (fst kv) d' with
         | Some _ =>
             modify (set_dom (setValue (fst kv) (fieldText (Some (snd kv))) d'))
         | None => ret tt
         end) s = Returns tt s' /\
    numberInputs (dom s') = restored members (numberInputs (dom s)) /\
    chart s' = chart s /\ employeeName s' = employeeName s /\
    currentAssessmentId s' = currentAssessmentId s /\
    localStorage s' = localStorage s /\ notices s' = notices s /\
    console s' = console s /\ requests s' = requests s /\
    downloads s' = downloads s.
Proof.
  revert s. induction members as [|[k v] r IH]; intro s.
  - exists s. repeat split.
  - cbn [forEach fst snd]. unfold bind at 1. unfold bind at 1, gets at 1.
    destruct (getElementById k (dom s)) eqn:E.
    + unfold modify at 1.
      destruct (IH (set_dom (setValue k (fieldText (Some v)) (dom s)) s))
        as (s' & E' & F & A).
      exists s'. split; [exact E'|]. split; [|exact A].
      rewrite F. cbn [set_dom dom]. now rewrite setValue_fields.
    + unfold ret at 1. destruct (IH s) as (s' & E' & F & A).
      exists s'. split; [exact E'|]. split; [|exact A].
      rewrite F. unfold restored. cbn [fold_left fst snd].
      rewrite setInput_absent; [reflexivity|].
      unfold getElementById in E. now destruct (Obj.get k (numberInputs (dom s))).
Qed.

(** What restoring does, whatever the response: it ends with the success
    message, or throws with no message shown; the saved item, the
    requests and the downloads are as before. *)
Lemma restore_outcome (response : fetchResult) (s : App) :
  match restoreAssessment response s with
  | Returns _ s' =>
      notices s' = (notices s ++ [SuccessMessage "Assessment loaded successfully"])%list /\
      localStorage s' = localStorage s /\ requests s' = requests s /\
      downloads s' = downloads s
  | Throws _ s' =>
      notices s' = notices s /\
      localStorage s' = localStorage s /\ requests s' = requests s /\
      downloads s' = downloads s
  end.
Proof.
  unfold restoreAssessment.
  unfold bind at 1.
  destruct response as [data|m]; [|repeat split].
  unfold ret at 1. unfold bind at 1, propM at 1.
  destruct (prop "assessment" (Some data)) as [assessment|]; [|repeat split].
  unfold ret at 1. unfold bind at 1, propM at 1.
  destruct (prop "_id" assessment) as [i|]; [|repeat split].
  unfold ret at 1. unfold bind at 1, modify at 1.
  set (s1 := set_currentAssessmentId (idOf i) s).
  unfold bind at 1, propM at 1.
  destruct (prop "employeeName" assessment) as [name|]; [|repeat split].
  unfold ret at 1. unfold bind at 1. unfold bind at 1, gets at 1.
  assert (Hname : exists s2,
    match nameInput (dom s1), name with
    | Some _, Some n =>
        if truthy name then
          modify (set_dom {| numberInputs := numberInputs (dom s1);
                             nameInput := Some (fieldText name) |}) ;;;
          modify (set_employeeName (text n))
        else ret tt
    | _, _ => ret tt
    end s1 = Returns tt s2 /\
    notices s2 = notices s /\ localStorage s2 = localStorage s /\
    requests s2 = requests s /\ downloads s2 = downloads s).
  { destruct (nameInput (dom s1)); [|exists s1; repeat split].
    destruct name as [n|]; [|exists s1; repeat split].
    destruct (truthy (Some n)).
    - eexists. split; [reflexivity|]. repeat split.
    - exists s1. repeat split. }
  destruct Hname as (s2 & E2 & N2 & L2 & R2 & D2). rewrite E2.
  unfold bind at 1, propM at 1.
  destruct (prop "metrics" assessment) as [metrics|]; [|now repeat split].
  unfold ret at 1. unfold bind at 1.
  destruct (entries metrics) as [members|]; [|now repeat split].
  destruct (restore_metrics members s2)
    as (s3 & E3 & _ & _ & _ & _ & L3 & N3 & _ & R3 & D3).
  rewrite E3. unfold bind at 1.
  destruct (updateChart_frame s3) as (s4 & E4 & _ & _ & _ & L4 & N4 & R4 & D4).
  rewrite E4. cbn.
  rewrite N4, N3, N2, L4, L3, L2, R4, R3, R2, D4, D3, D2. repeat split.
Qed.

(** The same, with the [catch]: one message in either case. *)
Lemma restore_caught (response : fetchResult) (s : App) :
  exists s' n,
    tryCatch (restoreAssessment response) loadFailed s = Returns tt s' /\
    notices s' = (notices s ++ [n])%list /\
    localStorage s' = localStorage s /\ requests s' = requests s /\
    downloads s' = downloads s.
Proof.
  unfold tryCatch. pose proof (restore_outcome response s) as H.
  destruct (restoreAssessment response s) as [[] s'|e s'];
    destruct H as (N & L & R & D).
  - eexists _, _. split; [reflexivity|]. split; [exact N|]. now repeat split.
  - eexists _, _. split; [reflexivity|]. cbn. rewrite N, L, R, D. repeat split.
Qed.

Lemma load_authenticated (env : Env) (response : fetchResult)
    (assessmentId : string) (s : App) :
  authenticated env = true ->
  loadAssessment env response assessmentId s
  = tryCatch (restoreAssessment response) loadFailed
      (add_request (GetAssessment assessmentId) s).
Proof.
  intro Ha. unfold loadAssessment, tryCatch. unfold bind at 1.
  rewrite signedIn_spec, Ha, (refusal_authenticated env s Ha). reflexivity.
Qed.

Lemma load_unauthenticated (env : Env) (response : fetchResult)
    (assessmentId : string) (s : App) :
  authenticated env = false ->
  loadAssessment env response assessmentId s
  = Returns tt (add_notice (ErrorMessage "Please log in to load assessments")
                  (refusal env s)).
Proof.
  intro Ha. unfold loadAssessment, tryCatch. unfold bind at 1.
  rewrite signedIn_spec, Ha. reflexivity.
Qed.

(** X13. A call of [loadAssessment] never throws and shows exactly one
    message, as does the part of it that runs when its request settles;
    the saved item and the downloads are as before.  With a valid token
    the one request for the record goes out.  When nobody has signed in,
    the message asks to log in and nothing else changes.  When the token
    has expired or cannot be decoded, the message asks to log in too, but
    the test has started a logout, and when that settles the saved item
    is removed. *)
Theorem loadAssessment_one_notice (env : Env) (response : fetchResult)
    (assessmentId : string) (s : App) :
  (exists s' n,
     loadAssessment env response assessmentId s = Returns tt s' /\
     notices s' = (notices s ++ [n])%list /\
     localStorage s' = localStorage s /\ downloads s' = downloads s /\
     (authenticated env = true ->
      requests s' = (requests s ++ [GetAssessment assessmentId])%list) /\
     (signedOut env ->
      s' = add_notice (ErrorMessage "Please log in to load assessments") s) /\
     (tokenRefused env ->
      n = ErrorMessage "Please log in to load assessments" /\
      requests s' = (requests s ++ [Logout])%list /\
      forall r, localStorage (stateOf (authManager_logout_resumed r s')) = None)) /\
  (forall s1, exists s' n,
     loadAssessment_resumed response s1 = Returns tt s' /\
     notices s' = (notices s1 ++ [n])%list /\ requests s' = requests s1).
Proof.
  split.
  - destruct (authenticated env) eqn:Ha.
    + rewrite (load_authenticated env response assessmentId s Ha).
      destruct (restore_caught response (add_request (GetAssessment assessmentId) s))
        as (s' & n & E & N & L & R & D).
      exists s', n. split; [exact E|]. split; [exact N|]. split; [exact L|].
      split; [exact D|]. split; [intros _; exact R|].
      split.
      * intro Ho. destruct (refusal_signedOut env s Ho) as (Hf & _). congruence.
      * intro Ht. destruct (refusal_tokenRefused env s Ht) as (Hf & _). congruence.
    + rewrite (load_unauthenticated env response assessmentId s Ha).
      destruct (refusal_frame env s) as (_ & _ & _ & _ & L & N & D & _).
      eexists _, _. split; [reflexivity|]. cbn. rewrite N, L, D.
      split; [reflexivity|]. split; [reflexivity|]. split; [reflexivity|].
      split; [discriminate|]. split.
      * intro Ho. destruct (refusal_signedOut env s Ho) as (_ & ->). reflexivity.
      * intro Ht. destruct (refusal_tokenRefused env s Ht) as (_ & lines & -> & _).
        split; [reflexivity|]. cbn.
        assert (F : forall l a,
          requests (fold_left (fun a l => add_log l a) l a) = requests a).
        { induction l as [|x l IH]; intro a; cbn [fold_left]; [reflexivity|].
          now rewrite IH. }
        rewrite F. split; [reflexivity|]. now intros [j|m].
  - intro s1. destruct (restore_caught response s1) as (s' & n & E & N & _ & R & _).
    exists s', n. now repeat split.
Qed.


(** X15. A response with a record that has a non-empty identity and an
    object of metrics binds the application to that identity, whatever
    identity was asked for, writes each metric to the field of its name,
    shows the success message, and makes the next save an update of that
    record; the one request for the record is all that was sent. *)
Theorem loadAssessment_binds_record (env : Env) (assessmentId : string)
    (r o ms : list (string * json)) (i : string) (s : App) :
  authenticated env = true ->
  Obj.get "assessment" r = Some (JObj o) ->
  Obj.get "_id" o = Some (JStr i) -> i <> "" ->
  Obj.get "metrics" o = Some (JObj ms) ->
  exists s',
    loadAssessment env (Fetched (JObj r)) assessmentId s = Returns tt s' /\
    currentAssessmentId s' = Some i /\
    numberInputs (dom s') = restored ms (numberInputs (dom s)) /\
    notices s' = (notices s ++ [SuccessMessage "Assessment loaded successfully"])%list /\
    requestOf env s' = UpdateAssessment i (payloadOf env (dom s')) /\
    requests s' = (requests s ++ [GetAssessment assessmentId])%list.
Proof.
  intros Ha Hr Hi Hne Hm.
  rewrite (load_authenticated env (Fetched (JObj r)) assessmentId s Ha).
  set (s0 := add_request (GetAssessment assessmentId) s).
  unfold tryCatch, restoreAssessment.
  unfold bind at 1, ret at 1, bind at 1, propM at 1. cbn [prop]. rewrite Hr.
  unfold ret at 1, bind at 1, propM at 1. cbn [prop]. rewrite Hi.
  unfold ret at 1, bind at 1, modify at 1.
  assert (Hid : idOf (Some (JStr i)) = Some i).
  { unfold idOf, truthy. destruct (String.eqb_spec i ""); [contradiction|reflexivity]. }
  rewrite Hid. set (s1 := set_currentAssessmentId (Some i) s0).
  unfold bind at 1, propM at 1. cbn [prop].
  unfold ret at 1, bind at 1. unfold bind at 1, gets at 1.
  assert (Hname : exists s2,
    match nameInput (dom s1), Obj.get "employeeName" o with
    | Some _, Some n =>
        if truthy (Obj.get "employeeName" o) then
          modify (set_dom {| numberInputs := numberInputs (dom s1);
                             nameInput := Some (fieldText (Obj.get "employeeName" o)) |}) ;;;
          modify (set_employeeName (text n))
        else ret tt
    | _, _ => ret tt
    end s1 = Returns tt s2 /\
    numberInputs (dom s2) = numberInputs (dom s) /\
    currentAssessmentId s2 = Some i /\ notices s2 = notices s /\
    requests s2 = (requests s ++ [GetAssessment assessmentId])%list).
  { destruct (nameInput (dom s1)); [|exists s1; repeat split].
    destruct (Obj.get "employeeName" o) as [n|]; [|exists s1; repeat split].
    destruct (truthy (Some n)).
    - eexists. split; [reflexivity|]. repeat split.
    - exists s1. repeat split. }
  destruct Hname as (s2 & E2 & F2 & I2 & N2 & R2). rewrite E2.
  unfold bind at 1, propM at 1. cbn [prop]. rewrite Hm.
  unfold ret at 1, bind at 1. cbn [entries].
  destruct (restore_metrics ms s2)
    as (s3 & E3 & F3 & _ & _ & I3 & _ & N3 & _ & R3 & _).
  rewrite E3. unfold bind at 1.
  destruct (updateChart_frame s3) as (s4 & E4 & D4 & _ & I4 & _ & N4 & R4 & _).
  rewrite E4. eexists. split; [reflexivity|]. cbn.
  rewrite D4, I4, N4, R4, F3, I3, N3, R3, F2, I2, N2, R2.
  repeat split. unfold requestOf. cbn. rewrite D4, I4, I3, I2.
  destruct i; [contradiction|reflexivity].
Qed.

End RecordLoad.

Lemma loadAssessment_one_notice_witness :
  exists s',
    ClientRest.loadAssessment env_offline response_sample "64b7f3a2c1" app_fresh
    = Client.Returns tt s' /\
    s' = Client.add_notice (Client.ErrorMessage "Please log in to load assessments")
           app_fresh.
Proof.
  destruct (proj1 (loadAssessment_one_notice env_offline response_sample
                     "64b7f3a2c1" app_fresh))
    as (s' & n & E & _ & _ & _ & _ & Ho & _).
  exists s'. split; [exact E|]. apply Ho. right. left. reflexivity.
Defined.


Lemma loadAssessment_binds_record_witness :
  exists s',
    ClientRest.loadAssessment (env_online "64b7f3a2c1") response_sample "0000000000"
      app_fresh = Client.Returns tt s' /\
    Client.currentAssessmentId s' = Some "64b7f3a2c1" /\
    Client.numberInputs (Client.dom s')
    = restored [("teams", Json.JNum (JS.ofZ 4)); ("sharedVision", Json.JNum (JS.ofZ 2))]
        (Client.numberInputs (Client.dom app_fresh)) /\
    Client.notices s'
    = (Client.notices app_fresh
       ++ [Client.SuccessMessage "Assessment loaded successfully"])%list /\
    requestOf (env_online "64b7f3a2c1") s'
    = Client.UpdateAssessment "64b7f3a2c1"
        (Client.payloadOf (env_online "64b7f3a2c1") (Client.dom s')) /\
    Client.requests s'
    = (Client.requests app_fresh ++ [Client.GetAssessment "0000000000"])%list.
Proof.
  unfold response_sample.
  eapply (loadAssessment_binds_record (env_online "64b7f3a2c1") "0000000000");
    [reflexivity | reflexivity | reflexivity | discriminate | reflexivity].
Defined.


(** ** The validation of a request body *)

Section BodyValidation.
Import JS Client Server.
Variable isISO8601 : string -> bool.

Lemma metricIds_required : Config.metricIds = requiredMetrics.
Proof. reflexivity. Qed.

Lemma isInt_whole (z : Z) :
  isInt_0_5 (Num (ofZ z)) = ((0 <=? z) && (z <=? 5))%bool.
Proof.
  assert (R : Qred (inject_Z z) = inject_Z z).
  { unfold Qred, inject_Z.
    pose proof (Z.ggcd_gcd z 1) as G. pose proof (Z.ggcd_correct_divisors z 1) as D.
    destruct (Z.ggcd z 1) as (g & a & b). cbn [fst snd] in *.
    rewrite Z.gcd_1_r in G. subst g. destruct D as (Da & Db).
    rewrite Z.mul_1_l in Da, Db. now subst a b. }
  unfold isInt_0_5, ofZ. rewrite R. unfold inject_Z, Qle_bool.
  cbn [Qnum Qden Z.eqb Pos.eqb andb]. now rewrite !Z.mul_1_r.
Qed.

Lemma payload_name (env : Env) (d : Dom) :
  trim (p_employeeName (payloadOf env d)) = p_employeeName (payloadOf env d) /\
  p_employeeName (payloadOf env d) <> "".
Proof.
  unfold payloadOf. cbn [p_employeeName].
  destruct (nameInput d) as [v|].
  - destruct (trim v) eqn:E.
    + split; [reflexivity|discriminate].
    + rewrite <- E. split; [apply trim_trim|]. rewrite E. discriminate.
  - split; [reflexivity|discriminate].
Qed.

(** X17. What the client sends on a save passes the server's validation
    exactly when the clock's timestamp is accepted as a date, the name on
    the page has at most 100 characters once trimmed, and the number read
    from every rating field is from 0 to 5.  A rating typed outside the
    scale is sent as typed and the request is refused. *)
Theorem payload_accepted_exactly (env : Env) (d : Dom) :
  pageComplete d ->
  (handleValidationErrors isISO8601 (bodyOf (payloadOf env d)) = None <->
   isISO8601 (now env) = true /\
   (String.length (p_employeeName (payloadOf env d)) <= 100)%nat /\
   (forall i, In i Config.metricIds -> wholeRating (entered d i))).
Proof.
  intro Hpage. rewrite validation_passes_iff.
  destruct (payload_name env d) as (Htrim & Hne).
  assert (Hm : forall k, In k requiredMetrics ->
             bodyMetric k (bodyOf (payloadOf env d)) = Num (entered d k)).
  { intros k Hk. unfold bodyMetric, bodyOf, payloadOf.
    cbn [b_metrics p_metrics]. rewrite (collectFormData_complete d Hpage).
    rewrite map_map. cbn [fst snd].
    now rewrite (get_map_key (fun i => Num (entered d i)) Config.metricIds k Hk). }
  cbn [bodyOf b_employeeName b_assessmentDate validatorText toString].
  rewrite Htrim. split.
  - intros ((_ & Hlen) & Hdate & Hall). split; [|split].
    + destruct Hdate as [Hd|Hd]; [discriminate|exact Hd].
    + exact Hlen.
    + intros i Hi. specialize (Hall i Hi). rewrite (Hm i Hi) in Hall.
      unfold entered in *. destruct (getElementById i d) as [v|].
      * destruct (orElse_integer (Str v)) as (z & Hz). rewrite Hz in *.
        exists z. split; [reflexivity|]. rewrite isInt_whole in Hall. lia.
      * exists 0. split; [reflexivity|lia].
  - intros (Hdate & Hlen & Hall). split; [split; assumption|]. split; [now right|].
    intros k Hk. rewrite (Hm k Hk). destruct (Hall k Hk) as (z & -> & Hz).
    rewrite isInt_whole. lia.
Qed.

End BodyValidation.

Lemma payload_accepted_exactly_witness :
  Server.handleValidationErrors (fun _ => true)
    (bodyOf (Client.payloadOf (env_online "65f0c0ffee") (pageOf "3" "Jane Doe"))) = None
  <->
  true = true /\
  (String.length
     (Client.p_employeeName
        (Client.payloadOf (env_online "65f0c0ffee") (pageOf "3" "Jane Doe"))) <= 100)%nat /\
  (forall i, In i Config.metricIds -> wholeRating (entered (pageOf "3" "Jane Doe") i)).
Proof.
  apply (payload_accepted_exactly (fun _ => true) (env_online "65f0c0ffee")
           (pageOf "3" "Jane Doe")).
  apply pageOf_complete.
Defined.


(** ** Authentication of a request *)

Section AuthenticationProperties.
Import JS ServerRest Json.
Variable verifyToken : string -> verification.
Variable findById : string -> lookup.

(** X18. A request goes on to a controller only with a token that is the
    second word of its authorization header, is not empty, is verified,
    and names a user that exists; what is attached to the request is the
    payload of that token. *)
Theorem authenticateToken_sound (authorization : option string) (payload : TokenPayload) :
  authenticateToken verifyToken findById authorization = Next payload ->
  exists authHeader token,
    authorization = Some authHeader /\
    nth_error (split " " authHeader) 1 = Some token /\ token <> "" /\
    verifyToken token = Verified payload /\
    findById (tp_userId payload) = UserFound.
Proof.
  unfold authenticateToken, tokenOf.
  destruct authorization as [[|c r]|]; try discriminate.
  destruct (nth_error (split " " (String c r)) 1) as [[|c' r']|] eqn:E;
    try discriminate.
  destruct (verifyToken (String c' r')) as [p| | |] eqn:V; try discriminate.
  destruct (findById (tp_userId p)) eqn:F; try discriminate.
  intro H. inversion H. subst p.
  exists (String c r), (String c' r'). repeat split; try assumption. discriminate.
Qed.

Lemma tokenOf_second (scheme rest : string) :
  lacks " " scheme = true ->
  tokenOf (Some (scheme ++ String " " rest))
  = match split " " rest with
    | String c r :: _ => Some (String c r)
    | _ => None
    end.
Proof.
  intro H. unfold tokenOf.
  rewrite (split_app " " scheme rest H). cbn [nth_error].
  destruct scheme; cbn [append]; destruct (split " " rest) as [|[|c r] l]; reflexivity.
Qed.

(** X19. The word before the token is not looked at: a header with any
    scheme in place of [Bearer] is treated as the header with [Bearer]. *)
Theorem authenticateToken_ignores_scheme (scheme rest : string) :
  lacks " " scheme = true ->
  authenticateToken verifyToken findById (Some (scheme ++ String " " rest))
  = authenticateToken verifyToken findById (Some ("Bearer" ++ String " " rest)).
Proof.
  intro H. unfold authenticateToken.
  now rewrite (tokenOf_second scheme rest H), (tokenOf_second "Bearer" rest eq_refl).
Qed.

(** X20. The header the API client builds from a token without a space
    makes the server verify that very token; a client without a token
    sends no header and is answered 401. *)
Theorem client_token_is_verified (token : string) :
  token <> "" -> lacks " " token = true ->
  exists authHeader,
    ApiClient.authorization (Some (JStr token)) = Some authHeader /\
    tokenOf (Some authHeader) = Some token /\
    authenticateToken verifyToken findById (ApiClient.authorization None)
    = Answered 401 "Access token required".
Proof.
  intros Hne Hl. exists ("Bearer" ++ String " " token).
  split; [|split; [|reflexivity]].
  - unfold ApiClient.authorization, truthy.
    destruct (String.eqb_spec token ""); [contradiction|reflexivity].
  - rewrite (tokenOf_second "Bearer" token eq_refl).
    rewrite (split_lacks " " token Hl). destruct token; [contradiction|reflexivity].
Qed.

End AuthenticationProperties.

Lemma authenticateToken_sound_witness :
  exists authHeader token,
    Some "Bearer good" = Some authHeader /\
    nth_error (JS.split " " authHeader) 1 = Some token /\ token <> "" /\
    verify_sample token
    = ServerRest.Verified {| ServerRest.tp_userId := "u1";
                             ServerRest.tp_email := "jane@example.org";
                             ServerRest.tp_role := Some "user" |} /\
    users_sample "u1" = ServerRest.UserFound.
Proof.
  apply (authenticateToken_sound verify_sample users_sample (Some "Bearer good")
           {| ServerRest.tp_userId := "u1"; ServerRest.tp_email := "jane@example.org";
              ServerRest.tp_role := Some "user" |}).
  reflexivity.
Defined.

Lemma authenticateToken_ignores_scheme_witness :
  ServerRest.authenticateToken verify_sample users_sample (Some "Basic good")
  = ServerRest.authenticateToken verify_sample users_sample (Some "Bearer good").
Proof.
  apply (authenticateToken_ignores_scheme verify_sample users_sample "Basic" "good").
  reflexivity.
Defined.

Lemma client_token_is_verified_witness :
  exists authHeader,
    ApiClient.authorization (Some (Json.JStr "good")) = Some authHeader /\
    ServerRest.tokenOf (Some authHeader) = Some "good" /\
    ServerRest.authenticateToken verify_sample users_sample (ApiClient.authorization None)
    = ServerRest.Answered 401 "Access token required".
Proof.
  apply (client_token_is_verified verify_sample users_sample "good").
  - discriminate.
  - reflexivity.
Defined.


(** ** The controllers and the stored documents *)

Section ControllerProperties.
Import JS Server ServerRest.
Variable isObjectId : string -> bool.
Variable castDate : string -> option string.

Lemma findOne_some (db : list Assessment) (id uid : string) (a : Assessment) :
  findOne db id uid = Some a -> In a db /\ _id a = id /\ userId a = uid.
Proof.
  unfold findOne. intro H. apply find_some in H. destruct H as (Hin & Hm).
  apply andb_prop in Hm. destruct Hm as (H1 & H2).
  unfold eqId in *. apply String.eqb_eq in H1, H2. now repeat split.
Qed.


Lemma findOne_app_new (db : list Assessment) (a : Assessment) :
  ~ In (_id a) (map _id db) -> findOne (db ++ [a]) (_id a) (userId a) = Some a.
Proof.
  intro Hfresh. unfold findOne. induction db as [|x r IH].
  - cbn. unfold eqId. now rewrite !String.eqb_refl.
  - cbn [app find]. unfold eqId at 1.
    destruct (String.eqb_spec (_id x) (_id a)) as [E|E].
    + exfalso. apply Hfresh. left. exact E.
    + cbn [andb]. apply IH. intro H. apply Hfresh. now right.
Qed.

(** X22. A document that [createAssessment] reports as created is stored
    after the others, belongs to the caller, has the name trimmed, passes
    the validators of the schema, and is what [getAssessment] then
    serves to the caller under the new identity. *)
Theorem createAssessment_stores (now newId : string) (db db' : list Assessment)
    (uid : string) (u : Update) (a : Assessment) :
  isObjectId newId = true -> ~ In newId (map _id db) ->
  createAssessment isObjectId castDate now newId db uid u = (db', Created a) ->
  db' = (db ++ [a])%list /\ _id a = newId /\ userId a = uid /\
  (exists n, u_employeeName u = Some n /\ employeeName a = trim n) /\
  schemaValid a = true /\
  getAssessment isObjectId db' newId uid = Document a.
Proof.
  intros Hid Hfresh. unfold createAssessment.
  destruct (match u_assessmentDate u with
            | Some (String c r) => castDate (String c r)
            | _ => Some now
            end) as [date|]; [|discriminate].
  cbv zeta.
  set (doc := {| _id := newId; userId := uid; employeeName := _ |}).
  destruct (isObjectId uid) eqn:Hu; cbn [andb]; [|discriminate].
  destruct (schemaValid doc) eqn:Hv; [|discriminate].
  intro H. inversion H. subst db' a. clear H.
  split; [reflexivity|]. split; [reflexivity|]. split; [reflexivity|].
  split.
  { destruct (u_employeeName u) as [n|] eqn:En.
    - exists n. split; reflexivity.
    - exfalso. unfold schemaValid in Hv. subst doc. cbn [employeeName] in Hv.
      discriminate. }
  split; [exact Hv|].
  unfold getAssessment. rewrite Hid, Hu. cbn [andb].
  change (findOne (db ++ [doc]) newId uid)
    with (findOne (db ++ [doc]) (_id doc) (userId doc)).
  now rewrite (findOne_app_new db doc Hfresh).
Qed.

Lemma removeOne_incl (id uid : string) (db : list Assessment) (b : Assessment) :
  In b (removeOne id uid db) -> In b db.
Proof.
  induction db as [|x r IH]; [intros []|]. cbn [removeOne].
  destruct (eqId (_id x) id && eqId (userId x) uid)%bool.
  - intro H. now right.
  - intros [<-|H]; [now left|right; now apply IH].
Qed.



Lemma removeOne_ids (id uid : string) (db : list Assessment) :
  NoDup (map _id db) -> NoDup (map _id (removeOne id uid db)).
Proof.
  induction db as [|x r IH]; [trivial|]. cbn [map removeOne].
  intro Hd. inversion Hd as [|? ? Hx Hr]. subst.
  destruct (eqId (_id x) id && eqId (userId x) uid)%bool; [exact Hr|].
  cbn [map]. constructor; [|now apply IH].
  intro H. apply Hx. apply in_map_iff in H. destruct H as (b & Eb & Hb).
  rewrite <- Eb. apply in_map. now apply (removeOne_incl id uid).
Qed.

Lemma store_ids (a : Assessment) (db : list Assessment) :
  map _id (store a db) = map _id db.
Proof.
  unfold store. rewrite map_map. apply map_ext_in. intros x _.
  unfold eqId. destruct (String.eqb_spec (_id x) (_id a)); congruence.
Qed.

Lemma store_in (a b : Assessment) (db : list Assessment) :
  In b (store a db) -> b = a \/ In b db.
Proof.
  unfold store. intro H. apply in_map_iff in H. destruct H as (x & E & Hx).
  destruct (eqId (_id x) (_id a)); [left; now symmetry|right; now subst].
Qed.

Lemma app_new_ids (db : list Assessment) (a : Assessment) :
  NoDup (map _id db) -> ~ In (_id a) (map _id db) ->
  NoDup (map _id (db ++ [a])).
Proof.
  intros Hd Hf. rewrite map_app. cbn [map].
  apply NoDup_app; [exact Hd | constructor; [intros []|constructor] |].
  intros x Hx [<-|[]]. contradiction.
Qed.

Lemma app_new_valid (db : list Assessment) (a : Assessment) :
  wellFormed db -> schemaValid a = true -> wellFormed (db ++ [a]).
Proof.
  intros Hw Hv. apply Forall_app. split; [exact Hw|]. now constructor.
Qed.

(** What [importFromCSV] does to the store: nothing, or one new document
    that passes the validators, belongs to the caller and has the
    identity given. *)
Lemma import_effect (db : list Assessment) (req : ImportRequest) :
  fst (importFromCSV db req) = db \/
  exists a, fst (importFromCSV db req) = (db ++ [a])%list /\
            schemaValid a = true /\ _id a = newId req /\ userId a = req_userId req.
Proof.
  unfold importFromCSV. destruct (file req) as [csvData|]; [|now left].
  destruct (List.length _ <? 2)%nat; [now left|].
  destruct (negb _ || negb _)%bool; [now left|].
  destruct (parseRows _ [] []) as [m errs].
  destruct (filter _ requiredMetrics); [|now left].
  match goal with |- context [schemaValid ?d] => destruct (schemaValid d) eqn:Hv end;
    [|now left].
  right. eexists. split; [reflexivity|]. split; [exact Hv|]. split; reflexivity.
Qed.

Lemma create_effect (now newId : string) (db : list Assessment) (uid : string)
    (u : Update) :
  fst (createAssessment isObjectId castDate now newId db uid u) = db \/
  exists a, fst (createAssessment isObjectId castDate now newId db uid u) = (db ++ [a])%list /\
            schemaValid a = true /\ _id a = newId /\ userId a = uid.
Proof.
  unfold createAssessment.
  destruct (match u_assessmentDate u with
            | Some (String c r) => castDate (String c r)
            | _ => Some now
            end) as [date|]; [|now left].
  cbv zeta.
  match goal with |- context [schemaValid ?d] => set (doc := d) end.
  destruct (isObjectId uid); cbn [andb]; [|now left].
  destruct (schemaValid doc) eqn:Hv; [|now left].
  right. exists doc. repeat split. exact Hv.
Qed.

Lemma update_effect (now : string) (db : list Assessment) (id uid : string) (u : Update) :
  fst (updateAssessment isObjectId castDate now db id uid u) = db \/
  exists a a', findOne db id uid = Some a /\
     fst (updateAssessment isObjectId castDate now db id uid u) = store a' db /\
     schemaValid a' = true /\ _id a' = _id a /\ userId a' = userId a.
Proof.
  unfold updateAssessment.
  destruct (isObjectId id && isObjectId uid)%bool; [|now left].
  destruct (findOne db id uid) as [a|] eqn:E; [|now left].
  unfold applyUpdate. destruct (assignedDate castDate u a) as [date|]; [|now left].
  match goal with |- context [schemaValid ?d] => destruct (schemaValid d) eqn:Hv end;
    [|now left].
  right. eexists a, _. split; [reflexivity|]. split; [reflexivity|].
  split; [exact Hv|]. split; reflexivity.
Qed.

Lemma delete_effect (db : list Assessment) (id uid : string) :
  fst (deleteAssessment isObjectId db id uid) = db \/
  fst (deleteAssessment isObjectId db id uid) = removeOne id uid db.
Proof.
  unfold deleteAssessment. destruct (isObjectId id && isObjectId uid)%bool; [|now left].
  destruct (findOne db id uid); [now right|now left].
Qed.

(** X24. No controller stores a document that fails the validators of the
    schema, or an identity twice: if every stored document is valid and
    the identities are distinct, they are so after a create or an import
    under a fresh identity, after an update and after a delete, whatever
    the request holds. *)
Theorem controllers_keep_store_sound (now : string) (db : list Assessment) (uid : string) :
  wellFormed db -> distinctIds db ->
  (forall fresh u, ~ In fresh (map _id db) ->
     let db' := fst (createAssessment isObjectId castDate now fresh db uid u) in
     wellFormed db' /\ distinctIds db') /\
  (forall req, ~ In (newId req) (map _id db) ->
     let db' := fst (importFromCSV db req) in wellFormed db' /\ distinctIds db') /\
  (forall id u,
     let db' := fst (updateAssessment isObjectId castDate now db id uid u) in
     wellFormed db' /\ distinctIds db') /\
  (forall id,
     let db' := fst (deleteAssessment isObjectId db id uid) in
     wellFormed db' /\ distinctIds db').
Proof.
  intros Hw Hd. unfold distinctIds in *. split; [|split; [|split]].
  - intros fresh u Hf. cbv zeta.
    destruct (create_effect now fresh db uid u) as [->|(a & -> & Hv & Ha & _)];
      [now split|].
    split; [now apply app_new_valid | apply app_new_ids; [exact Hd | now rewrite Ha]].
  - intros req Hf. cbv zeta.
    destruct (import_effect db req) as [->|(a & -> & Hv & Ha & _)]; [now split|].
    split; [now apply app_new_valid | apply app_new_ids; [exact Hd | now rewrite Ha]].
  - intros id u. cbv zeta.
    destruct (update_effect now db id uid u) as [->|(a & a' & _ & -> & Hv & _)];
      [now split|].
    split; [|now rewrite store_ids].
    apply Forall_forall. intros b Hb. apply store_in in Hb.
    destruct Hb as [->|Hb]; [exact Hv|].
    unfold wellFormed in Hw. rewrite Forall_forall in Hw. now apply Hw.
  - intros id. cbv zeta.
    destruct (delete_effect db id uid) as [->| ->]; [now split|].
    split; [|now apply removeOne_ids].
    apply Forall_forall. intros b Hb. apply removeOne_incl in Hb.
    unfold wellFormed in Hw. rewrite Forall_forall in Hw. now apply Hw.
Qed.

Lemma removeOne_others (id uid : string) (db : list Assessment) (b : Assessment) :
  userId b <> uid -> (In b db <-> In b (removeOne id uid db)).
Proof.
  intro Hb. induction db as [|x r IH]; [reflexivity|]. cbn [removeOne].
  destruct (eqId (_id x) id && eqId (userId x) uid)%bool eqn:Em.
  - apply andb_prop in Em. destruct Em as (_ & E2).
    unfold eqId in E2. apply String.eqb_eq in E2. split.
    + intros [<-|H]; [contradiction|exact H].
    + intro H. now right.
  - cbn [In]. now rewrite IH.
Qed.

(** X25. A request of one user leaves the documents of every other user
    as they are: none is changed, removed or added by a create, an
    import, an update or a delete of the caller. *)
Theorem controllers_keep_others (now : string) (db : list Assessment) (uid : string) :
  distinctIds db ->
  (forall fresh u,
     othersKept uid db (fst (createAssessment isObjectId castDate now fresh db uid u))) /\
  (forall req, req_userId req = uid -> othersKept uid db (fst (importFromCSV db req))) /\
  (forall id u, othersKept uid db (fst (updateAssessment isObjectId castDate now db id uid u))) /\
  (forall id, othersKept uid db (fst (deleteAssessment isObjectId db id uid))).
Proof.
  intro Hd. unfold othersKept. split; [|split; [|split]].
  - intros fresh u b Hb.
    destruct (create_effect now fresh db uid u) as [->|(x & -> & _ & _ & Hx)];
      [reflexivity|].
    split; [intro H; apply in_or_app; now left|].
    intro H. apply in_app_or in H.
    destruct H as [H|[<-|[]]]; [exact H|contradiction].
  - intros req Hreq b Hb.
    destruct (import_effect db req) as [->|(x & -> & _ & _ & Hx)]; [reflexivity|].
    split; [intro H; apply in_or_app; now left|].
    intro H. apply in_app_or in H.
    destruct H as [H|[<-|[]]]; [exact H|congruence].
  - intros id u b Hb.
    destruct (update_effect now db id uid u) as [->|(x & x' & Hf & -> & _ & Hi & Hu)];
      [reflexivity|].
    apply findOne_some in Hf. destruct Hf as (Hx & Hxi & Hxu).
    split.
    + intro Hin. apply store_other; [exact Hin|].
      intro E. rewrite Hi in E.
      assert (b = x); [|subst; contradiction].
      clear - Hd Hin Hx E. unfold distinctIds in Hd.
      induction db as [|y r IH]; [destruct Hin|].
      cbn [map] in Hd. inversion Hd as [|? ? Hy Hr]. subst.
      destruct Hin as [->|Hin], Hx as [->|Hx]; try reflexivity.
      * exfalso. apply Hy. rewrite E. now apply in_map.
      * exfalso. apply Hy. rewrite <- E. now apply in_map.
      * now apply IH.
    + intro Hin. apply store_in in Hin. destruct Hin as [->|Hin]; [|exact Hin].
      congruence.
  - intros id b Hb.
    destruct (delete_effect db id uid) as [->| ->]; [reflexivity|].
    now apply removeOne_others.
Qed.

End ControllerProperties.


Lemma db_two_distinct : distinctIds db_two.
Proof.
  unfold distinctIds, db_two. cbn [map].
  constructor; [|constructor; [intros []|constructor]].
  intros [H|[]]. discriminate H.
Defined.

Lemma db_two_wellFormed : wellFormed db_two.
Proof.
  unfold wellFormed, db_two.
  constructor; [reflexivity|]. constructor; [reflexivity|]. constructor.
Defined.


Lemma createAssessment_stores_witness :
  [assessment_jane; assessment_john; assessment_ann] = (db_two ++ [assessment_ann])%list /\
  Server._id assessment_ann = "65f0c0ffbb" /\ Server.userId assessment_ann = "u1" /\
  (exists n, Server.u_employeeName update_full = Some n /\
             Server.employeeName assessment_ann = JS.trim n) /\
  Server.schemaValid assessment_ann = true /\
  ServerRest.getAssessment castAny [assessment_jane; assessment_john; assessment_ann]
    "65f0c0ffbb" "u1" = ServerRest.Document assessment_ann.
Proof.
  apply (createAssessment_stores castAny castSample "2024-03-11T08:00:00.000Z" "65f0c0ffbb"
           db_two [assessment_jane; assessment_john; assessment_ann] "u1" update_full
           assessment_ann).
  - reflexivity.
  - cbn. intros [H|[H|[]]]; discriminate H.
  - reflexivity.
Defined.


Lemma controllers_keep_store_sound_witness :
  wellFormed (fst (ServerRest.deleteAssessment castAny db_two "65f0c0ffee" "u1")) /\
  distinctIds (fst (ServerRest.deleteAssessment castAny db_two "65f0c0ffee" "u1")).
Proof.
  exact (proj2 (proj2 (proj2
           (controllers_keep_store_sound castAny castSample "2024-03-11T08:00:00.000Z"
              db_two "u1" db_two_wellFormed db_two_distinct)))
           "65f0c0ffee").
Defined.

Lemma controllers_keep_others_witness :
  othersKept "u1" db_two
    (fst (Server.updateAssessment castAny castSample "2024-03-11T08:00:00.000Z" db_two
            "65f0c0ffee" "u1"
            update_name_only)).
Proof.
  exact (proj1 (proj2 (proj2
           (controllers_keep_others castAny castSample "2024-03-11T08:00:00.000Z"
              db_two "u1" db_two_distinct)))
           "65f0c0ffee" update_name_only).
Defined.


(** ** What an import stores *)

Section ImportStores.
Import JS Server ServerRest.

Lemma whole_of_bounds (z : Z) :
  ltb (ofZ z) (ofZ 0) = false -> ltb (ofZ 5) (ofZ z) = false -> 0 <= z <= 5.
Proof.
  unfold ltb, ofZ. intros H0 H5.
  apply Qltb_false in H0, H5. unfold Qle, inject_Z in H0, H5.
  cbn [Qnum Qden] in H0, H5. lia.
Qed.

Lemma parseRows_whole (lines : list string) (m : list (string * jsnum))
    (errs : list string) :
  (forall k v, Obj.get k m = Some v -> wholeRating v) ->
  forall k v, Obj.get k (fst (parseRows lines m errs)) = Some v -> wholeRating v.
Proof.
  revert m errs. induction lines as [|raw rest IH]; intros m errs Hm; [exact Hm|].
  cbn [parseRows]. destruct (trim raw) as [|c r]; [now apply IH|].
  set (cells := map trim (split "," (String c r))).
  set (rating := match nth_error cells 1 with Some x => Str x | None => Undefined end).
  destruct (isNaN (parseInt rating) || ltb (parseInt rating) (ofZ 0)
            || ltb (ofZ 5) (parseInt rating))%bool eqn:Ec; [now apply IH|].
  apply IH. intros k v. rewrite get_set.
  destruct (String.eqb k (nth 0 cells "")); [|apply Hm].
  intro H. inversion H. subst v.
  apply orb_false_iff in Ec. destruct Ec as (Ec & E5).
  apply orb_false_iff in Ec. destruct Ec as (En & E0).
  destruct (parseInt_integer rating) as [Hn|(z & Hz)].
  - rewrite Hn in En. discriminate.
  - rewrite Hz in *. exists z. split; [reflexivity|]. now apply whole_of_bounds.
Qed.

Lemma cast_present (m : list (string * jsnum)) (l : list string) :
  (forall k, In k l -> Obj.get k m <> None) ->
  flat_map (fun k => match Obj.get k m with
                     | Some v => [(k, v)]
                     | None => []
                     end) l
  = map (fun k => (k, field k m)) l.
Proof.
  induction l as [|k r IH]; intro H; [reflexivity|].
  cbn [flat_map map]. rewrite IH by (intros; apply H; now right).
  unfold field. specialize (H k (or_introl eq_refl)).
  now destruct (Obj.get k m).
Qed.

Lemma filter_none {A} (f : A -> bool) (l : list A) :
  filter f l = [] -> forall x, In x l -> f x = false.
Proof.
  induction l as [|y r IH]; [intros _ x []|]. cbn [filter].
  destruct (f y) eqn:E; [discriminate|].
  intros H x [<-|Hx]; [exact E|now apply IH].
Qed.

(** X26. A document that [importFromCSV] reports as created is stored
    after the others under the identity given, belongs to the caller, and
    holds the nineteen metrics of the schema, in the order of the schema,
    each a whole number from 0 to 5, whatever the file holds. *)
Theorem importFromCSV_stores_whole_ratings (db db' : list Assessment)
    (req : ImportRequest) (a : Assessment) (errors : list string) :
  importFromCSV db req = (db', Status201 a errors) ->
  db' = (db ++ [a])%list /\ _id a = newId req /\ userId a = req_userId req /\
  Obj.keys (metrics a) = requiredMetrics /\
  (forall k, In k requiredMetrics -> wholeRating (field k (metrics a))).
Proof.
  unfold importFromCSV. destruct (file req) as [csvData|]; [|discriminate].
  destruct (List.length _ <? 2)%nat; [discriminate|].
  destruct (negb _ || negb _)%bool; [discriminate|].
  pose proof (parseRows_whole (tl (split (ascii_of_nat 10) (trim csvData))) [] []) as Hw.
  destruct (parseRows _ [] []) as [m errs]. cbn [fst] in Hw.
  destruct (filter _ requiredMetrics) eqn:Ef; [|discriminate].
  match goal with |- context [schemaValid ?d] => destruct (schemaValid d) end;
    [|discriminate].
  intro H. inversion H. subst db' errors. clear H. cbn [_id userId metrics].
  assert (Hp : forall k, In k requiredMetrics -> Obj.get k m <> None).
  { intros k Hk. pose proof (filter_none _ _ Ef k Hk) as Hf. cbv beta in Hf.
    destruct (Obj.get k m); [discriminate|discriminate Hf]. }
  unfold castMetrics. rewrite (cast_present m requiredMetrics Hp).
  split; [reflexivity|]. split; [reflexivity|]. split; [reflexivity|].
  split.
  - unfold Obj.keys. rewrite map_map. cbn [fst]. apply map_id.
  - intros k Hk. unfold field at 1.
    rewrite (get_map_key (fun k => field k m) requiredMetrics k Hk).
    unfold field. specialize (Hp k Hk).
    destruct (Obj.get k m) as [v|] eqn:E; [|contradiction].
    apply Hw with (k := k); [intros ? ? X; discriminate X | exact E].
Qed.

End ImportStores.

Lemma importFromCSV_stores_whole_ratings_witness :
  exists a,
    [assessment_jane; a] = ([assessment_jane] ++ [a])%list /\
    Server._id a = Server.newId (importRequest (importFile "teams" "4.9" [])) /\
    Server.userId a = Server.req_userId (importRequest (importFile "teams" "4.9" [])) /\
    Obj.keys (Server.metrics a) = Server.requiredMetrics /\
    (forall k, In k Server.requiredMetrics ->
               wholeRating (Server.field k (Server.metrics a))).
Proof.
  eexists.
  eapply (importFromCSV_stores_whole_ratings [assessment_jane] _
            (importRequest (importFile "teams" "4.9" []))).
  vm_compute. reflexivity.
Defined.


(** ** The export of one document, and its import *)

Section ServerExport.
Import JS Server ServerRest.
Variable r : string -> Z.
Hypothesis Hr : forall i, In i Config.metricIds -> 0 <= r i <= 5.

Lemma export_text (entries : list (string * jsnum)) (start : string) :
  fold_left (fun csv kv =>
               csv ++ fst kv ++ "," ++ numberToString (snd kv)
                   ++ String (ascii_of_nat 10) "")
            entries start
  = fold_left (fun csvContent kv =>
                 csvContent ++ fst kv ++ "," ++ snd kv ++ String (ascii_of_nat 10) "")
              (map (fun kv => (fst kv, numberToString (snd kv))) entries) start.
Proof.
  revert start. induction entries as [|kv rest IH]; intro start; [reflexivity|].
  cbn [fold_left map fst snd]. apply IH.
Qed.

Lemma small_rating (z : Z) :
  0 <= z <= 5 ->
  parseInt (Str (shown z)) = ofZ z /\
  (isNaN (ofZ z) || ltb (ofZ z) (ofZ 0) || ltb (ofZ 5) (ofZ z))%bool = false /\
  (Qle_bool 0 (inject_Z z) && Qle_bool (inject_Z z) 5)%bool = true.
Proof.
  intro Hz.
  assert (C : z = 0 \/ z = 1 \/ z = 2 \/ z = 3 \/ z = 4 \/ z = 5) by lia.
  destruct C as [->|[->|[->|[->|[->| ->]]]]]; repeat split; reflexivity.
Qed.

Lemma parseRows_rows (ids : list string) (m : list (string * jsnum))
    (errs : list string) :
  incl ids Config.metricIds ->
  parseRows (rowsOf r ids) m errs
  = (fold_left (fun m i => Obj.set i (ofZ (r i)) m) ids m, errs).
Proof.
  revert m. induction ids as [|i rest IH]; intros m Hsub; [reflexivity|].
  assert (Hi : In i Config.metricIds) by (apply Hsub; now left).
  pose proof (Hr i Hi) as Hz.
  unfold rowsOf. cbn [map parseRows fold_left].
  rewrite (row_trim i (r i) Hi Hz).
  pose proof (row_cells i (r i) Hi Hz) as Hc. unfold rowCells in Hc.
  rewrite (row_trim i (r i) Hi Hz) in Hc.
  destruct (rowText (i, shown (r i))) as [|c s] eqn:Et.
  { exfalso. unfold rowText in Et. cbn [fst] in Et.
    pose proof (metricIds_clean i Hi) as Hk. destruct i; discriminate. }
  rewrite Hc. cbn [nth nth_error].
  destruct (small_rating (r i) Hz) as (Hp & Hb & _). rewrite Hp, Hb.
  apply (IH (Obj.set i (ofZ (r i)) m)). intros x Hx. apply Hsub. now right.
Qed.

Lemma mapping_cast : castMetrics (mappingOf r) = mappingOf r.
Proof.
  unfold castMetrics. rewrite cast_present.
  - unfold mappingOf. rewrite <- metricIds_required. apply map_ext_in.
    intros k Hk. unfold field.
    now rewrite (get_map_key (fun i => ofZ (r i)) Config.metricIds k Hk).
  - intros k Hk. unfold mappingOf. rewrite <- metricIds_required in Hk.
    now rewrite (get_map_key (fun i => ofZ (r i)) Config.metricIds k Hk).
Qed.

Lemma mapping_valid (k : string) :
  In k requiredMetrics -> metricValid (mappingOf r) k = true.
Proof.
  intro Hk. rewrite <- metricIds_required in Hk. unfold metricValid, mappingOf.
  rewrite (get_map_key (fun i => ofZ (r i)) Config.metricIds k Hk).
  unfold ofZ. now destruct (small_rating (r k) (Hr k Hk)) as (_ & _ & ->).
Qed.

(** X27. The file the server exports for one document whose ratings are
    whole numbers of the scale is, character for character, the file the
    page writes for the same ratings; and importing that file on the
    server stores a new document with the same metrics and reports no
    error line. *)
Theorem export_then_import (today : string) (a : Assessment)
    (db : list Assessment) (req : ImportRequest) :
  metrics a = mappingOf r ->
  body_employeeName req = "" \/ trim (body_employeeName req) <> "" ->
  exists filename csv,
    exportOf today [a] = Csv filename csv /\
    csv = Client.csvOf (fieldsOf r) /\
    (file req = Some csv ->
     exists a', importFromCSV db req = ((db ++ [a'])%list, Status201 a' []) /\
                metrics a' = metrics a /\ userId a' = req_userId req).
Proof.
  intros Hm Hname. eexists _, _. split; [reflexivity|].
  assert (Hcsv : fold_left (fun csv kv =>
                   csv ++ fst kv ++ "," ++ numberToString (snd kv)
                       ++ String (ascii_of_nat 10) "")
                 (metrics a) ("Categories,Ratings" ++ String (ascii_of_nat 10) "")
               = Client.csvOf (fieldsOf r)).
  { rewrite export_text, Hm. unfold Client.csvOf, fieldsOf, mappingOf.
    now rewrite map_map. }
  split; [exact Hcsv|]. rewrite Hcsv. intro Hfile.
  unfold importFromCSV. rewrite Hfile.
  change (split (ascii_of_nat 10) (trim (Client.csvOf (fieldsOf r))))
    with (linesOf (Client.csvOf (fieldsOf r))).
  rewrite (linesOf_csvOf (fieldsOf r) (rows_shape r Hr)).
  change (map rowText (fieldsOf r)) with (rowsOf r Config.metricIds).
  assert (Hlen : (List.length ("Categories,Ratings" :: rowsOf r Config.metricIds) <? 2)%nat
                 = false).
  { unfold rowsOf. cbn [List.length]. rewrite !length_map. reflexivity. }
  rewrite Hlen. cbn [hd tl].
  assert (Hh : (negb (includes "categories" (toLowerCase "Categories,Ratings"))
                || negb (includes "ratings" (toLowerCase "Categories,Ratings")))%bool
               = false) by reflexivity.
  rewrite Hh.
  rewrite (parseRows_rows Config.metricIds [] [] (incl_refl _)).
  rewrite (fold_set_fresh (fun i => ofZ (r i)) Config.metricIds [] metricIds_NoDup)
    by (intros i _ []).
  cbn [app]. change (map (fun i => (i, ofZ (r i))) Config.metricIds) with (mappingOf r).
  assert (Hnone : filter (fun metric => match Obj.get metric (mappingOf r) with
                                        | None => true
                                        | Some _ => false
                                        end) requiredMetrics = []).
  { assert (G : forall l, incl l Config.metricIds ->
               filter (fun metric => match Obj.get metric (mappingOf r) with
                                     | None => true
                                     | Some _ => false
                                     end) l = []).
    { induction l as [|k rest IH]; intro Hsub; [reflexivity|]. cbn [filter].
      unfold mappingOf at 1.
      rewrite (get_map_key (fun i => ofZ (r i)) Config.metricIds k)
        by (apply Hsub; now left).
      apply IH. intros x Hx. apply Hsub. now right. }
    apply G. rewrite metricIds_required. apply incl_refl. }
  rewrite Hnone. rewrite mapping_cast.
  set (name := trim match body_employeeName req with
                    | EmptyString => "Unknown"
                    | String c s => String c s
                    end).
  assert (Hn : name <> "").
  { subst name. destruct Hname as [->|Hn]; [discriminate|].
    destruct (body_employeeName req); [discriminate|exact Hn]. }
  assert (Hv : schemaValid {| _id := newId req; userId := req_userId req;
                              employeeName := name; assessmentDate := Server.today req;
                              metrics := mappingOf r; createdAt := Server.today req;
                              updatedAt := Server.today req; version := 1 |} = true).
  { unfold schemaValid. cbn [employeeName metrics].
    destruct (String.eqb_spec name ""); [contradiction|]. cbn [negb andb].
    apply forallb_forall. intros k Hk. now apply mapping_valid. }
  rewrite Hv. eexists. split; [reflexivity|]. cbn [metrics userId].
  split; [now symmetry|reflexivity].
Qed.

End ServerExport.

Lemma export_then_import_witness :
  exists filename csv,
    ServerRest.exportOf "2024-03-11T08:00:00.000Z" [assessment_jane]
    = ServerRest.Csv filename csv /\
    csv = Client.csvOf (fieldsOf (fun _ => 3)) /\
    (Server.file (importRequest (Client.csvOf (fieldsOf (fun _ => 3)))) = Some csv ->
     exists a',
       Server.importFromCSV db_two (importRequest (Client.csvOf (fieldsOf (fun _ => 3))))
       = ((db_two ++ [a'])%list, Server.Status201 a' []) /\
       Server.metrics a' = Server.metrics assessment_jane /\
       Server.userId a'
       = Server.req_userId (importRequest (Client.csvOf (fieldsOf (fun _ => 3))))).
Proof.
  apply (export_then_import (fun _ => 3) (fun _ _ => conj (proj1 (Z.leb_le 0 3) eq_refl)
                                           (proj1 (Z.leb_le 3 5) eq_refl))).
  - reflexivity.
  - right. discriminate.
Defined.


(** ** The client against the server *)

Section ClientAgainstServer.
Import JS Json.



Lemma get_removeItem (k k' : string) (l : list (string * string)) :
  Obj.get k (ApiClient.removeItem k' l)
  = if String.eqb k k' then None else Obj.get k l.
Proof.
  unfold ApiClient.removeItem. induction l as [|[x v] r IH].
  - cbn. now destruct (String.eqb k k').
  - cbn [filter fst]. destruct (String.eqb_spec x k') as [->|Hx]; cbn [negb].
    + rewrite IH. cbn [Obj.get]. destruct (String.eqb_spec k k'); reflexivity.
    + cbn [Obj.get]. rewrite IH.
      destruct (String.eqb_spec k x) as [->|Hk]; [|reflexivity].
      destruct (String.eqb_spec x k'); [contradiction|reflexivity].
Qed.

(** X30. [logout] clears the session whether or not its request goes
    through: the token is dropped, the stored token, user and saved
    assessment are removed, every other stored item is kept, and the
    call rejects exactly when the request did. *)
Theorem logout_always_clears (fetched : string + ApiClient.Response)
    (s : ApiClient.Session) :
  let s' := fst (ApiClient.logout fetched s) in
  ApiClient.token s' = Some JNull /\
  ApiClient.authorization (ApiClient.token s') = None /\
  (forall k, Obj.get k (ApiClient.storage s')
             = if (String.eqb k "authToken" || String.eqb k "user"
                   || String.eqb k "performanceAssessment")%bool
               then None else Obj.get k (ApiClient.storage s)) /\
  (snd (ApiClient.logout fetched s) = None <->
   forall message, ApiClient.request fetched <> ApiClient.Thrown message).
Proof.
  cbv zeta. unfold ApiClient.logout.
  assert (Hs : fst (match ApiClient.request fetched with
                    | ApiClient.Thrown m =>
                        ({| ApiClient.token := Some JNull;
                            ApiClient.storage :=
                              ApiClient.removeItem "performanceAssessment"
                                (ApiClient.removeItem "user"
                                   (ApiClient.removeItem "authToken" (ApiClient.storage s))) |},
                         Some m)
                    | _ =>
                        ({| ApiClient.token := Some JNull;
                            ApiClient.storage :=
                              ApiClient.removeItem "performanceAssessment"
                                (ApiClient.removeItem "user"
                                   (ApiClient.removeItem "authToken" (ApiClient.storage s))) |},
                         None)
                    end)
               = {| ApiClient.token := Some JNull;
                    ApiClient.storage :=
                      ApiClient.removeItem "performanceAssessment"
                        (ApiClient.removeItem "user"
                           (ApiClient.removeItem "authToken" (ApiClient.storage s))) |}).
  { now destruct (ApiClient.request fetched). }
  rewrite Hs. cbn [ApiClient.token ApiClient.storage].
  split; [reflexivity|]. split; [reflexivity|]. split.
  - intro k. rewrite !get_removeItem.
    destruct (String.eqb k "authToken"), (String.eqb k "user"),
      (String.eqb k "performanceAssessment"); reflexivity.
  - destruct (ApiClient.request fetched) as [d|raw|m]; cbn [snd]; split;
      try discriminate; try reflexivity.
    intro H. now specialize (H m).
Qed.

End ClientAgainstServer.



(** ** The session: saves that overlap *)

Section Preservation.
Import JS Client.

Variable P : App -> App -> Prop.
Hypothesis P_refl : forall s, P s s.
Hypothesis P_trans : forall s1 s2 s3, P s1 s2 -> P s2 s3 -> P s1 s3.

Lemma preserves_ret {A} (a : A) : preserves P (ret a).
Proof. intro s. apply P_refl. Qed.

Lemma preserves_throw {A} (e : exn) : preserves P (@throw A e).
Proof. intro s. apply P_refl. Qed.

Lemma preserves_gets {A} (f : App -> A) : preserves P (gets f).
Proof. intro s. apply P_refl. Qed.

Lemma preserves_modify (f : App -> App) :
  (forall s, P s (f s)) -> preserves P (modify f).
Proof. intros H s. apply H. Qed.

Lemma preserves_bind {A B} (m : M A) (k : A -> M B) :
  preserves P m -> (forall a, preserves P (k a)) -> preserves P (bind m k).
Proof.
  intros Hm Hk s. unfold bind. specialize (Hm s).
  destruct (m s) as [a s1 | e s1]; cbn [stateOf] in *.
  - eapply P_trans; [exact Hm | apply Hk].
  - exact Hm.
Qed.

Lemma preserves_tryCatch {A} (m : M A) (h : exn -> M A) :
  preserves P m -> (forall e, preserves P (h e)) -> preserves P (tryCatch m h).
Proof.
  intros Hm Hh s. unfold tryCatch. specialize (Hm s).
  destruct (m s) as [a s1 | e s1]; cbn [stateOf] in *.
  - exact Hm.
  - eapply P_trans; [exact Hm | apply Hh].
Qed.

Lemma preserves_forEach {A} (l : list A) (body : A -> M unit) :
  (forall x, preserves P (body x)) -> preserves P (forEach l body).
Proof.
  intro H. induction l as [|x r IH]; cbn [forEach].
  - apply preserves_ret.
  - apply preserves_bind; [apply H | intros _; exact IH].
Qed.

End Preservation.

Section SessionFrames.
Import JS Client Json ClientRest Session.

Lemma keeps_refl (s : App) : keeps s s.
Proof. split; reflexivity. Qed.

Lemma keeps_trans (s1 s2 s3 : App) : keeps s1 s2 -> keeps s2 s3 -> keeps s1 s3.
Proof. unfold keeps. intros [A1 A2] [B1 B2]. split; congruence. Qed.

Lemma sends_refl (i : string) (s : App) : sends i s s.
Proof.
  intros _. split; [reflexivity|]. exists []. split; [now rewrite app_nil_r | constructor].
Qed.

Lemma sends_trans (i : string) (s1 s2 s3 : App) :
  sends i s1 s2 -> sends i s2 s3 -> sends i s1 s3.
Proof.
  intros H12 H23 Hb. destruct (H12 Hb) as (I1 & l1 & R1 & F1).
  destruct H23 as (I2 & l2 & R2 & F2); [now rewrite I1|].
  split; [congruence|]. exists (l1 ++ l2)%list. split.
  - now rewrite R2, R1, app_assoc.
  - now apply Forall_app.
Qed.

Lemma keeps_sends (i : string) (s s' : App) : keeps s s' -> sends i s s'.
Proof.
  intros [I R] _. split; [exact I|]. exists []. split; [now rewrite app_nil_r | constructor].
Qed.

Lemma preserves_keeps_sends {A} (i : string) (m : M A) :
  preserves keeps m -> preserves (sends i) m.
Proof. intros H s. apply keeps_sends, H. Qed.

(** Statements built from what changes neither the identity nor the
    requests. *)
Ltac keeping :=
  unfold showErrorMessage, showSuccessMessage, console_log, console_warn, console_error;
  repeat first
    [ apply preserves_ret; exact keeps_refl
    | apply preserves_throw; exact keeps_refl
    | apply preserves_gets; exact keeps_refl
    | apply preserves_modify; intro; split; reflexivity
    | apply (preserves_bind keeps keeps_trans); [|intro]
    | apply (preserves_tryCatch keeps keeps_trans); [|intro]
    | apply (preserves_forEach keeps keeps_refl keeps_trans); intro
    | match goal with
      | |- preserves keeps (match ?x with _ => _ end) => destruct x
      end ].

Lemma updateChart_keeps : preserves keeps updateChart.
Proof. unfold updateChart. keeping. Qed.

Lemma saveToLocalStorage_keeps (env : Env) : preserves keeps (saveToLocalStorage env).
Proof. unfold saveToLocalStorage. keeping. Qed.

Lemma ratingInput_keeps (i v : string) : preserves keeps (ratingInput i v).
Proof. unfold ratingInput. keeping. Qed.

Lemma nameInputListener_keeps (v : string) : preserves keeps (nameInputListener v).
Proof. unfold nameInputListener. keeping. Qed.

Lemma saveToCSV_keeps (env : Env) : preserves keeps (saveToCSV env).
Proof. unfold saveToCSV. keeping. Qed.

Lemma clearAll_keeps : preserves keeps clearAll.
Proof. unfold clearAll. keeping; apply updateChart_keeps. Qed.

Lemma loadRow_keeps (rawLine : string) : preserves keeps (loadRow rawLine).
Proof. unfold loadRow. keeping. Qed.

Lemma loadRows_keeps (rows : list string) (n : nat) : preserves keeps (loadRows rows n).
Proof.
  revert n. induction rows as [|r rest IH]; intro n; cbn [loadRows].
  - keeping.
  - apply (preserves_bind keeps keeps_trans); [apply loadRow_keeps | intro; apply IH].
Qed.

Lemma parseAndLoadCSV_keeps (env : Env) (csv : string) :
  preserves keeps (parseAndLoadCSV env csv).
Proof.
  unfold parseAndLoadCSV. cbv zeta.
  keeping; first [apply loadRows_keeps | apply updateChart_keeps
                 | apply saveToLocalStorage_keeps].
Qed.

Lemma loadFromCSV_onload_keeps (env : Env) (result : string) :
  preserves keeps (loadFromCSV_onload env result).
Proof. unfold loadFromCSV_onload. keeping. apply parseAndLoadCSV_keeps. Qed.

Lemma logout_resumed_keeps (r : reply) : preserves keeps (authManager_logout_resumed r).
Proof. unfold authManager_logout_resumed. keeping. Qed.

Lemma saveFailed_keeps (env : Env) (error : exn) : preserves keeps (saveFailed env error).
Proof. unfold saveFailed. keeping; apply saveToLocalStorage_keeps. Qed.

(** The request of an update that settles, however it does. *)
Lemma update_resumed_keeps (env : Env) (i : string) (data : Payload) (r : reply) :
  preserves keeps (saveToMongoDB_resumed env (UpdateAssessment i data) r).
Proof.
  unfold saveToMongoDB_resumed.
  keeping; first [apply saveToLocalStorage_keeps | apply saveFailed_keeps].
Qed.

(** While [i] is bound, the call of a save sends an update of [i], or
    starts a logout. *)
Lemma called_sends (env : Env) (i : string) :
  preserves (sends i) (saveToMongoDB_called env).
Proof.
  intros s Hb. destruct (authenticated env) eqn:Ha.
  - rewrite (called_authenticated env s Ha). cbn [stateOf]. split; [reflexivity|].
    exists [requestOf env s]. split; [reflexivity|].
    constructor; [|constructor]. right. unfold requestOf. rewrite Hb. now eexists.
  - rewrite (called_unauthenticated env s Ha), (save_unauthenticated env s Ha).
    cbn [stateOf]. destruct (refusal_frame env s) as (_ & _ & _ & I & _ & _ & _ & R).
    split; [exact I|]. cbn [requests set_localStorage add_log].
    destruct R as [-> | ->].
    + exists []. split; [now rewrite app_nil_r | constructor].
    + exists [Logout]. split; [reflexivity|]. constructor; [now left | constructor].
Qed.

Lemma handler_sends (e : event) (i : string) :
  calm e = true -> preserves (sends i) (handler e).
Proof.
  destruct e; cbn [calm handler]; intro Hc; try discriminate.
  - apply preserves_keeps_sends, ratingInput_keeps.
  - apply preserves_keeps_sends, nameInputListener_keeps.
  - unfold debouncedUpdate.
    apply (preserves_bind (sends i) (sends_trans i)).
    + apply preserves_keeps_sends, updateChart_keeps.
    + intros _. apply called_sends.
  - apply called_sends.
  - apply called_sends.
  - apply preserves_keeps_sends, saveToCSV_keeps.
  - apply preserves_keeps_sends, loadFromCSV_onload_keeps.
  - apply preserves_keeps_sends, clearAll_keeps.
  - apply (preserves_ret (sends i) (sends_refl i)).
Qed.

Lemma resumed_keeps (env : Env) (i : string) (c : apiCall) (a : answer) (code : M unit) :
  writesTo i c -> resumed env c a = Some code -> preserves keeps code.
Proof.
  intros [-> | (data & ->)] H; destruct a as [r|response]; cbn [resumed] in H;
    try discriminate; inversion H; subst.
  - apply logout_resumed_keeps.
  - apply update_resumed_keeps.
Qed.

Lemma skipn_length_app {A} (l l' : list A) : skipn (List.length l) (l ++ l') = l'.
Proof. induction l as [|x r IH]; [reflexivity | exact IH]. Qed.

Lemma Forall_removeNth {A} (Q : A -> Prop) (n : nat) (l : list A) :
  Forall Q l -> Forall Q (removeNth n l).
Proof.
  revert n. induction l as [|x r IH]; intros n H; [destruct n; constructor|].
  inversion H; subst. destruct n; cbn [removeNth]; [assumption|].
  constructor; [assumption | now apply IH].
Qed.

(** One event while [i] is bound and nothing in flight can bind another
    identity. *)
Lemma step_bound (e : event) (x : Running) (i : string) :
  calm e = true ->
  boundId (currentAssessmentId (app x)) = Some i ->
  Forall (writesTo i) (inFlight x) ->
  currentAssessmentId (app (step e x)) = currentAssessmentId (app x) /\
  Forall (writesTo i) (inFlight (step e x)) /\
  exists sent, requests (app (step e x)) = (requests (app x) ++ sent)%list /\
               Forall (writesTo i) sent.
Proof.
  intros Hc Hb Hf.
  assert (Hsame : currentAssessmentId (app x) = currentAssessmentId (app x) /\
            Forall (writesTo i) (inFlight x) /\
            exists sent, requests (app x) = (requests (app x) ++ sent)%list /\
                         Forall (writesTo i) sent).
  { split; [reflexivity|]. split; [exact Hf|].
    exists []. split; [now rewrite app_nil_r | constructor]. }
  assert (Hrun : forall e', calm e' = true ->
            let s' := stateOf (handler e' (app x)) in
            currentAssessmentId s' = currentAssessmentId (app x) /\
            Forall (writesTo i)
              (inFlight x ++ skipn (List.length (requests (app x))) (requests s')) /\
            exists sent, requests s' = (requests (app x) ++ sent)%list /\
                         Forall (writesTo i) sent).
  { intros e' Hc' s'. destruct (handler_sends e' i Hc' (app x) Hb) as (I & sent & R & F).
    fold s' in I, R. split; [exact I|]. split.
    - rewrite R, skipn_length_app. now apply Forall_app.
    - now exists sent. }
  destruct e; try discriminate Hc;
    try (cbn [step app inFlight]; apply Hrun; reflexivity).
  cbn [step]. destruct (nth_error (inFlight x) n) as [c|] eqn:En; [|exact Hsame].
  destruct (resumed env c a) as [code|] eqn:Er; [|exact Hsame].
  assert (Hw : writesTo i c).
  { rewrite Forall_forall in Hf. apply Hf. eapply nth_error_In, En. }
  destruct (resumed_keeps env i c a code Hw Er (app x)) as [I R].
  cbn [app inFlight]. split; [exact I|]. rewrite R. split.
  - replace (skipn _ _) with (@nil apiCall).
    + rewrite app_nil_r. now apply Forall_removeNth.
    + symmetry. rewrite <- (app_nil_r (requests (app x))) at 2. apply skipn_length_app.
  - exists []. split; [now rewrite app_nil_r | constructor].
Qed.

Lemma run_bound (events : list event) (x : Running) (i : string) :
  forallb calm events = true ->
  boundId (currentAssessmentId (app x)) = Some i ->
  Forall (writesTo i) (inFlight x) ->
  currentAssessmentId (app (run events x)) = currentAssessmentId (app x) /\
  Forall (writesTo i) (inFlight (run events x)) /\
  exists sent, requests (app (run events x)) = (requests (app x) ++ sent)%list /\
               Forall (writesTo i) sent.
Proof.
  revert x. induction events as [|e rest IH]; intros x Hc Hb Hf; cbn [run].
  - split; [reflexivity|]. split; [exact Hf|].
    exists []. split; [now rewrite app_nil_r | constructor].
  - destruct (left x).
    + split; [reflexivity|]. split; [exact Hf|].
      exists []. split; [now rewrite app_nil_r | constructor].
    + cbn [forallb] in Hc. apply andb_true_iff in Hc. destruct Hc as [Hc Hrest].
      destruct (step_bound e x i Hc Hb Hf) as (I1 & F1 & l1 & R1 & G1).
      destruct (IH (step e x) Hrest) as (I2 & F2 & l2 & R2 & G2);
        [now rewrite I1 | exact F1 |].
      split; [congruence|]. split; [exact F2|].
      exists (l1 ++ l2)%list. split.
      * now rewrite R2, R1, app_assoc.
      * now apply Forall_app.
Qed.

(** A create that settles accepted binds the identity it returns. *)
Lemma step_created (env : Env) (x : Running) (n : nat) (data : Payload) (i : string) :
  nth_error (inFlight x) n = Some (CreateAssessment data) ->
  app (step (Settles env n (Replied (Ok i))) x) =
    set_localStorage (Some (snapshot env (app x)))
      (add_notice (SuccessMessage "Assessment saved to database")
         (set_currentAssessmentId (Some i) (app x))) /\
  inFlight (step (Settles env n (Replied (Ok i))) x) = removeNth n (inFlight x).
Proof.
  intro H. cbn [step]. rewrite H. cbn [resumed].
  rewrite resumed_created. cbn [stateOf app inFlight]. split; [reflexivity|].
  cbn [requests set_localStorage add_notice set_currentAssessmentId].
  replace (skipn _ _) with (@nil apiCall); [apply app_nil_r|].
  symmetry. rewrite <- (app_nil_r (requests (app x))) at 2. apply skipn_length_app.
Qed.

End SessionFrames.

(** C6, as the code has it.  A save that is called while the user is
    authenticated sends one request at once: a create when no identity is
    bound at that moment, an update of the bound identity otherwise.  On
    a page that has all the rating fields the request carries every
    metric of the configuration, with 0 for a field left empty; it
    carries the trimmed subject name, or [Unknown] when that is blank.
    A save that is called while the user is not authenticated sends no
    create and no update: at most the logout that the test for
    authentication starts on a token that has expired or cannot be
    decoded.  No caller awaits a save, so others may be called before its
    request settles.  When a create settles accepted, whenever that
    comes, the identity it returns is bound from then on, if it is not
    empty.  And from any moment at which [i] is bound and no create, load
    or update of another identity is in flight, whatever happens on the
    page short of "start new" and the load of a record, in whatever
    order requests are sent and settle: [i] stays bound, and every
    request sent is an update of [i] or a logout. *)
Theorem autosave_create_or_update (env : Client.Env) (s : Client.App) :
  let data1 := Client.payloadOf env (Client.dom s) in
  (Client.authenticated env = true ->
     Client.saveToMongoDB_called env s =
       Client.Returns tt
         (Client.add_request
            (match Client.boundId (Client.currentAssessmentId s) with
             | None => Client.CreateAssessment data1
             | Some i => Client.UpdateAssessment i data1
             end) s)) /\
  (pageComplete (Client.dom s) ->
     Client.p_metrics data1 = map (fun i => (i, entered (Client.dom s) i)) Config.metricIds /\
     forall i, In i Config.metricIds ->
       Client.getElementById i (Client.dom s) = Some "" ->
       Obj.get i (Client.p_metrics data1) = Some (JS.ofZ 0)) /\
  Client.p_employeeName data1 =
    match Client.nameInput (Client.dom s) with
    | Some v => match JS.trim v with EmptyString => "Unknown" | n => n end
    | None => "Unknown"
    end /\
  (Client.authenticated env = false ->
     exists s', Client.saveToMongoDB_called env s = Client.Returns tt s' /\
       Client.currentAssessmentId s' = Client.currentAssessmentId s /\
       (Client.requests s' = Client.requests s \/
        Client.requests s' = (Client.requests s ++ [Client.Logout])%list)) /\
  (forall x n data i,
     nth_error (Session.inFlight x) n = Some (Client.CreateAssessment data) ->
     i <> "" ->
     let y := Session.step (Session.Settles env n (Session.Replied (Client.Ok i))) x in
     Client.boundId (Client.currentAssessmentId (Session.app y)) = Some i /\
     Client.requests (Session.app y) = Client.requests (Session.app x) /\
     Session.inFlight y = Session.removeNth n (Session.inFlight x)) /\
  (forall x i events,
     Client.boundId (Client.currentAssessmentId (Session.app x)) = Some i ->
     Forall (writesTo i) (Session.inFlight x) ->
     forallb calm events = true ->
     let y := Session.run events x in
     Client.currentAssessmentId (Session.app y)
       = Client.currentAssessmentId (Session.app x) /\
     Forall (writesTo i) (Session.inFlight y) /\
     exists sent,
       Client.requests (Session.app y) = (Client.requests (Session.app x) ++ sent)%list /\
       Forall (writesTo i) sent).
Proof.
  intro data1. split; [|split; [|split; [|split; [|split]]]].
  - intro Ha. rewrite (called_authenticated env s Ha). reflexivity.
  - intro Hpage.
    assert (Hm : Client.p_metrics data1
                 = map (fun i => (i, entered (Client.dom s) i)) Config.metricIds).
    { apply collectFormData_complete, Hpage. }
    split; [exact Hm|].
    intros i Hi Hempty. rewrite Hm, (get_map_key (entered (Client.dom s)) _ _ Hi).
    unfold entered. now rewrite Hempty.
  - subst data1. unfold Client.payloadOf. cbn [Client.p_employeeName].
    destruct (Client.nameInput (Client.dom s)) as [v|]; [|reflexivity].
    now destruct (JS.trim v).
  - intro Ha.
    rewrite (called_unauthenticated env s Ha), (save_unauthenticated env s Ha).
    eexists. split; [reflexivity|].
    destruct (refusal_frame env s) as (_ & _ & _ & I & _ & _ & _ & R).
    split; [exact I | exact R].
  - intros x n data i Hn Hi y. subst y.
    destruct (step_created env x n data i Hn) as [-> ->].
    split; [|split; reflexivity].
    cbn. destruct i; [contradiction | reflexivity].
  - intros x i events Hb Hf Hc y. subst y. now apply run_bound.
Qed.

Lemma autosave_create_or_update_witness :
  Client.saveToMongoDB_called (env_online "65f0c0ffee") app_fresh =
    Client.Returns tt
      (Client.add_request
         (Client.CreateAssessment
            (Client.payloadOf (env_online "65f0c0ffee") (Client.dom app_fresh)))
         app_fresh).
Proof.
  exact (proj1 (autosave_create_or_update (env_online "65f0c0ffee") app_fresh) eq_refl).
Defined.

(** C6 as stated fails in two ways.  When nobody is signed in, no
    identity is bound, the autosave runs, and no create is sent.  And when
    the user has typed a rating and a name, and the second debounce timer
    runs before the create of the first has settled, two creates are
    sent; each binds the identity it returns when it settles, so the
    identity [a] that the first successful create returned, and that was
    bound, is not the one the next write goes to. *)
Lemma autosave_not_as_stated :
  (Client.boundId (Client.currentAssessmentId app_fresh) = None /\
   Client.requests (Client.stateOf (Client.saveToMongoDB_called env_offline app_fresh))
   = []) /\
  let env := env_online "65f0c0ffee" in
  let x := Session.run (overlapping env "a" "b") (Session.started app_fresh) in
  let data1 := Client.payloadOf env (Client.dom (Session.app x)) in
  Client.requests (Session.app x) =
    [Client.CreateAssessment data1; Client.CreateAssessment data1;
     Client.UpdateAssessment "b" data1] /\
  Client.currentAssessmentId
    (Session.app (Session.run (firstn 5 (overlapping env "a" "b"))
                    (Session.started app_fresh))) = Some "a".
Proof.
  split; [split; reflexivity|]. cbv zeta. split; vm_compute; reflexivity.
Qed.

(** Once an identity is bound and nothing else is in flight, typing,
    timers, saves, imports and clearing in any order write to it alone. *)
Example session_writes_to_bound_identity :
  let env := env_online "65f0c0ffee" in
  let x := Session.started (Client.set_currentAssessmentId (Some "65f0c0ffee") app_fresh) in
  let y := Session.run
             [Session.InputRating "teams" "4"; Session.RatingsTimer env;
              Session.InputName "Jo"; Session.NameTimer env;
              Session.Settles env 1 (Session.Replied (Client.Rejected "Failed to fetch"));
              Session.ClearAll; Session.SaveShortcut env] x in
  Client.currentAssessmentId (Session.app y) = Some "65f0c0ffee" /\
  List.length (Client.requests (Session.app y)) = 3%nat /\
  Forall (writesTo "65f0c0ffee") (Client.requests (Session.app y)).
Proof.
  cbv zeta.
  destruct (run_bound
              [Session.InputRating "teams" "4"; Session.RatingsTimer (env_online "65f0c0ffee");
               Session.InputName "Jo"; Session.NameTimer (env_online "65f0c0ffee");
               Session.Settles (env_online "65f0c0ffee") 1
                 (Session.Replied (Client.Rejected "Failed to fetch"));
               Session.ClearAll; Session.SaveShortcut (env_online "65f0c0ffee")]
              (Session.started (Client.set_currentAssessmentId (Some "65f0c0ffee") app_fresh))
              "65f0c0ffee" eq_refl eq_refl (Forall_nil _))
    as (I & _ & sent & R & F).
  split; [exact I|]. split; [vm_compute; reflexivity|].
  rewrite R. exact F.
Qed.

(** ** The names the application holds *)

Section Names.
Import JS Client Json ClientRest Session.

Lemma staysTrimmed_refl (s : App) : staysTrimmed s s.
Proof. intro H. exact H. Qed.

Lemma staysTrimmed_trans (s1 s2 s3 : App) :
  staysTrimmed s1 s2 -> staysTrimmed s2 s3 -> staysTrimmed s1 s3.
Proof. unfold staysTrimmed. auto. Qed.

(** Statements built from what assigns no name, or a trimmed one that
    the context knows. *)
Ltac staying :=
  unfold showErrorMessage, showSuccessMessage, console_log, console_warn, console_error;
  repeat first
    [ apply preserves_ret; exact staysTrimmed_refl
    | apply preserves_throw; exact staysTrimmed_refl
    | apply preserves_gets; exact staysTrimmed_refl
    | apply preserves_modify; intros ? [? ?]; split; assumption
    | apply (preserves_bind staysTrimmed staysTrimmed_trans); [|intro]
    | apply (preserves_tryCatch staysTrimmed staysTrimmed_trans); [|intro]
    | apply (preserves_forEach staysTrimmed staysTrimmed_refl staysTrimmed_trans); intro
    | match goal with
      | |- preserves staysTrimmed (match ?x with _ => _ end) => destruct x
      end ].

Lemma updateChart_trimmed : preserves staysTrimmed updateChart.
Proof. unfold updateChart. staying. Qed.

Lemma saveToLocalStorage_trimmed (env : Env) :
  preserves staysTrimmed (saveToLocalStorage env).
Proof.
  intros s [H _]. rewrite saveToLocalStorage_eq. split; exact H.
Qed.

Lemma set_employeeName_trimmed (n : string) :
  trim n = n -> preserves staysTrimmed (modify (set_employeeName n)).
Proof. intros Hn s [_ H]. split; [exact Hn | exact H]. Qed.

Lemma ratingInput_trimmed (i v : string) : preserves staysTrimmed (ratingInput i v).
Proof. unfold ratingInput. staying. Qed.

(** Line 640: the name typed is trimmed by [sanitizeEmployeeName]. *)
Lemma nameInputListener_trimmed (v : string) :
  preserves staysTrimmed (nameInputListener v).
Proof.
  unfold nameInputListener.
  staying; apply set_employeeName_trimmed; apply trim_trim.
Qed.

Lemma saveToCSV_trimmed (env : Env) : preserves staysTrimmed (saveToCSV env).
Proof. unfold saveToCSV. staying. Qed.

(** Line 471: the name is cleared. *)
Lemma clearAll_trimmed : preserves staysTrimmed clearAll.
Proof.
  unfold clearAll. staying;
    first [apply updateChart_trimmed
          | apply set_employeeName_trimmed; reflexivity
          | intros s [H _]; split; [exact H | exact I]].
Qed.

Lemma newAssessment_trimmed : preserves staysTrimmed newAssessment.
Proof.
  unfold newAssessment.
  apply (preserves_bind staysTrimmed staysTrimmed_trans); [staying|].
  intros _.
  apply (preserves_bind staysTrimmed staysTrimmed_trans);
    [apply clearAll_trimmed | intros _; staying].
Qed.

Lemma loadRow_trimmed (rawLine : string) : preserves staysTrimmed (loadRow rawLine).
Proof. unfold loadRow. staying. Qed.

Lemma loadRows_trimmed (rows : list string) (n : nat) :
  preserves staysTrimmed (loadRows rows n).
Proof.
  revert n. induction rows as [|r rest IH]; intro n; cbn [loadRows].
  - staying.
  - apply (preserves_bind staysTrimmed staysTrimmed_trans);
      [apply loadRow_trimmed | intro; apply IH].
Qed.

Lemma loadFromCSV_onload_trimmed (env : Env) (result : string) :
  preserves staysTrimmed (loadFromCSV_onload env result).
Proof.
  unfold loadFromCSV_onload, parseAndLoadCSV. cbv zeta.
  staying; first [apply loadRows_trimmed | apply updateChart_trimmed
                 | apply saveToLocalStorage_trimmed].
Qed.

Lemma signedIn_trimmed (env : Env) : preserves staysTrimmed (signedIn env).
Proof. unfold signedIn, isAuthenticated, authManager_logout. staying. Qed.

Lemma saveFailed_trimmed (env : Env) (error : exn) :
  preserves staysTrimmed (saveFailed env error).
Proof. unfold saveFailed. staying. Qed.

Lemma called_trimmed (env : Env) : preserves staysTrimmed (saveToMongoDB_called env).
Proof.
  unfold saveToMongoDB_called. cbv zeta.
  staying; first [apply signedIn_trimmed | apply saveToLocalStorage_trimmed
                 | apply saveFailed_trimmed].
Qed.

Lemma save_resumed_trimmed (env : Env) (c : apiCall) (r : reply) :
  preserves staysTrimmed (saveToMongoDB_resumed env c r).
Proof.
  unfold saveToMongoDB_resumed.
  staying; first [apply saveToLocalStorage_trimmed | apply saveFailed_trimmed].
Qed.

Lemma logout_resumed_trimmed (r : reply) :
  preserves staysTrimmed (authManager_logout_resumed r).
Proof.
  unfold authManager_logout_resumed.
  staying; intros s [H _]; split; [exact H | exact I].
Qed.

Lemma load_called_trimmed (env : Env) (assessmentId : string) :
  preserves staysTrimmed (loadAssessment_called env assessmentId).
Proof.
  unfold loadAssessment_called, loadFailed. staying; apply signedIn_trimmed.
Qed.

Lemma propM_bind {B} (P : App -> App -> Prop) (k : string) (v : value)
    (f : value -> M B) :
  (forall s, P s s) ->
  (forall x, prop k v = Some x -> preserves P (f x)) ->
  preserves P (bind (propM k v) f).
Proof.
  intros Hrefl H s. unfold bind, propM.
  destruct (prop k v) as [x|]; [now apply H | apply Hrefl].
Qed.

(** Line 371: the name a response carries is taken as it is. *)
Lemma restoreAssessment_trimmed (response : fetchResult) :
  (forall n, servedName response = Some n -> trim n = n) ->
  preserves staysTrimmed (restoreAssessment response).
Proof.
  intro Hn. unfold restoreAssessment. destruct response as [d|m].
  - intro s. unfold bind at 1, ret at 1. revert s.
    apply (propM_bind staysTrimmed); [exact staysTrimmed_refl|].
    intros assessment Ea.
    apply (propM_bind staysTrimmed); [exact staysTrimmed_refl|].
    intros i _.
    apply (preserves_bind staysTrimmed staysTrimmed_trans); [staying|].
    intros _.
    apply (propM_bind staysTrimmed); [exact staysTrimmed_refl|].
    intros name En.
    apply (preserves_bind staysTrimmed staysTrimmed_trans); [staying|].
    intro dm.
    apply (preserves_bind staysTrimmed staysTrimmed_trans).
    + destruct (nameInput dm); [|staying].
      destruct name as [n|]; [|staying].
      destruct (truthy (Some n)) eqn:Et; [|staying].
      apply (preserves_bind staysTrimmed staysTrimmed_trans); [staying|].
      intros _. apply set_employeeName_trimmed. apply Hn.
      cbn [servedName]. now rewrite Ea, En, Et.
    + intros _. apply (propM_bind staysTrimmed); [exact staysTrimmed_refl|].
      intros metrics _. staying; apply updateChart_trimmed.
  - intro s. apply staysTrimmed_refl.
Qed.

Lemma load_resumed_trimmed (response : fetchResult) :
  (forall n, servedName response = Some n -> trim n = n) ->
  preserves staysTrimmed (loadAssessment_resumed response).
Proof.
  intro Hn. unfold loadAssessment_resumed, loadFailed.
  apply (preserves_tryCatch staysTrimmed staysTrimmed_trans).
  - now apply restoreAssessment_trimmed.
  - intro. staying.
Qed.

(** Line 273: the name of the saved item is taken as it is. *)
Lemma loadFromLocalStorage_trimmed : preserves staysTrimmed loadFromLocalStorage.
Proof.
  intros s Hs.
  assert (Hgen : forall saved,
    match saved with
    | Some item => trim (saved_employeeName item) = saved_employeeName item
    | None => True
    end ->
    preserves staysTrimmed
      (tryCatch
         (match saved with
          | None => ret tt
          | Some data =>
              d <- gets dom ;;
              match nameInput d, saved_employeeName data with
              | Some _, String _ _ =>
                  modify (set_dom {| numberInputs := numberInputs d;
                                     nameInput := Some (saved_employeeName data) |}) ;;;
                  modify (set_employeeName (saved_employeeName data))
              | _, _ => ret tt
              end ;;;
              forEach (saved_formData data) (fun kv =>
                d' <- gets dom ;;
                match getElementById (fst kv) d' with
                | Some _ => modify (set_dom (setValue (fst kv) (snd kv) d'))
                | None => ret tt
                end) ;;;
              updateChart
          end)
         (fun _ => console_error "Failed to load saved data:"))).
  { intros [item|] Hitem; [|staying].
    apply (preserves_tryCatch staysTrimmed staysTrimmed_trans); [|intro; staying].
    apply (preserves_bind staysTrimmed staysTrimmed_trans); [staying|]. intro d.
    apply (preserves_bind staysTrimmed staysTrimmed_trans).
    - destruct (nameInput d); [|staying].
      destruct (saved_employeeName item) eqn:E; [staying|].
      apply (preserves_bind staysTrimmed staysTrimmed_trans); [staying|].
      intros _. now apply set_employeeName_trimmed.
    - intros _. staying; apply updateChart_trimmed. }
  exact (Hgen (localStorage s) (proj2 Hs) s Hs).
Qed.

Lemma handler_trimmed (e : event) : preserves staysTrimmed (handler e).
Proof.
  destruct e; cbn [handler].
  - apply ratingInput_trimmed.
  - apply nameInputListener_trimmed.
  - unfold debouncedUpdate.
    apply (preserves_bind staysTrimmed staysTrimmed_trans);
      [apply updateChart_trimmed | intros _; apply called_trimmed].
  - apply called_trimmed.
  - apply called_trimmed.
  - apply saveToCSV_trimmed.
  - apply loadFromCSV_onload_trimmed.
  - apply clearAll_trimmed.
  - apply newAssessment_trimmed.
  - apply load_called_trimmed.
  - apply (preserves_ret staysTrimmed staysTrimmed_refl).
Qed.

Lemma step_trimmed (e : event) (x : Running) :
  servesTrimmed e -> namesTrimmed (app x) -> namesTrimmed (app (step e x)).
Proof.
  intros He Hx.
  destruct e; try (cbn [step app]; now apply handler_trimmed).
  cbn [step]. destruct (nth_error (inFlight x) n) as [c|]; [|exact Hx].
  destruct (resumed env c a) as [code|] eqn:Er; [|exact Hx].
  cbn [app].
  destruct c, a; cbn [resumed] in Er; try discriminate; inversion Er; subst.
  - now apply save_resumed_trimmed.
  - now apply save_resumed_trimmed.
  - now apply load_resumed_trimmed.
  - now apply logout_resumed_trimmed.
Qed.

(** Whatever happens on the page, the name the application holds has no
    surrounding whitespace, as long as the remote store serves none that
    has. *)
Lemma run_trimmed (events : list event) (x : Running) :
  Forall servesTrimmed events ->
  namesTrimmed (app x) -> namesTrimmed (app (run events x)).
Proof.
  revert x. induction events as [|e rest IH]; intros x He Hx; cbn [run]; [exact Hx|].
  destruct (left x); [exact Hx|].
  inversion He; subst. apply IH; [assumption|]. now apply step_trimmed.
Qed.

Lemma initial_trimmed (d : Dom) : namesTrimmed (initial d).
Proof. split; [reflexivity | exact I]. Qed.

(** So the export of a session is named by the three steps: on the name
    held after any events, [saveToCSV] offers the file under the stated
    name. *)
Lemma session_export_named (events : list event) (x : Running) (env : Env)
    (date rest : string) :
  Forall servesTrimmed events ->
  namesTrimmed (app x) ->
  now env = date ++ "T" ++ rest ->
  lacks "T" date = true ->
  let s := app (run events x) in
  saveToCSV env s =
    Returns tt
      (add_download (Stated.filename (employeeName s) date, csvOf (numberInputs (dom s))) s).
Proof.
  intros He Hx Hnow Hdate s.
  destruct (run_trimmed events x He Hx) as [Ht _]. fold s in Ht.
  unfold saveToCSV, tryCatch, bind, gets, modify.
  rewrite (csvFilename_eq env (employeeName s) date rest Hnow Hdate).
  unfold Stated.filename. now rewrite Ht.
Qed.

End Names.
